(** * SnapNote backend: a shallow embedding of the journal, user and auth code

    The development follows the layout of [backend/src]:
    - [JS]            the fragment of JavaScript's String, Date and Number
                      behaviour the controllers rely on;
    - [Helpers]       [utils/helpers.js] (its token functions in [Tokens]);
    - [Validator]     the express-validator chains of [routes/journal.js];
    - [JournalEntry]  [models/JournalEntry.js] and its collection;
    - [JournalController]  [controllers/journalController.js];
    - [Jwt], [Lib]    jsonwebtoken, and bcryptjs and speakeasy as given;
    - [User]          [models/User.js] and its collection;
    - [AuthController], [UserController]  the two other controllers.

    Instants are milliseconds since the epoch ([Z]); strings are lists of
    UTF-16 code units, as [String.prototype.length], [trim], [slice] and
    the regular expressions of the source see them.  A handler takes the
    collection it works on and what it reads of the request and of its
    environment (the clock, generated ids), and returns the collection it
    leaves and its response.  The handlers are modelled from the point
    where the router calls them: the rate limiters in front of them are
    not part of the model. *)

From Stdlib Require Import ZArith List Bool Lia String Ascii QArith SpecFloat.
Import ListNotations.

Open Scope Z_scope.

(* ================================================================== *)
(** ** JavaScript primitives *)
(* ================================================================== *)

Module JS.

(** A UTF-16 code unit. *)
Definition char16 := N.

(** A JavaScript string value. *)
Definition jsstring := list char16.

(** ASCII literals of the source, as code units. *)
Definition lit (s : string) : jsstring :=
  List.map N_of_ascii (list_ascii_of_string s).

Definition str_eq_dec : forall a b : jsstring, {a = b} + {a <> b} :=
  list_eq_dec N.eq_dec.

(** [a === b] on strings. *)
Definition str_eqb (a b : jsstring) : bool :=
  if str_eq_dec a b then true else false.

(** The class [\s] of regular expressions, which is also what
    [String.prototype.trim] strips: WhiteSpace and LineTerminator. *)
Definition isSpace (c : char16) : bool :=
  ((9 <=? c) && (c <=? 13) || (c =? 32) || (c =? 160) || (c =? 5760)
   || (8192 <=? c) && (c <=? 8202) || (c =? 8232) || (c =? 8233)
   || (c =? 8239) || (c =? 8287) || (c =? 12288) || (c =? 65279))%N.

Fixpoint dropSpaces (s : jsstring) : jsstring :=
  match s with
  | [] => []
  | c :: s' => if isSpace c then dropSpaces s' else s
  end.

(** [s.trim()] *)
Definition trim (s : jsstring) : jsstring :=
  rev (dropSpaces (rev (dropSpaces s))).

(** [s.slice(0, n)] for [0 <= n]. *)
Definition slice0 (n : nat) (s : jsstring) : jsstring := firstn n s.

(** The pieces of [s.split(/\s+/)]: [acc] is the piece being read,
    reversed; [inSep] says that the previous unit was whitespace, so a
    further whitespace unit belongs to the same (greedy) separator. *)
Fixpoint splitGo (acc : jsstring) (inSep : bool) (s : jsstring)
  : list jsstring :=
  match s with
  | [] => [rev acc]
  | c :: s' =>
      if isSpace c
      then if inSep then splitGo acc true s'
           else rev acc :: splitGo [] true s'
      else splitGo (c :: acc) false s'
  end.

(** [s.split(/\s+/)] *)
Definition splitWhitespace (s : jsstring) : list jsstring :=
  splitGo [] false s.

(** *** Dates *)

Definition msPerDay : Z := 86400000.

(** Day number of an instant in UTC (days since 1970-01-01). *)
Definition utcDay (t : Z) : Z := t / msPerDay.

(** Year, month and day of month of a day number in the proleptic
    Gregorian calendar (the [YearFromTime], [MonthFromTime] and
    [DateFromTime] of ECMAScript). *)
Definition civilFromDays (days : Z) : Z * Z * Z :=
  let z := days + 719468 in
  let era := z / 146097 in
  let doe := z - era * 146097 in
  let yoe := (doe - doe / 1460 + doe / 36524 - doe / 146096) / 365 in
  let doy := doe - (365 * yoe + yoe / 4 - yoe / 100) in
  let mp := (5 * doy + 2) / 153 in
  let d := doy - (153 * mp + 2) / 5 + 1 in
  let m := if mp <? 10 then mp + 3 else mp - 9 in
  let y := yoe + era * 400 + (if m <=? 2 then 1 else 0) in
  (y, m, d).

(** The [w] low decimal digits of [n], most significant first. *)
Fixpoint padDigits (w : nat) (n : Z) : jsstring :=
  match w with
  | O => []
  | S w' => padDigits w' (n / 10) ++ [Z.to_N (48 + n mod 10)]
  end.

(** The year of [toISOString]: four digits for 0..9999, otherwise a sign
    and six digits. *)
Definition isoYear (y : Z) : jsstring :=
  if (0 <=? y) && (y <=? 9999) then padDigits 4 y
  else if y <? 0 then lit "-" ++ padDigits 6 (- y)
  else lit "+" ++ padDigits 6 y.

(** [date.toISOString().split('T')[0]]: the UTC calendar date of the
    instant, as YYYY-MM-DD. *)
Definition toISODate (t : Z) : jsstring :=
  let '(y, m, d) := civilFromDays (utcDay t) in
  isoYear y ++ lit "-" ++ padDigits 2 m ++ lit "-" ++ padDigits 2 d.

(** The time zone of the server, by its rules: [utcOffset t] is the
    offset of local time from UTC, in milliseconds, in force at the
    instant [t] (ECMAScript's LocalTZA(t, true)); [localOffset l] is the
    offset by which the local time value [l] is read back
    (LocalTZA(l, false)): in a local time that a transition repeats or
    skips, the offset before the transition. *)
Record Zone := mkZone {
  utcOffset : Z -> Z;
  localOffset : Z -> Z
}.

(** A zone without transitions, UTC among them. *)
Definition fixedZone (tz : Z) : Zone := mkZone (fun _ => tz) (fun _ => tz).

(** ECMAScript's [LocalTime] and [UTC]. *)
Definition LocalTime (z : Zone) (t : Z) : Z := t + utcOffset z t.
Definition UTC (z : Zone) (l : Z) : Z := l - localOffset z l.

(** The calendar date [toDateString] prints, in the server's time zone.
    The date is identified by its day number, of which the printed text
    is an injective rendering. *)
Definition toDateString (z : Zone) (t : Z) : Z := LocalTime z t / msPerDay.

(** [d.setDate(d.getDate() - 1)]: the same local time on the previous
    local calendar day, read back as an instant. *)
Definition setDatePrev (z : Zone) (t : Z) : Z :=
  UTC z (LocalTime z t - msPerDay).

(** *** Numbers *)

(** IEEE 754 binary64, the Number type. *)
Definition prec : Z := 53.
Definition emax : Z := 1024.

(** The Number value of an integer. *)
Definition ofZ (z : Z) : spec_float := binary_normalize prec emax z 0 false.

Definition fdiv : spec_float -> spec_float -> spec_float := SFdiv prec emax.
Definition fmul : spec_float -> spec_float -> spec_float := SFmul prec emax.

(** [Math.round]: the nearest integer, ties towards plus infinity;
    [None] stands for NaN and the infinities. *)
Definition Math_round (x : spec_float) : option Z :=
  match x with
  | S754_zero _ => Some 0
  | S754_finite s m e =>
      let v := if s then Z.neg m else Z.pos m in
      Some (if 0 <=? e then v * 2 ^ e
            else (2 * v + 2 ^ (- e)) / 2 ^ (1 - e))
  | S754_infinity _ | S754_nan => None
  end.

End JS.

Import JS.

(* ================================================================== *)
(** ** utils/helpers.js *)
(* ================================================================== *)

Module Helpers.

Definition isAngle (c : char16) : bool := ((c =? 60) || (c =? 62))%N.

(** [sanitizeInput], on a string argument:
    [input.trim().replace(/[<>]/g, '').slice(0, 2000)]. *)
Definition sanitizeInput (input : jsstring) : jsstring :=
  slice0 2000 (filter (fun c => negb (isAngle c)) (trim input)).

(** [formatDateString(date)]: [date.toISOString().split('T')[0]]. *)
Definition formatDateString (date : Z) : jsstring := toISODate date.

(** [isToday(date)], evaluated at the instant [now] on a server in the
    zone [z]: [checkDate.toDateString() === today.toDateString()]. *)
Definition isToday (z : Zone) (now date : Z) : bool :=
  toDateString z date =? toDateString z now.

Definition isUpper (c : char16) : bool := ((65 <=? c) && (c <=? 90))%N.
Definition isLower (c : char16) : bool := ((97 <=? c) && (c <=? 122))%N.
Definition isDigit (c : char16) : bool := ((48 <=? c) && (c <=? 57))%N.

(** The character class of [hasSpecialChar]; code unit 34 is the
    double quote. *)
Definition isSpecialChar (c : char16) : bool :=
  existsb (N.eqb c) (lit "!@#$%^&*(),.?" ++ [34%N] ++ lit ":{}|<>").

(** [validatePassword(password).errors]; [isValid] is [errors.length === 0]. *)
Definition validatePassword (password : jsstring) : list string :=
  (if (List.length password <? 8)%nat
   then ["Password must be at least 8 characters long"%string] else [])
  ++ (if existsb isUpper password then []
      else ["Password must contain at least one uppercase letter"%string])
  ++ (if existsb isLower password then []
      else ["Password must contain at least one lowercase letter"%string])
  ++ (if existsb isDigit password then []
      else ["Password must contain at least one number"%string])
  ++ (if existsb isSpecialChar password then []
      else ["Password must contain at least one special character"%string]).

Definition isValid (errors : list string) : bool :=
  match errors with [] => true | _ => false end.

End Helpers.

Import Helpers.

(* ================================================================== *)
(** ** The express-validator chains of routes/journal.js *)
(* ================================================================== *)

Module Validator.

Definition isHighSurrogate (c : char16) : bool :=
  ((55296 <=? c) && (c <=? 56319))%N.
Definition isLowSurrogate (c : char16) : bool :=
  ((56320 <=? c) && (c <=? 57343))%N.
Definition isPresentationSelector (c : char16) : bool :=
  ((c =? 65038) || (c =? 65039))%N.

(** Matches of [/[\uD800-\uDBFF][\uDC00-\uDFFF]/g]. *)
Fixpoint surrogatePairs (s : jsstring) : nat :=
  match s with
  | [] => O
  | c :: s' =>
      match s' with
      | d :: _ =>
          if isHighSurrogate c && isLowSurrogate d
          then S (surrogatePairs s') else surrogatePairs s'
      | [] => O
      end
  end.

(** The length validator.js's [isLength] compares with its bounds:
    [str.length] minus the variation selectors U+FE0E and U+FE0F and
    minus one per surrogate pair. *)
Definition vLength (s : jsstring) : nat :=
  (List.length s - List.length (filter isPresentationSelector s)
   - surrogatePairs s)%nat.

(** [isLength({ min, max })] *)
Definition isLength (min max : nat) (s : jsstring) : bool :=
  ((min <=? vLength s) && (vLength s <=? max))%nat.

Definition moods : list jsstring :=
  [lit "very-happy"; lit "happy"; lit "neutral"; lit "sad"; lit "very-sad"].

(** [isIn(values)] *)
Definition isIn (values : list jsstring) (s : jsstring) : bool :=
  existsb (str_eqb s) values.

(** [.isNumeric().isFloat({ min: 1, max: 60 })] on a JSON number.  Every
    number in the interval prints in plain decimal notation, which is
    what [isNumeric] asks for, so the chain passes exactly on the
    interval. *)
Definition isDuration (d : Q) : bool :=
  Qle_bool (1 # 1) d && Qle_bool d (60 # 1).

(** Whether [String(d)] is in exponent notation: the number is not zero
    and its absolute value is below 1e-6 or at least 1e21.  [isNumeric]
    matches every other rendering of a number and none with an
    exponent. *)
Definition printsExponent (d : Q) : bool :=
  let a := if Qle_bool 0 d then d else Qopp d in
  negb (Qeq_bool d 0)
  && (negb (Qle_bool (1 # 1000000) a)
      || Qle_bool (1000000000000000000000 # 1) a).

(** The body fields of POST /entries. *)
Record Body := mkBody {
  content : jsstring;
  writingDuration : Q;
  mood : option jsstring;
  tags : option (list jsstring)
}.

(** The chains' sanitizers write back into [req.body]: [content] and
    every element of [tags] are trimmed. *)
Definition sanitized (b : Body) : Body :=
  {| content := trim (content b);
     writingDuration := writingDuration b;
     mood := mood b;
     tags := option_map (List.map trim) (tags b) |}.

(** The messages of the chains that fail on a (sanitized) body, as
    [withMessage] gives them; [isNumeric], which has no message of its
    own, reports 'Invalid value'. *)
Definition chainErrors (b : Body) : list string :=
  (if isLength 1 2000 (content b) then []
   else ["Content must be between 1 and 2000 characters"%string])
  ++ (if printsExponent (writingDuration b) then ["Invalid value"%string]
      else [])
  ++ (if isDuration (writingDuration b) then []
      else ["Writing duration must be between 1 and 60 seconds"%string])
  ++ (match mood b with
      | Some m => if isIn moods m then [] else ["Invalid mood value"%string]
      | None => []
      end)
  ++ (match tags b with
      | Some ts =>
          flat_map
            (fun t =>
               if isLength 1 50 t then []
               else ["Each tag must be between 1 and 50 characters"%string])
            ts
      | None => []
      end).

(** [validationResult(req).array()] after [createEntryValidation]: the
    validators of a chain run on what its sanitizers left. *)
Definition createEntryValidation (b : Body) : list string :=
  chainErrors (sanitized b).

End Validator.

(* ================================================================== *)
(** ** models/JournalEntry.js *)
(* ================================================================== *)

(** A MongoDB ObjectId. *)
Definition ObjectId := N.

Module JournalEntry.

Record Metadata := mkMetadata {
  ipAddress : jsstring;
  userAgent : option jsstring;
  timezone : jsstring
}.

(** The schema's paths (the [timestamps] pair is left out). *)
Record t := mk {
  _id : ObjectId;
  userId : ObjectId;
  content : jsstring;
  wordCount : nat;
  characterCount : nat;
  writingDuration : Q;
  entryDate : Z;
  dateString : jsstring;
  mood : jsstring;
  tags : list jsstring;
  isCompleted : bool;
  metadata : Metadata
}.

(** A document in memory: its paths and what Mongoose tracks about it. *)
Record Document := mkDocument {
  doc : t;
  isNew : bool;
  modifiedContent : bool;     (* isModified('content') *)
  modifiedEntryDate : bool    (* isModified('entryDate') *)
}.

(** [new JournalEntry({...})]: the setter [trim: true] of [content] is
    applied, the counts take their default 0 and [isCompleted] its
    default [true]; every path that was given is marked modified. *)
Definition new (id uid : ObjectId) (content : jsstring) (dur : Q)
    (mood : jsstring) (tags : list jsstring) (entryDate : Z)
    (dateString : jsstring) (md : Metadata) : Document :=
  {| doc := {| _id := id; userId := uid; content := trim content;
               wordCount := 0; characterCount := 0;
               writingDuration := dur; entryDate := entryDate;
               dateString := dateString; mood := mood; tags := tags;
               isCompleted := true; metadata := md |};
     isNew := true; modifiedContent := true; modifiedEntryDate := true |}.

(** The word count of the pre-save hook:
    [content.trim() ? content.trim().split(/\s+/).length : 0]. *)
Definition countWords (content : jsstring) : nat :=
  match trim content with
  | [] => O
  | _ :: _ => List.length (splitWhitespace (trim content))
  end.

(** [journalEntrySchema.pre('save', ...)] *)
Definition preSave (d : Document) : Document :=
  let e := doc d in
  let e1 :=
    if modifiedContent d
    then mk (_id e) (userId e) (content e)
            (countWords (content e)) (List.length (content e))
            (writingDuration e) (entryDate e) (dateString e) (mood e)
            (tags e) (isCompleted e) (metadata e)
    else e in
  let e2 :=
    if modifiedEntryDate d || isNew d
    then mk (_id e1) (userId e1) (content e1) (wordCount e1)
            (characterCount e1) (writingDuration e1) (entryDate e1)
            (toISODate (entryDate e1)) (mood e1) (tags e1)
            (isCompleted e1) (metadata e1)
    else e1 in
  mkDocument e2 (isNew d) (modifiedContent d) (modifiedEntryDate d).

(** The schema's validators, run before the pre-save hook: the paths
    that fail. *)
Definition validate (e : t) : list string :=
  (match content e with [] => ["content"%string] | _ => [] end)
  ++ (if (List.length (content e) <=? 2000)%nat then []
      else ["content"%string])
  ++ (if Qle_bool (writingDuration e) (60 # 1) then []
      else ["writingDuration"%string])
  ++ (match dateString e with [] => ["dateString"%string] | _ => [] end)
  ++ (if Validator.isIn Validator.moods (mood e) then [] else ["mood"%string])
  ++ (if forallb (fun tag => (List.length tag <=? 50)%nat) (tags e) then []
      else ["tags"%string]).

(** *** The collection *)

Definition Collection := list t.

(** [JournalEntry.findOne({ userId, dateString })] *)
Definition findOneByDay (c : Collection) (uid : ObjectId) (day : jsstring)
  : option t :=
  find (fun e => (userId e =? uid)%N && str_eqb (dateString e) day) c.

(** [JournalEntry.findOne({ _id, userId })] *)
Definition findOneById (c : Collection) (id uid : ObjectId) : option t :=
  find (fun e => (_id e =? id)%N && (userId e =? uid)%N) c.

(** [JournalEntry.countDocuments({ userId })] *)
Definition countDocuments (c : Collection) (uid : ObjectId) : nat :=
  List.length (filter (fun e => (userId e =? uid)%N) c).

(** [JournalEntry.deleteMany({ userId })] *)
Definition deleteMany (c : Collection) (uid : ObjectId) : Collection :=
  filter (fun e => negb (userId e =? uid)%N) c.

Inductive SaveError :=
| ValidationError (paths : list string)
| DuplicateKey.                      (* error.code === 11000 *)

(** The insert the store performs: atomic with respect to the unique
    index [{ userId: 1, dateString: 1 }] and to the unique index on
    [_id]. *)
Definition insertOne (c : Collection) (e : t) : SaveError + Collection :=
  if existsb (fun x => (userId x =? userId e)%N
                       && str_eqb (dateString x) (dateString e)) c
     || existsb (fun x => (_id x =? _id e)%N) c
  then inl DuplicateKey
  else inr (c ++ [e]).

(** [document.save()] of a new document: validation, the pre-save hook,
    then the insert. *)
Definition save (c : Collection) (d : Document)
  : SaveError + (Collection * t) :=
  match validate (doc d) with
  | (_ :: _) as paths => inl (ValidationError paths)
  | [] =>
      let e := doc (preSave d) in
      match insertOne c e with
      | inl err => inl err
      | inr c' => inr (c', e)
      end
  end.

End JournalEntry.

(* ================================================================== *)
(** ** controllers/journalController.js *)
(* ================================================================== *)

Module JournalController.

Import JournalEntry.

(** What [createEntry] reads of the request; [req_userId] is the
    identity [authMiddleware] attached. *)
Record Request := mkRequest {
  req_userId : ObjectId;
  req_body : Validator.Body;
  req_ip : jsstring;
  req_userAgent : option jsstring;
  req_timezone : option jsstring       (* req.headers['timezone'] *)
}.

(** What the handler reads of its environment: the clock at
    [formatDateString()], the clock at [new Date()] for [entryDate], and
    the ObjectId the driver generates for the new document. *)
Record Env := mkEnv {
  tCheck : Z;
  tNew : Z;
  newId : ObjectId
}.

Inductive Response :=
| Json (status : Z) (error message : string)
| ValidationFailed (details : list string)        (* 400 *)
| Created (entry : JournalEntry.t)                (* 201 *)
| Found (entry : JournalEntry.t).                 (* 200 *)

Definition status (r : Response) : Z :=
  match r with
  | Json st _ _ => st
  | ValidationFailed _ => 400
  | Created _ => 201
  | Found _ => 200
  end.

Definition entryExists : Response :=
  Json 400 "Entry already exists"
       "You have already written your journal entry for today".

(** [x || d] on an optional string. *)
Definition orElse (x : option jsstring) (d : jsstring) : jsstring :=
  match x with
  | Some (c :: s) => c :: s
  | _ => d
  end.

(** [createEntry] up to and including [new JournalEntry({...})]: either
    the response of an early return, or the document about to be saved. *)
Definition prepare (c : Collection) (env : Env) (req : Request)
  : Response + Document :=
  match Validator.createEntryValidation (req_body req) with
  | (_ :: _) as details => inl (ValidationFailed details)
  | [] =>
      let body := Validator.sanitized (req_body req) in
      let sanitizedContent := sanitizeInput (Validator.content body) in
      match trim sanitizedContent with
      | [] => inl (Json 400 "Content is required"
                        "Journal entry cannot be empty")
      | _ :: _ =>
          if negb (Qle_bool (Validator.writingDuration body) (60 # 1))
          then inl (Json 400 "Invalid writing duration"
                         "Writing duration cannot exceed 60 seconds")
          else
            let today := formatDateString (tCheck env) in
            match findOneByDay c (req_userId req) today with
            | Some _ => inl entryExists
            | None =>
                inr (JournalEntry.new (newId env) (req_userId req)
                       sanitizedContent
                       (Validator.writingDuration body)
                       (orElse (Validator.mood body) (lit "neutral"))
                       (match Validator.tags body with
                        | Some ts =>
                            filter (fun t => match t with
                                             | [] => false
                                             | _ => true
                                             end)
                                   (List.map sanitizeInput ts)
                        | None => []
                        end)
                       (tNew env)
                       today
                       (mkMetadata (req_ip req) (req_userAgent req)
                          (orElse (req_timezone req) (lit "UTC"))))
            end
      end
  end.

(** [await journalEntry.save()] and what follows it, the [catch] block
    included. *)
Definition commit (c : Collection) (d : Document) : Collection * Response :=
  match save c d with
  | inr (c', e) => (c', Created e)
  | inl DuplicateKey => (c, entryExists)
  | inl (ValidationError _) =>
      (c, Json 500 "Failed to create entry"
               "An error occurred while creating the journal entry")
  end.

(** [createEntry], run without interruption. *)
Definition createEntry (c : Collection) (env : Env) (req : Request)
  : Collection * Response :=
  match prepare c env req with
  | inl r => (c, r)
  | inr d => commit c d
  end.

(** The [:entryId] parameter as the query's cast to ObjectId sees it. *)
Inductive IdParam :=
| Malformed (raw : jsstring)      (* the cast throws a CastError *)
| Oid (id : ObjectId).

(** [getEntry] *)
Definition getEntry (c : Collection) (uid : ObjectId) (entryId : IdParam)
  : Response :=
  match entryId with
  | Malformed _ =>
      Json 500 "Failed to fetch entry"
           "An error occurred while fetching the journal entry"
  | Oid id =>
      match findOneById c id uid with
      | None => Json 404 "Entry not found"
                     "The requested journal entry was not found"
      | Some e => Found e
      end
  end.

(** The streak loop of [getStats], started at [checkDate] with
    [currentStreak] days counted; [now] is the instant of the request
    and [z] the server's time zone.  The result carries the day keys
    looked up, in order.  [fuel] bounds the iterations of
    [while (true)]. *)
Fixpoint streakLoop (fuel : nat) (c : Collection) (uid : ObjectId)
    (z : Zone) (now checkDate currentStreak : Z)
  : option (Z * list jsstring) :=
  match fuel with
  | O => None
  | S fuel' =>
      let dateString := formatDateString checkDate in
      let continue r :=
        match r with
        | Some (n, keys) => Some (n, dateString :: keys)
        | None => None
        end in
      match findOneByDay c uid dateString with
      | None =>
          if isToday z now checkDate
          then continue (streakLoop fuel' c uid z now
                           (setDatePrev z checkDate) currentStreak)
          else Some (currentStreak, [dateString])
      | Some _ =>
          if 365 <=? currentStreak + 1
          then Some (currentStreak + 1, [dateString])
          else continue (streakLoop fuel' c uid z now
                           (setDatePrev z checkDate) (currentStreak + 1))
      end
  end.

(** Iterations that always suffice: today, skipped, and 365 counted
    days. *)
Definition streakFuel : nat := 366.

(** [summary.currentStreak] of [getStats]. *)
Definition currentStreak (c : Collection) (uid : ObjectId) (z : Zone)
    (now : Z) : option (Z * list jsstring) :=
  streakLoop streakFuel c uid z now now 0.

End JournalController.

(* ================================================================== *)
(** ** jsonwebtoken, bcryptjs, speakeasy: what the code relies on *)
(* ================================================================== *)

Module Jwt.

(** A token that verifies under some secret is determined by that
    secret and its claims: [jwt.sign] with HS256 is a function of the
    payload, the secret and the clock in whole seconds. *)
Record Claims := mkClaims {
  signedWith : jsstring;
  userId : ObjectId;
  iat : Z;                  (* seconds *)
  exp : Z                   (* seconds *)
}.

(** A token string as a client may present it. *)
Inductive Token :=
| Garbage (raw : jsstring)          (* not a JWT at all *)
| Signed (claims : Claims).

Definition claims_eq_dec : forall a b : Claims, {a = b} + {a <> b}.
Proof.
  decide equality; auto using Z.eq_dec, N.eq_dec, str_eq_dec.
Defined.

Definition token_eq_dec : forall a b : Token, {a = b} + {a <> b}.
Proof.
  decide equality; auto using claims_eq_dec, str_eq_dec.
Defined.

(** [a === b] on token strings. *)
Definition token_eqb (a b : Token) : bool :=
  if token_eq_dec a b then true else false.

(** The empty string, which is falsy. *)
Definition isEmpty (t : Token) : bool :=
  match t with
  | Garbage [] => true
  | _ => false
  end.

(** [jwt.sign] throws when the secret is unset or the empty string
    ('secretOrPrivateKey must have a value'). *)
Definition signThrows (secret : jsstring) : bool :=
  match secret with
  | [] => true
  | _ :: _ => false
  end.

(** [jwt.sign({ userId }, secret, { expiresIn })] at the instant [now],
    with [expiresIn] in seconds: the token it returns when it does not
    throw. *)
Definition sign (uid : ObjectId) (secret : jsstring) (expiresIn now : Z)
  : Token :=
  Signed (mkClaims secret uid (now / 1000) (now / 1000 + expiresIn)).

Inductive VerifyError := JsonWebTokenError | TokenExpiredError.

(** [jwt.verify(token, secret)] at the instant [now]. *)
Definition verify (t : Token) (secret : jsstring) (now : Z)
  : VerifyError + Claims :=
  match t with
  | Garbage _ => inl JsonWebTokenError
  | Signed cl =>
      if negb (str_eqb (signedWith cl) secret) then inl JsonWebTokenError
      else if exp cl <=? now / 1000 then inl TokenExpiredError
      else inr cl
  end.

End Jwt.

(** The functions of bcryptjs and speakeasy and the case conversions of
    String, used as given. *)
Record Lib := mkLib {
  (** [bcrypt.hash(data, rounds)] with the salt it drew *)
  bcrypt_hash : Z -> jsstring -> jsstring -> jsstring;
  (** [bcrypt.compare(data, hash)] *)
  bcrypt_compare : jsstring -> jsstring -> bool;
  (** [speakeasy.totp.verify] with [window: 2], at an instant *)
  totp_verify : jsstring -> jsstring -> Z -> bool;
  toLowerCase : jsstring -> jsstring;
  toUpperCase : jsstring -> jsstring;
  (** the [match] pattern of the [email] path, left abstract *)
  emailPattern : jsstring -> bool
}.

(** [process.env]; a variable that is not set reads as the empty
    string. *)
Record Config := mkConfig {
  JWT_ACCESS_SECRET : jsstring;
  JWT_REFRESH_SECRET : jsstring;
  BCRYPT_ROUNDS : option Z        (* parseInt(process.env.BCRYPT_ROUNDS) *)
}.

(** helpers.js, the token functions; [JWT_ACCESS_EXPIRE] and
    [JWT_REFRESH_EXPIRE] are unset, so '15m' and '7d' apply. *)
Module Tokens.

Definition accessExpire : Z := 15 * 60.
Definition refreshExpire : Z := 7 * 24 * 60 * 60.

Definition generateAccessToken (cfg : Config) (uid : ObjectId) (now : Z)
  : Jwt.Token :=
  Jwt.sign uid (JWT_ACCESS_SECRET cfg) accessExpire now.

Definition generateRefreshToken (cfg : Config) (uid : ObjectId) (now : Z)
  : Jwt.Token :=
  Jwt.sign uid (JWT_REFRESH_SECRET cfg) refreshExpire now.

Definition verifyRefreshToken (cfg : Config) (t : Jwt.Token) (now : Z)
  : Jwt.VerifyError + Jwt.Claims :=
  Jwt.verify t (JWT_REFRESH_SECRET cfg) now.

Definition generateTokenPair (cfg : Config) (uid : ObjectId) (now : Z)
  : Jwt.Token * Jwt.Token :=
  (generateAccessToken cfg uid now, generateRefreshToken cfg uid now).

(** Whether [generateTokenPair] throws: one of its two [jwt.sign]
    does. *)
Definition generateTokenPairThrows (cfg : Config) : bool :=
  Jwt.signThrows (JWT_ACCESS_SECRET cfg)
  || Jwt.signThrows (JWT_REFRESH_SECRET cfg).

(** [getRefreshTokenExpiry()]: '7d' ends with 'd'. *)
Definition getRefreshTokenExpiry (now : Z) : Z :=
  now + 7 * 24 * 60 * 60 * 1000.

End Tokens.

(* ================================================================== *)
(** ** models/User.js *)
(* ================================================================== *)

Module User.

Record BackupCode := mkBackupCode {
  code : jsstring;
  used : bool
}.

Record RefreshToken := mkRefreshToken {
  token : Jwt.Token;
  createdAt : Z;
  expiresAt : Z;
  isActive : bool
}.

(** The schema's paths the handlers below read or write. *)
Record t := mk {
  _id : ObjectId;
  email : jsstring;
  password : jsstring;
  mfaEnabled : bool;
  mfaSecret : option jsstring;
  mfaBackupCodes : list BackupCode;
  refreshTokens : list RefreshToken;
  loginAttempts : Z;
  lockUntil : option Z;
  lastLogin : option Z
}.

Definition setSecurity (u : t) (attempts : Z) (lock : option Z) : t :=
  mk (_id u) (email u) (password u) (mfaEnabled u) (mfaSecret u)
     (mfaBackupCodes u) (refreshTokens u) attempts lock (lastLogin u).

Definition setRefreshTokens (u : t) (rts : list RefreshToken) : t :=
  mk (_id u) (email u) (password u) (mfaEnabled u) (mfaSecret u)
     (mfaBackupCodes u) rts (loginAttempts u) (lockUntil u) (lastLogin u).

Definition setLastLogin (u : t) (now : Z) : t :=
  mk (_id u) (email u) (password u) (mfaEnabled u) (mfaSecret u)
     (mfaBackupCodes u) (refreshTokens u) (loginAttempts u) (lockUntil u)
     (Some now).

Definition setBackupCodes (u : t) (bcs : list BackupCode) : t :=
  mk (_id u) (email u) (password u) (mfaEnabled u) (mfaSecret u) bcs
     (refreshTokens u) (loginAttempts u) (lockUntil u) (lastLogin u).

Definition setPassword (u : t) (pw : jsstring) : t :=
  mk (_id u) (email u) pw (mfaEnabled u) (mfaSecret u) (mfaBackupCodes u)
     (refreshTokens u) (loginAttempts u) (lockUntil u) (lastLogin u).

(** The virtual [isLocked], read at the instant [now]:
    [!!(this.lockUntil && this.lockUntil > Date.now())]. *)
Definition isLocked (u : t) (now : Z) : bool :=
  match lockUntil u with
  | Some l => now <? l
  | None => false
  end.

Definition lockTime : Z := 2 * 60 * 60 * 1000.

(** [incLoginAttempts()], read and applied at the instant [now]. *)
Definition incLoginAttempts (u : t) (now : Z) : t :=
  let restart :=
    match lockUntil u with
    | Some l => l <? now
    | None => false
    end in
  if restart then setSecurity u 1 None
  else
    if (5 <=? loginAttempts u + 1) && negb (isLocked u now)
    then setSecurity u (loginAttempts u + 1) (Some (now + lockTime))
    else setSecurity u (loginAttempts u + 1) (lockUntil u).

(** [resetLoginAttempts()]: both paths are unset; an absent
    [loginAttempts] reads as its default 0. *)
Definition resetLoginAttempts (u : t) : t := setSecurity u 0 None.

(** [cleanupRefreshTokens()] at the instant [now]. *)
Definition cleanupRefreshTokens (u : t) (now : Z) : t :=
  setRefreshTokens u
    (filter (fun tokenObj => isActive tokenObj && (now <? expiresAt tokenObj))
            (refreshTokens u)).

Definition saltRounds (cfg : Config) : Z :=
  match BCRYPT_ROUNDS cfg with
  | Some r => if r =? 0 then 12 else r
  | None => 12
  end.

Section WithLib.
Variable L : Lib.
Variable cfg : Config.

(** [new User({ email, password })]: the setters [lowercase] and
    [trim] of [email] are applied, the other paths take their
    defaults. *)
Definition new (id : ObjectId) (email password : jsstring) : t :=
  mk id (toLowerCase L (trim email)) password false None [] [] 0 None
     None.

(** [userSchema.pre('save', ...)]: [modifiedPassword] is
    [this.isModified('password')], [salt] the salt bcrypt draws. *)
Definition preSave (modifiedPassword : bool) (salt : jsstring) (u : t)
  : t :=
  if negb modifiedPassword then u
  else setPassword u (bcrypt_hash L (saltRounds cfg) salt (password u)).

(** [comparePassword(candidatePassword)] *)
Definition comparePassword (u : t) (candidatePassword : jsstring) : bool :=
  bcrypt_compare L candidatePassword (password u).

(** The schema's validators on [email] and [password]: the failing
    paths. *)
Definition validate (u : t) : list string :=
  (match email u with [] => ["email"%string] | _ => [] end)
  ++ (if emailPattern L (email u) then [] else ["email"%string])
  ++ (match password u with [] => ["password"%string] | _ => [] end)
  ++ (if (8 <=? List.length (password u))%nat then []
      else ["password"%string]).

End WithLib.

(** *** The collection *)

Definition Collection := list t.

(** [User.findOne({ email })] *)
Definition findOneByEmail (c : Collection) (e : jsstring) : option t :=
  find (fun u => str_eqb (email u) e) c.

(** [User.findById(id)] *)
Definition findById (c : Collection) (id : ObjectId) : option t :=
  find (fun u => (_id u =? id)%N) c.

(** Writing a loaded document back ([save], [updateOne]). *)
Definition update (c : Collection) (u : t) : Collection :=
  List.map (fun x => if (_id x =? _id u)%N then u else x) c.

Inductive SaveError :=
| ValidationError (paths : list string)
| DuplicateKey.

(** The insert of a new user, atomic with respect to the unique index
    on [email] and the one on [_id]. *)
Definition insertOne (c : Collection) (u : t) : SaveError + Collection :=
  if existsb (fun x => str_eqb (email x) (email u)) c
     || existsb (fun x => (_id x =? _id u)%N) c
  then inl DuplicateKey
  else inr (c ++ [u]).

End User.

(* ================================================================== *)
(** ** controllers/authController.js *)
(* ================================================================== *)

Module AuthController.

Import User.

(** What [register] and [login] read of the request;
    [validationErrors] is [validationResult(req).array()]. *)
Record Request := mkRequest {
  validationErrors : list string;
  req_email : jsstring;
  req_password : jsstring;
  req_mfaCode : option jsstring
}.

(** What [register] reads of its environment. *)
Record Env := mkEnv {
  newId : ObjectId;
  salt : jsstring;
  now : Z
}.

Inductive Response :=
| Json (status : Z) (error message : string)
| ValidationFailed (details : list string)                   (* 400 *)
| PasswordRejected (details : list string)                   (* 400 *)
| Registered (user : User.t) (accessToken refreshToken : Jwt.Token) (* 201 *)
| LoggedIn (user : User.t) (accessToken refreshToken : Jwt.Token)   (* 200 *)
| RequiresMFA                                                (* 200 *)
| Refreshed (accessToken : Jwt.Token)                        (* 200 *)
| LoggedOut.                                                 (* 200 *)

Definition status (r : Response) : Z :=
  match r with
  | Json st _ _ => st
  | ValidationFailed _ | PasswordRejected _ => 400
  | Registered _ _ _ => 201
  | LoggedIn _ _ _ | RequiresMFA | Refreshed _ | LoggedOut => 200
  end.

(** [user.refreshTokens.push({ token, expiresAt, isActive: true })] at
    the instant [now] ([createdAt] takes its default [Date.now]). *)
Definition pushRefreshToken (u : t) (rt : Jwt.Token) (now : Z) : t :=
  setRefreshTokens u
    (refreshTokens u
     ++ [mkRefreshToken rt now (Tokens.getRefreshTokenExpiry now) true]).

Section WithLib.
Variable L : Lib.
Variable cfg : Config.

Definition registrationFailed : Response :=
  Json 500 "Registration failed" "An error occurred during registration".

(** [register] *)
Definition register (c : Collection) (env : Env) (req : Request)
  : Collection * Response :=
  match validationErrors req with
  | (_ :: _) as details => (c, ValidationFailed details)
  | [] =>
      let sanitizedEmail := toLowerCase L (sanitizeInput (req_email req)) in
      match validatePassword (req_password req) with
      | (_ :: _) as errors => (c, PasswordRejected errors)
      | [] =>
          match findOneByEmail c sanitizedEmail with
          | Some _ =>
              (c, Json 400 "Registration failed"
                       "An account with this email already exists")
          | None =>
              let user :=
                User.new L (newId env) sanitizedEmail (req_password req) in
              (* await user.save() *)
              match User.validate L user with
              | _ :: _ => (c, registrationFailed)
              | [] =>
                  let user := User.preSave L cfg true (salt env) user in
                  match User.insertOne c user with
                  | inl _ => (c, registrationFailed)
                  | inr c =>
                      (* the account is stored; an exception from here on
                         is caught and answered 500 *)
                      if Tokens.generateTokenPairThrows cfg
                      then (c, registrationFailed)
                      else
                        let '(accessToken, refreshToken) :=
                          Tokens.generateTokenPair cfg (_id user) (now env) in
                        let user :=
                          pushRefreshToken user refreshToken (now env) in
                        (* await user.save(): password is not modified *)
                        let user :=
                          User.preSave L cfg false (salt env) user in
                        (User.update c user,
                         Registered user accessToken refreshToken)
                  end
              end
          end
      end
  end.

Definition isBlank (x : option jsstring) : bool :=
  match x with
  | Some (_ :: _) => false
  | _ => true
  end.

(** [user.mfaBackupCodes.findIndex(bc => bc.code === code && !bc.used)]
    followed by [user.mfaBackupCodes[index].used = true]: [None] when
    the index is -1. *)
Fixpoint useBackupCode (code : jsstring) (bcs : list BackupCode)
  : option (list BackupCode) :=
  match bcs with
  | [] => None
  | bc :: rest =>
      if str_eqb (User.code bc) code && negb (used bc)
      then Some (mkBackupCode (User.code bc) true :: rest)
      else match useBackupCode code rest with
           | Some rest' => Some (bc :: rest')
           | None => None
           end
  end.

Inductive MfaOutcome :=
| MfaRequired
| MfaInvalid
| MfaPassed (user : User.t).

(** The block [if (user.mfaEnabled) { ... }] of [login]. *)
Definition checkMfa (user : t) (mfaCode : option jsstring) (now : Z)
  : MfaOutcome :=
  if negb (mfaEnabled user) then MfaPassed user
  else if isBlank mfaCode then MfaRequired
  else
    let code := match mfaCode with Some m => m | None => [] end in
    if totp_verify L
         (match mfaSecret user with Some k => k | None => [] end) code now
    then MfaPassed user
    else match useBackupCode (toUpperCase L code) (mfaBackupCodes user) with
         | None => MfaInvalid
         | Some bcs => MfaPassed (setBackupCodes user bcs)
         end.

(** [login] at the instant [now], on a deployment whose two JWT secrets
    are set, so that [generateTokenPair] returns. *)
Definition login (c : Collection) (now : Z) (req : Request)
  : Collection * Response :=
  match validationErrors req with
  | (_ :: _) as details => (c, ValidationFailed details)
  | [] =>
      let sanitizedEmail := toLowerCase L (sanitizeInput (req_email req)) in
      match findOneByEmail c sanitizedEmail with
      | None => (c, Json 401 "Login failed" "Invalid email or password")
      | Some user =>
          if isLocked user now
          then (c, Json 423 "Account locked"
                        "Account is temporarily locked due to too many failed login attempts")
          else if negb (comparePassword L user (req_password req))
          then (User.update c (incLoginAttempts user now),
                Json 401 "Login failed" "Invalid email or password")
          else
            match checkMfa user (req_mfaCode req) now with
            | MfaRequired => (c, RequiresMFA)
            | MfaInvalid =>
                (User.update c (incLoginAttempts user now),
                 Json 401 "Login failed" "Invalid MFA code")
            | MfaPassed user =>
                let user := resetLoginAttempts user in
                let user := setLastLogin user now in
                let user := cleanupRefreshTokens user now in
                let '(accessToken, refreshToken) :=
                  Tokens.generateTokenPair cfg (_id user) now in
                let user := pushRefreshToken user refreshToken now in
                (User.update c user, LoggedIn user accessToken refreshToken)
            end
      end
  end.

Definition accessDenied (message : string) : Response :=
  Json 401 "Access denied" message.

(** [refreshToken] at the instant [now]; the handler writes nothing. *)
Definition refreshToken (c : Collection) (now : Z)
    (refreshToken : option Jwt.Token) : Response :=
  match refreshToken with
  | None => accessDenied "Refresh token required"
  | Some rt =>
      if Jwt.isEmpty rt then accessDenied "Refresh token required"
      else
        match Tokens.verifyRefreshToken cfg rt now with
        | inl _ => accessDenied "Invalid refresh token"
        | inr decoded =>
            match findById c (Jwt.userId decoded) with
            | None => accessDenied "User not found"
            | Some user =>
                match find (fun tokenObj =>
                              Jwt.token_eqb (token tokenObj) rt
                              && isActive tokenObj
                              && (now <? expiresAt tokenObj))
                           (refreshTokens user) with
                | None => accessDenied "Invalid or expired refresh token"
                | Some _ =>
                    Refreshed (Tokens.generateAccessToken cfg (_id user) now)
                end
            end
        end
  end.

End WithLib.

(** [findIndex(tokenObj => tokenObj.token === refreshToken)] followed by
    [user.refreshTokens[tokenIndex].isActive = false]; the list is
    returned as it is when the index is -1. *)
Fixpoint deactivate (rt : Jwt.Token) (rts : list RefreshToken)
  : list RefreshToken :=
  match rts with
  | [] => []
  | tokenObj :: rest =>
      if Jwt.token_eqb (token tokenObj) rt
      then mkRefreshToken (token tokenObj) (createdAt tokenObj)
             (expiresAt tokenObj) false :: rest
      else tokenObj :: deactivate rt rest
  end.

(** [logout]; [userId] is the identity [authMiddleware] attached. *)
Definition logout (c : Collection) (userId : ObjectId)
    (refreshToken : option Jwt.Token) : Collection * Response :=
  match refreshToken with
  | None => (c, LoggedOut)
  | Some rt =>
      if Jwt.isEmpty rt then (c, LoggedOut)
      else
        match findById c userId with
        | None => (c, LoggedOut)
        | Some user =>
            (User.update c
               (setRefreshTokens user (deactivate rt (refreshTokens user))),
             LoggedOut)
        end
  end.

End AuthController.

(* ================================================================== *)
(** ** controllers/userController.js *)
(* ================================================================== *)

Module UserController.

(** [findOne({ userId }).sort({ entryDate: 1 })]: the entry of the
    identity with the least [entryDate]. *)
Fixpoint firstEntry (c : JournalEntry.Collection) (uid : ObjectId)
  : option JournalEntry.t :=
  match c with
  | [] => None
  | e :: rest =>
      if (JournalEntry.userId e =? uid)%N
      then match firstEntry rest uid with
           | Some e' =>
               if JournalEntry.entryDate e' <? JournalEntry.entryDate e
               then Some e' else Some e
           | None => Some e
           end
      else firstEntry rest uid
  end.

(** [Math.floor((new Date() - date) / (1000 * 60 * 60 * 24))]; the
    quotient of two integers below 2^53 by this divisor is floored
    exactly in binary64. *)
Definition daysSince (now date : Z) : Z := (now - date) / msPerDay.

(** [Math.round((totalEntries / (daysSinceFirstEntry + 1)) * 100)] *)
Definition percentage (totalEntries days : Z) : option Z :=
  Math_round (fmul (fdiv (ofZ totalEntries) (ofZ (days + 1))) (ofZ 100)).

(** [journaling.consistencyRate] of [getAccountStats], from
    [totalEntries] and [daysSinceFirstEntry]; [None] is NaN. *)
Definition consistencyRateOf (totalEntries daysSinceFirstEntry : Z)
  : option Z :=
  let consistencyRate :=
    if 0 <? daysSinceFirstEntry
    then percentage totalEntries daysSinceFirstEntry
    else Some 0 in
  option_map (Z.min 100) consistencyRate.

Record Journaling := mkJournaling {
  totalEntries : Z;
  daysSinceFirstEntry : Z;
  consistencyRate : option Z
}.

(** The [journaling] object of [getAccountStats] at the instant [now]. *)
Definition getAccountStats (c : JournalEntry.Collection) (uid : ObjectId)
    (now : Z) : Journaling :=
  let totalEntries := Z.of_nat (JournalEntry.countDocuments c uid) in
  let daysSinceFirstEntry :=
    match firstEntry c uid with
    | Some e => daysSince now (JournalEntry.entryDate e)
    | None => 0
    end in
  mkJournaling totalEntries daysSinceFirstEntry
    (consistencyRateOf totalEntries daysSinceFirstEntry).

End UserController.

(* ================================================================== *)
(** ** The rest of the code: queries, middleware, MFA, account *)
(* ================================================================== *)

(** [Math.ceil] and the statics and virtuals of models/JournalEntry.js
    that [createEntry] does not use, with [canWriteToday]. *)
Module JournalQueries.

Import JournalEntry.

(** [Math.ceil]; [None] stands for NaN and the infinities. *)
Definition Math_ceil (x : spec_float) : option Z :=
  match x with
  | S754_zero _ => Some 0
  | S754_finite s m e =>
      let v := if s then Z.neg m else Z.pos m in
      Some (if 0 <=? e then v * 2 ^ e else - ((- v) / 2 ^ (- e)))
  | S754_infinity _ | S754_nan => None
  end.

(** The virtual [estimatedReadingTime]:
    [Math.max(1, Math.ceil(this.wordCount / 200))]. *)
Definition estimatedReadingTime (e : t) : option Z :=
  option_map (Z.max 1)
    (Math_ceil (fdiv (ofZ (Z.of_nat (wordCount e))) (ofZ 200))).

(** The static [hasEntryForToday(userId, timezone = 'UTC')] at the
    instant [now]; the body does not read [timezone]. *)
Definition hasEntryForToday (c : Collection) (userId : ObjectId)
    (timezone : jsstring) (now : Z) : bool :=
  let dateString := toISODate now in
  match findOneByDay c userId dateString with
  | Some _ => true
  | None => false
  end.

(** The body of [canWriteToday]'s response. *)
Record CanWrite := mkCanWrite {
  canWrite : bool;
  hasWrittenToday : bool
}.

(** [canWriteToday] at the instant [now]. *)
Definition canWriteToday (c : Collection) (userId : ObjectId) (now : Z)
  : CanWrite :=
  let hasWrittenToday := hasEntryForToday c userId (lit "UTC") now in
  mkCanWrite (negb hasWrittenToday) hasWrittenToday.

End JournalQueries.

(** helpers.js: the backup codes. *)
Module BackupCodes.

(** One hexadecimal digit of [toString('hex').toUpperCase()]. *)
Definition hexDigit (n : N) : char16 :=
  (if n <? 10 then 48 + n else 55 + n)%N.

(** [crypto.randomBytes(4).toString('hex').toUpperCase()], from the
    bytes drawn. *)
Definition generateBackupCode (bytes : list N) : jsstring :=
  flat_map (fun b => [hexDigit (b / 16); hexDigit (b mod 16)])%N bytes.

(** [generateBackupCodes(count)]; [draws i] are the bytes drawn in the
    iteration [i] of its loop. *)
Definition generateBackupCodes (count : nat) (draws : nat -> list N)
  : list User.BackupCode :=
  List.map (fun i => User.mkBackupCode (generateBackupCode (draws i)) false)
           (seq 0 count).

End BackupCodes.

(** The express-validator chains of routes/auth.js and routes/user.js on
    passwords and MFA codes. *)
Module Routes.

Fixpoint allDigits (s : jsstring) : bool :=
  match s with
  | [] => true
  | c :: s' => isDigit c && allDigits s'
  end.

Fixpoint dropDigits (s : jsstring) : jsstring :=
  match s with
  | [] => []
  | c :: s' => if isDigit c then dropDigits s' else s
  end.

(** validator.js's [isNumeric]: the pattern
    [^[+-]?([0-9]*[.])?[0-9]+$]. *)
Definition isNumeric (s : jsstring) : bool :=
  let unsigned :=
    match s with
    | c :: s' => if ((c =? 43) || (c =? 45))%N then s' else s
    | [] => []
    end in
  match dropDigits unsigned with
  | [] => match unsigned with [] => false | _ => true end
  | c :: frac =>
      (c =? 46)%N && allDigits frac
      && match frac with [] => false | _ => true end
  end.

(** The messages of the chain
    [body('mfaCode').optional().isLength({ min: 6, max: 6 }).isNumeric()
     .withMessage('MFA code must be 6 digits')] of [loginValidation]: a
    validator without a message of its own reports 'Invalid value'. *)
Definition mfaCodeChain (mfaCode : option jsstring) : list string :=
  match mfaCode with
  | None => []
  | Some code =>
      (if Validator.isLength 6 6 code then [] else ["Invalid value"%string])
      ++ (if isNumeric code then [] else ["MFA code must be 6 digits"%string])
  end.

(** What the dot of a pattern without flags does not match. *)
Definition isLineTerminator (c : char16) : bool :=
  ((c =? 10) || (c =? 13) || (c =? 8232) || (c =? 8233))%N.

(** The units [.*] can run over from the start of the string. *)
Fixpoint firstLine (s : jsstring) : jsstring :=
  match s with
  | [] => []
  | c :: s' => if isLineTerminator c then [] else c :: firstLine s'
  end.

(** The class [[@$!%*?&]]. *)
Definition isChainSpecial (c : char16) : bool :=
  existsb (N.eqb c) (lit "@$!%*?&").

(** A lookahead [(?=.*[class])] at the start of the string. *)
Definition ahead (class : char16 -> bool) (s : jsstring) : bool :=
  existsb class (firstLine s).

(** [matches(/^(?=.*[a-z])(?=.*[A-Z])(?=.*\d)(?=.*[@$!%*?&])[A-Za-z\d@$!%*?&]/)] *)
Definition matchesPasswordPattern (s : jsstring) : bool :=
  ahead isLower s && ahead isUpper s && ahead isDigit s
  && ahead isChainSpecial s
  && match s with
     | c :: _ => isLower c || isUpper c || isDigit c || isChainSpecial c
     | [] => false
     end.

(** The chain on [password] of [registerValidation], which is also the
    chain on [newPassword] of [changePasswordValidation] but for the
    messages [short] and [weak]. *)
Definition passwordChain (short weak : string) (password : jsstring)
  : list string :=
  (if (8 <=? Validator.vLength password)%nat then [] else [short])
  ++ (if matchesPasswordPattern password then [] else [weak]).

Definition registerPasswordChain : jsstring -> list string :=
  passwordChain "Password must be at least 8 characters long"
    "Password must contain at least one uppercase letter, one lowercase letter, one number, and one special character".

Definition newPasswordChain : jsstring -> list string :=
  passwordChain "New password must be at least 8 characters long"
    "New password must contain at least one uppercase letter, one lowercase letter, one number, and one special character".

End Routes.

(** middleware/auth.js *)
Module Middleware.

(** The Authorization header. *)
Inductive AuthHeader :=
| NoHeader                        (* absent, or the empty string *)
| OtherScheme (raw : jsstring)    (* does not start with 'Bearer ' *)
| Bearer (token : Jwt.Token).     (* what follows 'Bearer ' *)

Inductive Outcome :=
| Denied (status : Z) (error message : string)
| Next (userId : option ObjectId).   (* next(), with req.userId if set *)

Definition denied (message : string) : Outcome :=
  Denied 401 "Access denied" message.

(** [authMiddleware] at the instant [now]. *)
Definition authMiddleware (cfg : Config) (c : User.Collection) (now : Z)
    (authHeader : AuthHeader) : Outcome :=
  match authHeader with
  | NoHeader | OtherScheme _ => denied "No valid token provided"
  | Bearer token =>
      if Jwt.isEmpty token then denied "No token provided"
      else
        match Jwt.verify token (JWT_ACCESS_SECRET cfg) now with
        | inl Jwt.JsonWebTokenError => denied "Invalid token"
        | inl Jwt.TokenExpiredError => denied "Token expired"
        | inr decoded =>
            match User.findById c (Jwt.userId decoded) with
            | None => denied "User not found"
            | Some user =>
                if User.isLocked user now
                then Denied 423 "Account locked"
                       "Account is temporarily locked due to too many failed login attempts"
                else Next (Some (User._id user))
            end
        end
  end.

(** [optionalAuth] at the instant [now]. *)
Definition optionalAuth (cfg : Config) (c : User.Collection) (now : Z)
    (authHeader : AuthHeader) : Outcome :=
  match authHeader with
  | NoHeader | OtherScheme _ => Next None
  | Bearer token =>
      if Jwt.isEmpty token then Next None
      else
        match Jwt.verify token (JWT_ACCESS_SECRET cfg) now with
        | inl _ => Next None
        | inr decoded =>
            match User.findById c (Jwt.userId decoded) with
            | Some user =>
                if negb (User.isLocked user now)
                then Next (Some (User._id user)) else Next None
            | None => Next None
            end
        end
  end.

End Middleware.

(** controllers/authController.js: [setupMFA], [verifyMFA],
    [disableMFA]. *)
Module Mfa.

Import User.

Inductive Response :=
| Failed (status : Z) (error : string)
| SetupDone (secret : jsstring) (backupCodes : list jsstring)    (* 200 *)
| Done (message : string).                                       (* 200 *)

Definition setMfa (u : t) (enabled : bool) (secret : option jsstring)
    (bcs : list BackupCode) : t :=
  mk (_id u) (email u) (password u) enabled secret bcs (refreshTokens u)
     (loginAttempts u) (lockUntil u) (lastLogin u).

(** [setupMFA]: [secret] is [speakeasy.generateSecret(...).base32],
    [draws] the random bytes of the ten backup codes; [count] takes
    its default, 10. *)
Definition setupMFA (c : Collection) (userId : ObjectId) (secret : jsstring)
    (draws : nat -> list N) : Collection * Response :=
  match findById c userId with
  | None => (c, Failed 404 "User not found")
  | Some user =>
      if mfaEnabled user then (c, Failed 400 "MFA is already enabled")
      else
        let backupCodes := BackupCodes.generateBackupCodes 10 draws in
        let user := setMfa user (mfaEnabled user) (Some secret) backupCodes in
        (User.update c user, SetupDone secret (List.map code backupCodes))
  end.

(** [!user.mfaSecret] *)
Definition noSecret (u : t) : bool :=
  match mfaSecret u with
  | Some (_ :: _) => false
  | _ => true
  end.

Section WithLib.
Variable L : Lib.

(** [verifyMFA] at the instant [now]. *)
Definition verifyMFA (c : Collection) (userId : ObjectId) (code : jsstring)
    (now : Z) : Collection * Response :=
  match findById c userId with
  | None => (c, Failed 400 "MFA setup not found")
  | Some user =>
      if noSecret user then (c, Failed 400 "MFA setup not found")
      else if negb (totp_verify L
                      (match mfaSecret user with Some k => k | None => [] end)
                      code now)
      then (c, Failed 400 "Invalid MFA code")
      else
        (User.update c
           (setMfa user true (mfaSecret user) (mfaBackupCodes user)),
         Done "MFA enabled successfully")
  end.

(** [disableMFA] at the instant [now]. *)
Definition disableMFA (c : Collection) (userId : ObjectId)
    (password mfaCode : jsstring) (now : Z) : Collection * Response :=
  match findById c userId with
  | None => (c, Failed 404 "User not found")
  | Some user =>
      if negb (comparePassword L user password)
      then (c, Failed 401 "Invalid password")
      else if mfaEnabled user
              && negb (totp_verify L
                         (match mfaSecret user with Some k => k | None => [] end)
                         mfaCode now)
      then (c, Failed 400 "Invalid MFA code")
      else (User.update c (setMfa user false None []),
            Done "MFA disabled successfully")
  end.

End WithLib.

End Mfa.

(** controllers/userController.js: [changePassword] and
    [deleteAccount]. *)
Module Account.

Import User.

Inductive Response :=
| Failed (status : Z) (error : string)
| Rejected (status : Z) (error : string) (details : list string)
| Done (message : string).                                       (* 200 *)

Section WithLib.
Variable L : Lib.
Variable cfg : Config.

(** [changePassword]; [salt] is the salt bcrypt draws in the save. *)
Definition changePassword (c : Collection) (salt : jsstring)
    (userId : ObjectId) (validationErrors : list string)
    (currentPassword newPassword : jsstring) : Collection * Response :=
  match validationErrors with
  | (_ :: _) as details => (c, Rejected 400 "Validation failed" details)
  | [] =>
      match findById c userId with
      | None => (c, Failed 404 "User not found")
      | Some user =>
          if negb (comparePassword L user currentPassword)
          then (c, Failed 401 "Invalid current password")
          else
            match validatePassword newPassword with
            | (_ :: _) as errors =>
                (c, Rejected 400 "New password does not meet requirements"
                             errors)
            | [] =>
                if comparePassword L user newPassword
                then (c, Failed 400
                           "New password must be different from current password")
                else
                  let user := setPassword user newPassword in
                  let user := setRefreshTokens user [] in
                  (* await user.save(): password is modified *)
                  let user := User.preSave L cfg true salt user in
                  (User.update c user, Done "Password changed successfully")
            end
      end
  end.

(** [User.findByIdAndDelete(id)]: the first document with the id goes. *)
Fixpoint findByIdAndDelete (c : Collection) (id : ObjectId) : Collection :=
  match c with
  | [] => []
  | u :: rest =>
      if (_id u =? id)%N then rest else u :: findByIdAndDelete rest id
  end.

(** [deleteAccount] on the two collections. *)
Definition deleteAccount (c : Collection) (entries : JournalEntry.Collection)
    (userId : ObjectId) (validationErrors : list string)
    (password confirmationText : jsstring)
  : Collection * JournalEntry.Collection * Response :=
  match validationErrors with
  | (_ :: _) as details =>
      (c, entries, Rejected 400 "Validation failed" details)
  | [] =>
      if negb (str_eqb confirmationText (lit "DELETE MY ACCOUNT"))
      then (c, entries, Failed 400 "Invalid confirmation")
      else
        match findById c userId with
        | None => (c, entries, Failed 404 "User not found")
        | Some user =>
            if negb (comparePassword L user password)
            then (c, entries, Failed 401 "Invalid password")
            else (findByIdAndDelete c userId,
                  JournalEntry.deleteMany entries userId,
                  Done "Account deleted successfully")
        end
  end.

End WithLib.

End Account.

(** frontend/src/utils/helpers.ts: the word count shown while typing. *)
Module Frontend.

(** [countWords(text)] *)
Definition countWords (text : jsstring) : nat :=
  match trim text with
  | [] => O
  | _ :: _ => List.length (splitWhitespace (trim text))
  end.

End Frontend.

(* ================================================================== *)
(** ** Reference definitions and the execution model *)
(* ================================================================== *)

(** The whitespace-separated tokens of a string, in the words of the
    specification: its maximal runs of units that are not whitespace.
    [acc] is the run being read, reversed. *)
Fixpoint tokensGo (acc : jsstring) (s : jsstring) : list jsstring :=
  match s with
  | [] => match acc with [] => [] | _ => [rev acc] end
  | c :: s' =>
      if isSpace c
      then match acc with
           | [] => tokensGo [] s'
           | _ => rev acc :: tokensGo [] s'
           end
      else tokensGo (c :: acc) s'
  end.

Definition tokens (s : jsstring) : list jsstring := tokensGo [] s.

(** Whether the last unit of [s] is not whitespace; [d] answers for the
    empty string. *)
Fixpoint endsInToken (d : bool) (s : jsstring) : bool :=
  match s with
  | [] => d
  | c :: s' => endsInToken (negb (isSpace c)) s'
  end.

(** The uniqueness key of an entry. *)
Definition dayKey (e : JournalEntry.t) : ObjectId * jsstring :=
  (JournalEntry.userId e, JournalEntry.dateString e).

(** At most one entry per identity and day key. *)
Definition UniqueDays (c : JournalEntry.Collection) : Prop :=
  NoDup (List.map dayKey c).

(** The derived counts of an entry agree with its content. *)
Definition countsAgree (e : JournalEntry.t) : Prop :=
  JournalEntry.characterCount e = List.length (JournalEntry.content e)
  /\ JournalEntry.wordCount e
     = List.length (tokens (trim (JournalEntry.content e))).

(** Requests served concurrently: the collection, and the documents
    that passed [createEntry]'s checks and wait at [await save()]. *)
Record World := mkWorld {
  entries : JournalEntry.Collection;
  pending : list JournalEntry.Document
}.

(** One step of the server: a request runs [createEntry] up to its
    [await journalEntry.save()], or a waiting save is performed. *)
Inductive step : World -> World -> Prop :=
| step_rejected c ps env req r :
    JournalController.prepare c env req = inl r ->
    step (mkWorld c ps) (mkWorld c ps)
| step_prepared c ps env req d :
    JournalController.prepare c env req = inr d ->
    step (mkWorld c ps) (mkWorld c (ps ++ [d]))
| step_saved c ps1 d ps2 :
    step (mkWorld c (ps1 ++ d :: ps2))
         (mkWorld (fst (JournalController.commit c d)) (ps1 ++ ps2)).

(** Worlds the server reaches from an empty collection. *)
Inductive reachable : World -> Prop :=
| reachable_init : reachable (mkWorld [] [])
| reachable_step w w' : reachable w -> step w w' -> reachable w'.

(** A waiting document is one [new JournalEntry] built. *)
Definition fresh (d : JournalEntry.Document) : Prop :=
  JournalEntry.isNew d = true
  /\ JournalEntry.modifiedContent d = true
  /\ JournalEntry.modifiedEntryDate d = true.

(** The request [req] with another [timezone] header. *)
Definition withTimezone (req : JournalController.Request)
    (tz : option jsstring) : JournalController.Request :=
  JournalController.mkRequest
    (JournalController.req_userId req) (JournalController.req_body req)
    (JournalController.req_ip req) (JournalController.req_userAgent req) tz.

(** The request [req] with another [writingDuration]. *)
Definition withDuration (req : JournalController.Request) (q : Q)
  : JournalController.Request :=
  JournalController.mkRequest
    (JournalController.req_userId req)
    (Validator.mkBody
       (Validator.content (JournalController.req_body req)) q
       (Validator.mood (JournalController.req_body req))
       (Validator.tags (JournalController.req_body req)))
    (JournalController.req_ip req) (JournalController.req_userAgent req)
    (JournalController.req_timezone req).

(** The entry [e] with other metadata. *)
Definition withMetadata (e : JournalEntry.t) (md : JournalEntry.Metadata)
  : JournalEntry.t :=
  JournalEntry.mk (JournalEntry._id e) (JournalEntry.userId e)
    (JournalEntry.content e) (JournalEntry.wordCount e)
    (JournalEntry.characterCount e) (JournalEntry.writingDuration e)
    (JournalEntry.entryDate e) (JournalEntry.dateString e)
    (JournalEntry.mood e) (JournalEntry.tags e) (JournalEntry.isCompleted e)
    md.

(** The entry [e] with another duration. *)
Definition withEntryDuration (e : JournalEntry.t) (q : Q) : JournalEntry.t :=
  JournalEntry.mk (JournalEntry._id e) (JournalEntry.userId e)
    (JournalEntry.content e) (JournalEntry.wordCount e)
    (JournalEntry.characterCount e) q
    (JournalEntry.entryDate e) (JournalEntry.dateString e)
    (JournalEntry.mood e) (JournalEntry.tags e) (JournalEntry.isCompleted e)
    (JournalEntry.metadata e).

(** What the chains of [createEntryValidation] ask of a body. *)
Definition chainsPass (b : Validator.Body) : Prop :=
  Validator.isLength 1 2000 (trim (Validator.content b)) = true
  /\ Validator.isDuration (Validator.writingDuration b) = true
  /\ (forall m, Validator.mood b = Some m ->
                Validator.isIn Validator.moods m = true)
  /\ (forall ts t, Validator.tags b = Some ts -> In t ts ->
                   Validator.isLength 1 50 (trim t) = true).

(** The entries of an identity under a day key. *)
Definition entriesOn (c : JournalEntry.Collection) (uid : ObjectId)
    (day : jsstring) : list JournalEntry.t :=
  filter (fun e => (JournalEntry.userId e =? uid)%N
                   && str_eqb (JournalEntry.dateString e) day) c.

(** The instant [k] days of 24 hours before [now]. *)
Definition dayAt (now : Z) (k : nat) : Z := now - Z.of_nat k * msPerDay.

(** The instant the walk of [getStats] examines after [k] steps: [k]
    times the same local time on the previous local calendar day, from
    [now]. *)
Fixpoint walkAt (z : Zone) (now : Z) (k : nat) : Z :=
  match k with
  | O => now
  | S k' => setDatePrev z (walkAt z now k')
  end.

(** The day key the walk looks up after [k] steps. *)
Definition keyAt (z : Zone) (now : Z) (k : nat) : jsstring :=
  formatDateString (walkAt z now k).

(** Whether the identity has an entry under the key the walk looks up
    after [k] steps. *)
Definition hasEntryOn (c : JournalEntry.Collection) (uid : ObjectId)
    (z : Zone) (now : Z) (k : nat) : bool :=
  match JournalEntry.findOneByDay c uid (keyAt z now k) with
  | Some _ => true
  | None => false
  end.

(** A zone in which the same local time on the previous local calendar
    day, read back as an instant, does fall on the previous local day:
    no transition of the zone skips a local time across midnight or a
    whole day. *)
Definition stepsOneDay (z : Zone) : Prop :=
  forall t, toDateString z (setDatePrev z t) = toDateString z t - 1.

(** The streak in the words of the specification: the number of
    consecutive days with an entry, walking backward from day [k], over
    at most [bound] days. *)
Fixpoint runLength (has : nat -> bool) (k bound : nat) : nat :=
  match bound with
  | O => O
  | S bound' => if has k then S (runLength has (S k) bound') else O
  end.

(** The day the count starts at: today, or yesterday when today has no
    entry yet. *)
Definition firstCounted (has : nat -> bool) : nat :=
  if has O then O else 1%nat.

(** What the code relies on from bcryptjs: [compare] accepts the hash
    [hash] made of the same data, and a hash is never the data it was
    made of. *)
Definition bcryptContract (L : Lib) : Prop :=
  (forall rounds salt data,
      bcrypt_compare L data (bcrypt_hash L rounds salt data) = true)
  /\ (forall rounds salt data, bcrypt_hash L rounds salt data <> data).

(** The store after the attempts to log in with [req] at the instants
    [ts], one after the other. *)
Definition attempts (L : Lib) (cfg : Config) (req : AuthController.Request)
    (ts : list Z) (c : User.Collection) : User.Collection :=
  fold_left (fun c t => fst (AuthController.login L cfg c t req)) ts c.

(** Whether the reading time of the word count [w] is the integer
    ceiling of a two-hundredth of the count, and at least 1. *)
Definition readingTimeExactAt (w : nat) : bool :=
  match option_map (Z.max 1)
          (JournalQueries.Math_ceil (fdiv (ofZ (Z.of_nat w)) (ofZ 200))) with
  | Some t => t =? Z.max 1 ((Z.of_nat w + 199) / 200)
  | None => false
  end.

(** ECMAScript's calendar, as the specification of [Date] defines it:
    the day number of the first day of a year, leap years, the lengths
    of the months, and from them the day number of a date. *)
Definition DayFromYear (y : Z) : Z :=
  365 * (y - 1970) + (y - 1969) / 4 - (y - 1901) / 100 + (y - 1601) / 400.

Definition InLeapYear (y : Z) : bool :=
  ((y mod 4 =? 0) && negb (y mod 100 =? 0)) || (y mod 400 =? 0).

Definition daysInMonth (y m : Z) : Z :=
  if m =? 2 then (if InLeapYear y then 29 else 28)
  else if (m =? 4) || (m =? 6) || (m =? 9) || (m =? 11) then 30 else 31.

(** The days of the year [y] before its month [m]. *)
Definition daysBeforeMonth (y m : Z) : Z :=
  fold_left Z.add
    (List.map (fun k => daysInMonth y (Z.of_nat k)) (seq 1 (Z.to_nat (m - 1))))
    0.

(** The day number of the date [y]-[m]-[d]: days since 1970-01-01. *)
Definition dayOfDate (y m d : Z) : Z :=
  DayFromYear y + daysBeforeMonth y m + (d - 1).


(** The number a string of decimal digits reads as. *)
Definition digitsValue (s : jsstring) : Z :=
  fold_left (fun acc ch => 10 * acc + (Z.of_N ch - 48)) s 0.

(** Year, month and day as read off the positions of YYYY-MM-DD. *)
Definition readISODate (s : jsstring) : Z * Z * Z :=
  (digitsValue (firstn 4 s),
   digitsValue (firstn 2 (skipn 5 s)),
   digitsValue (firstn 2 (skipn 8 s))).

(* ================================================================== *)
(** ** Sample data *)
(* ================================================================== *)

(** 2026-11-03T09:30:00Z and a quarter of a second later. *)
Definition sampleEnv : JournalController.Env :=
  JournalController.mkEnv 1793698200000 1793698200250 7%N.

(** The same identity again, forty minutes later. *)
Definition sampleEnvLater : JournalController.Env :=
  JournalController.mkEnv 1793700600000 1793700600250 8%N.

(** A request of identity 1 with the given duration. *)
Definition sampleRequest (duration : Q) : JournalController.Request :=
  JournalController.mkRequest 1%N
    (Validator.mkBody (lit "  Walked to the <old> harbour  ") duration
       (Some (lit "happy")) (Some [lit "walk"; lit " sea "]))
    (lit "203.0.113.9") (Some (lit "curl")) (Some (lit "Pacific/Kiritimati")).

(** The ledger after the sample request of identity 1. *)
Definition sampleLedger : JournalEntry.Collection :=
  fst (JournalController.createEntry [] sampleEnv (sampleRequest (45 # 1))).

(** A ledger of identity 1 with an entry on each of the days listed,
    given as days before 2026-11-03: the requests are served one after
    the other, at 09:30 UTC of their days. *)
Definition ledgerOfDays (days : list nat) : JournalEntry.Collection :=
  fold_left
    (fun c k =>
       fst (JournalController.createEntry c
              (JournalController.mkEnv (dayAt 1793698200000 k)
                 (dayAt 1793698200000 k) (N.of_nat k))
              (sampleRequest (45 # 1))))
    days [].

(** An entry on each of the 365 days before 2026-11-03 and none on that
    day. *)
Definition sampleYear : JournalEntry.Collection :=
  ledgerOfDays (rev (seq 1 365)).

(** A library instance to run the handlers on: the hash keeps the
    password behind a marker and the salt, [compare] recomputes it, and
    the one-time code that verifies is 000000. *)
Definition sampleLib : Lib :=
  mkLib
    (fun rounds salt data => lit "$2a$" ++ salt ++ data)
    (fun data hash =>
       str_eqb (firstn 4 hash) (lit "$2a$")
       && str_eqb (skipn (List.length hash - List.length data) hash) data)
    (fun secret code now => str_eqb code (lit "000000"))
    (fun s => s)
    (fun s => s)
    (fun s => existsb (N.eqb 64) s).

Definition sampleConfig : Config :=
  mkConfig (lit "access-secret") (lit "refresh-secret") None.

(** A deployment that sets neither JWT_ACCESS_SECRET nor
    JWT_REFRESH_SECRET. *)
Definition sampleConfigNoSecret : Config := mkConfig [] [] None.

(** An identity with no failed attempt on record. *)
Definition sampleUser : User.t :=
  User.mk 1%N (lit "a@b.com") (lit "$2a$saltStr0ng!Pass") false None [] [] 0
    None None.

(** Five instants within two minutes, from 2026-11-03T09:30:00Z. *)
Definition sampleFailures : list Z :=
  [1793698200000; 1793698230000; 1793698260000; 1793698290000;
   1793698320000].

(** The registration of the specification's scenario. *)
Definition sampleRegistration : AuthController.Request :=
  AuthController.mkRequest [] (lit "a@b.com") (lit "Str0ng!Pass") None.

Definition sampleRegisterEnv : AuthController.Env :=
  AuthController.mkEnv 1%N (lit "N9qo8uLOickgx2ZMRZoMye") 1793698200100.

(** The identities after the sample registration. *)
Definition sampleUsers : User.Collection :=
  fst (AuthController.register sampleLib sampleConfig [] sampleRegisterEnv
         sampleRegistration).

(** The refresh token in the body of a response, if it carries one. *)
Definition issuedRefreshToken (r : AuthController.Response)
  : option Jwt.Token :=
  match r with
  | AuthController.Registered _ _ rt | AuthController.LoggedIn _ _ rt =>
      Some rt
  | _ => None
  end.

(** Whether each record of each identity is active. *)
Definition activeFlags (c : User.Collection) : list (list bool) :=
  List.map (fun u => List.map User.isActive (User.refreshTokens u)) c.

(** The refresh token of identity 1 signed in the second of the sample
    registration. *)
Definition sampleRefreshToken : Jwt.Token :=
  Tokens.generateRefreshToken sampleConfig 1%N 1793698200100.

(** The identities after a login 800 milliseconds after the sample
    registration, and after the logout that follows with the token the
    login returned. *)
Definition sampleUsersLoggedIn : User.Collection :=
  fst (AuthController.login sampleLib sampleConfig sampleUsers 1793698200900
         sampleRegistration).

Definition sampleUsersLoggedOut : User.Collection :=
  fst (AuthController.logout sampleUsersLoggedIn 1%N
         (Some sampleRefreshToken)).

(** Bytes for backup codes: iteration [i] draws [i], [i + 50],
    [i + 100] and [i + 150]. *)
Definition sampleDraws (i : nat) : list N :=
  List.map (fun k => N.of_nat (i + k)) [0; 50; 100; 150]%nat.

(** A login request for the sample account with a wrong password. *)
Definition sampleWrongPassword : AuthController.Request :=
  AuthController.mkRequest [] (lit "a@b.com") (lit "Wr0ng!Pass") None.

(** 2026-11-03 at 10:30 UTC, which is 00:30 of 2026-11-04 fourteen
    hours ahead of UTC. *)
Definition sampleEnvDateLine : JournalController.Env :=
  JournalController.mkEnv 1793701800000 1793701800250 7%N.

(** The rules of America/New_York for 2026: five hours behind UTC,
    four from 2026-03-08T07:00Z to 2026-11-01T06:00Z; a local time is
    read back four hours behind from 03:00 of 8 March to 02:00 of
    1 November, local time. *)
Definition sampleZoneNewYork : Zone :=
  mkZone
    (fun t =>
       if (1772953200000 <=? t) && (t <? 1793512800000)
       then - (4 * 3600000) else - (5 * 3600000))
    (fun l =>
       if (1772938800000 <=? l) && (l <? 1793498400000)
       then - (4 * 3600000) else - (5 * 3600000)).

(* ================================================================== *)
(** ** Strings *)
(* ================================================================== *)

Section StringFacts.

Lemma dropSpaces_head s c r :
  dropSpaces s = c :: r -> isSpace c = false.
Proof.
  induction s as [|a s IH]; simpl; [discriminate|].
  destruct (isSpace a) eqn:Ha; [exact IH|].
  intros H; injection H as <- _; exact Ha.
Qed.

Lemma dropSpaces_suffix s :
  exists p, s = p ++ dropSpaces s.
Proof.
  induction s as [|a s [p IH]]; simpl.
  - exists []; reflexivity.
  - destruct (isSpace a).
    + exists (a :: p); simpl; f_equal; exact IH.
    + exists []; reflexivity.
Qed.

Lemma dropSpaces_fixed s :
  match s with [] => True | c :: _ => isSpace c = false end ->
  dropSpaces s = s.
Proof.
  destruct s as [|c s]; simpl; [reflexivity|]. intros ->; reflexivity.
Qed.

Lemma endsInToken_last d s c :
  endsInToken d (s ++ [c]) = negb (isSpace c).
Proof.
  revert d; induction s as [|a s IH]; intros d; simpl; [reflexivity|].
  apply IH.
Qed.

(** A trimmed string starts and ends with a unit that is not
    whitespace. *)
Lemma trim_shape s c r :
  trim s = c :: r -> isSpace c = false /\ endsInToken false (trim s) = true.
Proof.
  unfold trim.
  destruct (dropSpaces (rev (dropSpaces s))) as [|u us] eqn:Hu.
  - discriminate.
  - intros H.
    assert (Hu0 : isSpace u = false) by (eapply dropSpaces_head; eauto).
    split.
    + (* the first unit of the result is the last unit of dropSpaces s *)
      destruct (dropSpaces_suffix (rev (dropSpaces s))) as [p Hp].
      rewrite Hu in Hp.
      assert (Hs : dropSpaces s = rev (u :: us) ++ rev p).
      { rewrite <- rev_app_distr, <- Hp, rev_involutive; reflexivity. }
      rewrite H in Hs. simpl in Hs.
      eapply dropSpaces_head; exact Hs.
    + simpl. rewrite endsInToken_last, Hu0. reflexivity.
Qed.

Lemma trim_idempotent s : trim (trim s) = trim s.
Proof.
  destruct (trim s) as [|c r] eqn:Ht; [reflexivity|].
  destruct (trim_shape _ _ _ Ht) as [Hc Hend].
  rewrite Ht in Hend. unfold trim.
  assert (H1 : dropSpaces (c :: r) = c :: r)
    by (apply dropSpaces_fixed; exact Hc).
  rewrite H1.
  assert (H2 : dropSpaces (rev (c :: r)) = rev (c :: r)).
  { apply dropSpaces_fixed.
    destruct (rev (c :: r)) as [|a l] eqn:Hr; [exact I|].
    assert (Hcr : c :: r = rev l ++ [a]).
    { rewrite <- (rev_involutive (c :: r)), Hr. reflexivity. }
    rewrite Hcr in Hend.
    change (endsInToken false (rev l ++ [a]) = true) in Hend.
    rewrite endsInToken_last in Hend.
    destruct (isSpace a); [discriminate|reflexivity]. }
  rewrite H2. apply rev_involutive.
Qed.

(** On a string that ends in a token, [split(/\s+/)] yields the
    tokens: inside a token ([acc] not empty), and inside a separator. *)
Lemma splitGo_tokensGo s :
  (forall acc, acc <> [] -> endsInToken true s = true ->
               splitGo acc false s = tokensGo acc s)
  /\ (endsInToken false s = true -> splitGo [] true s = tokensGo [] s).
Proof.
  induction s as [|c s [IH1 IH2]]; simpl.
  - split.
    + intros acc Hacc _. destruct acc; [contradiction|reflexivity].
    + discriminate.
  - destruct (isSpace c) eqn:Hc; simpl.
    + split.
      * intros acc Hacc Hend.
        destruct acc as [|a acc]; [contradiction|].
        f_equal. apply IH2. exact Hend.
      * intros Hend. apply IH2. exact Hend.
    + split.
      * intros acc _ Hend. apply IH1; [discriminate|exact Hend].
      * intros Hend. apply IH1; [discriminate|exact Hend].
Qed.

Lemma split_trimmed s c r :
  trim s = c :: r -> splitWhitespace (trim s) = tokens (trim s).
Proof.
  intros Ht. destruct (trim_shape _ _ _ Ht) as [Hc Hend].
  rewrite Ht in *. unfold splitWhitespace, tokens. simpl.
  rewrite Hc. simpl in Hend. rewrite Hc in Hend. simpl in Hend.
  apply (proj1 (splitGo_tokensGo r)); [discriminate|exact Hend].
Qed.

(** The word count of the hook is the number of tokens of the trimmed
    content. *)
Lemma countWords_tokens s :
  JournalEntry.countWords s = List.length (tokens (trim s)).
Proof.
  unfold JournalEntry.countWords.
  destruct (trim s) as [|c r] eqn:Ht; [reflexivity|].
  rewrite <- Ht, (split_trimmed _ _ _ Ht). reflexivity.
Qed.

End StringFacts.

(* ================================================================== *)
(** ** The entry ledger *)
(* ================================================================== *)

(** Reduces the constructors and projections of entries and
    documents, and nothing else. *)
Ltac entry_fields :=
  cbv beta iota zeta delta
    [JournalEntry.new withMetadata withEntryDuration JournalEntry.preSave
     JournalEntry.doc JournalEntry.isNew JournalEntry.modifiedContent
     JournalEntry.modifiedEntryDate JournalEntry._id JournalEntry.userId
     JournalEntry.content JournalEntry.wordCount JournalEntry.characterCount
     JournalEntry.writingDuration JournalEntry.entryDate
     JournalEntry.dateString JournalEntry.mood JournalEntry.tags
     JournalEntry.isCompleted JournalEntry.metadata orb].

Section Ledger.

Import JournalEntry JournalController.

Lemma str_eqb_eq a b : str_eqb a b = true <-> a = b.
Proof.
  unfold str_eqb. destruct (str_eq_dec a b); split; congruence.
Qed.

Lemma str_eqb_refl a : str_eqb a a = true.
Proof. apply str_eqb_eq. reflexivity. Qed.

Lemma NoDup_snoc {A} (l : list A) (a : A) :
  NoDup l -> ~ In a l -> NoDup (l ++ [a]).
Proof.
  induction 1 as [|x l Hx Hl IH]; simpl; intros Ha.
  - constructor; [intros []|constructor].
  - constructor.
    + rewrite in_app_iff. simpl. intros [H|[H|[]]]; [auto|subst; auto].
    + apply IH. auto.
Qed.

(** The hook on a document [new JournalEntry] built. *)
Lemma preSave_fresh d :
  fresh d ->
  doc (preSave d)
  = mk (_id (doc d)) (userId (doc d)) (content (doc d))
       (countWords (content (doc d))) (List.length (content (doc d)))
       (writingDuration (doc d)) (entryDate (doc d))
       (toISODate (entryDate (doc d))) (mood (doc d)) (tags (doc d))
       (isCompleted (doc d)) (metadata (doc d)).
Proof.
  intros (Hn & Hc & He). unfold preSave. rewrite Hc, He. reflexivity.
Qed.

Lemma prepare_fresh c env req d :
  prepare c env req = inr d -> fresh d.
Proof.
  unfold prepare.
  destruct (Validator.createEntryValidation _); [|discriminate].
  destruct (trim _); [discriminate|].
  destruct (negb _); [discriminate|].
  destruct (findOneByDay _ _ _); [discriminate|].
  intros H; injection H as <-. repeat split.
Qed.

(** The unique index refuses a second entry with the key of one that is
    stored. *)
Lemma insertOne_duplicate c e x :
  In x c -> dayKey x = dayKey e -> insertOne c e = inl DuplicateKey.
Proof.
  intros Hin Hk. unfold insertOne.
  assert (H : existsb (fun x => (userId x =? userId e)%N
                                && str_eqb (dateString x) (dateString e)) c
              = true).
  { apply existsb_exists. exists x. split; [exact Hin|].
    unfold dayKey in Hk. injection Hk as -> ->.
    rewrite N.eqb_refl, str_eqb_refl. reflexivity. }
  rewrite H. reflexivity.
Qed.

Lemma insertOne_inserted c e c' :
  insertOne c e = inr c' -> c' = c ++ [e] /\ ~ In (dayKey e) (List.map dayKey c).
Proof.
  unfold insertOne.
  destruct (existsb _ c) eqn:Hex; [discriminate|].
  destruct (existsb (fun x => (_id x =? _id e)%N) c); [discriminate|].
  simpl. intros H; injection H as <-. split; [reflexivity|].
  intros Hin. apply in_map_iff in Hin as (x & Hk & Hx).
  assert (Ht : existsb (fun x => (userId x =? userId e)%N
                                 && str_eqb (dateString x) (dateString e)) c
               = true).
  { apply existsb_exists. exists x. split; [exact Hx|].
    unfold dayKey in Hk. injection Hk as -> ->.
    rewrite N.eqb_refl, str_eqb_refl. reflexivity. }
  congruence.
Qed.

Lemma insertOne_unique c e c' :
  UniqueDays c -> insertOne c e = inr c' -> UniqueDays c'.
Proof.
  intros Hu H. apply insertOne_inserted in H as [-> Hn].
  unfold UniqueDays. rewrite map_app. simpl. apply NoDup_snoc; assumption.
Qed.

(** What a save leaves in the collection. *)
Lemma save_inserted c d c' e :
  save c d = inr (c', e) ->
  validate (doc d) = [] /\ e = doc (preSave d) /\ c' = c ++ [e]
  /\ ~ In (dayKey e) (List.map dayKey c).
Proof.
  unfold save. destruct (validate (doc d)); [|discriminate].
  destruct (insertOne c (doc (preSave d))) as [err|c0] eqn:Hi; [discriminate|].
  intros H; injection H as <- <-.
  apply insertOne_inserted in Hi as [-> Hn]. repeat split; auto.
Qed.

Lemma commit_cases c d :
  (exists e, save c d = inr (c ++ [e], e)
             /\ commit c d = (c ++ [e], Created e))
  \/ (fst (commit c d) = c /\ status (snd (commit c d)) <> 201).
Proof.
  unfold commit. destruct (save c d) as [[paths|]|[c' e]] eqn:Hs.
  - right. split; [reflexivity|discriminate].
  - right. split; [reflexivity|discriminate].
  - left. exists e. destruct (save_inserted _ _ _ _ Hs) as (_ & _ & -> & _).
    split; reflexivity.
Qed.

Lemma commit_unique c d :
  UniqueDays c -> UniqueDays (fst (commit c d)).
Proof.
  intros Hu. destruct (commit_cases c d) as [(e & Hs & Hc)|[Hc _]].
  - rewrite Hc. simpl. apply save_inserted in Hs as (_ & _ & _ & Hn).
    unfold UniqueDays. rewrite map_app. simpl. apply NoDup_snoc; assumption.
  - rewrite Hc. exact Hu.
Qed.

Lemma commit_counts c d :
  fresh d -> Forall countsAgree c -> Forall countsAgree (fst (commit c d)).
Proof.
  intros Hf Hc. destruct (commit_cases c d) as [(e & Hs & Hcm)|[Hcm _]].
  - rewrite Hcm. simpl. apply Forall_app. split; [exact Hc|].
    constructor; [|constructor].
    apply save_inserted in Hs as (_ & -> & _ & _).
    rewrite (preSave_fresh _ Hf). unfold countsAgree. simpl.
    split; [reflexivity|apply countWords_tokens].
  - rewrite Hcm. exact Hc.
Qed.

Lemma createEntry_unique c env req :
  UniqueDays c -> UniqueDays (fst (createEntry c env req)).
Proof.
  intros Hu. unfold createEntry.
  destruct (prepare c env req); [exact Hu|apply commit_unique; exact Hu].
Qed.

(** What holds in every world the server reaches. *)
Lemma reachable_invariant w :
  reachable w ->
  UniqueDays (entries w) /\ Forall countsAgree (entries w)
  /\ Forall fresh (pending w).
Proof.
  induction 1 as [|w w' Hr (Hu & Hc & Hp) Hs]; simpl.
  - repeat split; constructor.
  - destruct Hs as [c ps env req r _|c ps env req d Hd|c ps1 d ps2]; simpl in *.
    + auto.
    + repeat split; auto. apply Forall_app. split; [exact Hp|].
      constructor; [|constructor]. eapply prepare_fresh; eauto.
    + apply Forall_app in Hp as [Hp1 Hp2].
      inversion Hp2 as [|? ? Hd Hp2']; subst.
      repeat split.
      * apply commit_unique; exact Hu.
      * apply commit_counts; assumption.
      * apply Forall_app; split; assumption.
Qed.

End Ledger.

Section LedgerExamples.

Import JournalEntry JournalController.

Example createEntry_sample :
  exists e,
    createEntry [] sampleEnv (sampleRequest (45 # 1)) = ([e], Created e)
    /\ content e = lit "Walked to the old harbour"
    /\ wordCount e = 5%nat /\ characterCount e = 25%nat
    /\ dateString e = lit "2026-11-03"
    /\ tags e = [lit "walk"; lit "sea"]
    /\ timezone (metadata e) = lit "Pacific/Kiritimati".
Proof. eexists. vm_compute. repeat split. Qed.

End LedgerExamples.

Section LedgerConflicts.

Import JournalEntry JournalController.

Lemma findOneByDay_none c uid day e :
  findOneByDay c uid day = None ->
  In e c -> userId e = uid -> dateString e <> day.
Proof.
  unfold findOneByDay. intros Hf Hin Hu Hd.
  apply (find_none _ _ Hf) in Hin.
  rewrite Hu, Hd, N.eqb_refl, str_eqb_refl in Hin. discriminate.
Qed.

Lemma findOneByDay_some c uid day e :
  findOneByDay c uid day = Some e ->
  In e c /\ userId e = uid /\ dateString e = day.
Proof.
  unfold findOneByDay. intros Hf. apply find_some in Hf as [Hin Hb].
  apply andb_prop in Hb as [Hu Hd].
  apply N.eqb_eq in Hu. apply str_eqb_eq in Hd. auto.
Qed.

(** The collection enters [prepare] through the existence check only. *)
Lemma prepare_other_store c c' env req d :
  prepare c env req = inr d ->
  prepare c' env req
  = match findOneByDay c' (req_userId req) (formatDateString (tCheck env)) with
    | Some _ => inl entryExists
    | None => inr d
    end.
Proof.
  unfold prepare.
  destruct (Validator.createEntryValidation _); [|discriminate].
  destruct (trim _); [discriminate|].
  destruct (negb _); [discriminate|].
  destruct (findOneByDay c _ _); [discriminate|].
  intros H; injection H as <-.
  destruct (findOneByDay c' _ _); reflexivity.
Qed.

Lemma prepare_doc c env req d :
  prepare c env req = inr d ->
  userId (doc d) = req_userId req /\ entryDate (doc d) = tNew env
  /\ _id (doc d) = newId env
  /\ findOneByDay c (req_userId req) (formatDateString (tCheck env)) = None.
Proof.
  unfold prepare.
  destruct (Validator.createEntryValidation _); [|discriminate].
  destruct (trim _); [discriminate|].
  destruct (negb _); [discriminate|].
  destruct (findOneByDay c _ _); [discriminate|].
  intros H; injection H as <-. repeat split.
Qed.

Lemma createEntry_created c env req c' e :
  createEntry c env req = (c', Created e) ->
  exists d, prepare c env req = inr d /\ save c d = inr (c', e).
Proof.
  unfold createEntry. destruct (prepare c env req) as [r|d] eqn:Hp.
  - intros H; injection H as <- ->.
    exfalso. revert Hp. unfold prepare.
    destruct (Validator.createEntryValidation _); [|discriminate].
    destruct (trim _); [discriminate|].
    destruct (negb _); [discriminate|].
    destruct (findOneByDay c _ _); discriminate.
  - intros H. exists d. split; [reflexivity|].
    unfold commit in H. destruct (save c d) as [[?|]|[c0 e0]]; try discriminate.
    injection H as <- <-. reflexivity.
Qed.

(** The entry a successful [createEntry] stored. *)
Lemma createEntry_stored c env req c' e :
  createEntry c env req = (c', Created e) ->
  c' = c ++ [e] /\ userId e = req_userId req /\ entryDate e = tNew env
  /\ dateString e = toISODate (tNew env).
Proof.
  intros H. apply createEntry_created in H as (d & Hp & Hs).
  pose proof (prepare_fresh _ _ _ _ Hp) as Hf.
  destruct (prepare_doc _ _ _ _ Hp) as (Hu & He & _ & _).
  apply save_inserted in Hs as (_ & -> & -> & _).
  rewrite (preSave_fresh _ Hf). simpl. rewrite Hu, He. auto.
Qed.

(** A save of a valid new document whose identity and day are taken is
    answered with the conflict, and the collection stays as it is. *)
Lemma commit_conflict c d x :
  fresh d -> validate (doc d) = [] ->
  In x c -> userId x = userId (doc d) ->
  dateString x = toISODate (entryDate (doc d)) ->
  save c d = inl DuplicateKey /\ commit c d = (c, entryExists).
Proof.
  intros Hf Hv Hin Hu Hd.
  assert (Hs : save c d = inl DuplicateKey).
  { unfold save. rewrite Hv.
    rewrite (insertOne_duplicate c _ x Hin); [reflexivity|].
    rewrite (preSave_fresh _ Hf). unfold dayKey. simpl. congruence. }
  split; [exact Hs|]. unfold commit. rewrite Hs. reflexivity.
Qed.

(** A request that an empty ledger accepts is answered with the conflict
    once the identity has an entry under the day of either clock
    reading. *)
Lemma createEntry_conflict c env req e0 x :
  snd (createEntry [] env req) = Created e0 ->
  In x c -> userId x = req_userId req ->
  dateString x = toISODate (tCheck env)
  \/ dateString x = toISODate (tNew env) ->
  createEntry c env req = (c, entryExists).
Proof.
  intros H0 Hin Hu Hday.
  destruct (createEntry [] env req) as [c0 r0] eqn:Hc0. simpl in H0. subst r0.
  apply createEntry_created in Hc0 as (d & Hp & Hs).
  pose proof (prepare_fresh _ _ _ _ Hp) as Hf.
  destruct (prepare_doc _ _ _ _ Hp) as (Hud & Hed & _ & _).
  apply save_inserted in Hs as (Hv & _).
  unfold createEntry. rewrite (prepare_other_store _ c _ _ _ Hp).
  destruct (findOneByDay c _ _) as [y|] eqn:Hfind; [reflexivity|].
  destruct Hday as [Hday|Hday].
  - exfalso. eapply findOneByDay_none; eauto.
  - apply (commit_conflict c d x); auto; congruence.
Qed.

Lemma entriesOn_unique c uid day :
  UniqueDays c -> (List.length (entriesOn c uid day) <= 1)%nat.
Proof.
  unfold UniqueDays, entriesOn.
  induction c as [|e c IH]; simpl; intros Hu; [lia|].
  inversion Hu as [|? ? Hn Hu']; subst.
  destruct ((userId e =? uid)%N && str_eqb (dateString e) day) eqn:He.
  - simpl. apply andb_prop in He as [H1 H2].
    apply N.eqb_eq in H1. apply str_eqb_eq in H2.
    destruct (filter _ c) as [|y l] eqn:Hfl; [simpl; lia|].
    exfalso. apply Hn.
    assert (Hy : In y (filter
      (fun e => (userId e =? uid)%N && str_eqb (dateString e) day) c))
      by (rewrite Hfl; left; reflexivity).
    apply filter_In in Hy as [Hy Hb]. apply andb_prop in Hb as [H3 H4].
    apply N.eqb_eq in H3. apply str_eqb_eq in H4.
    apply in_map_iff. exists y. split; [|exact Hy].
    unfold dayKey. congruence.
  - apply IH. exact Hu'.
Qed.

End LedgerConflicts.

Section DateShape.

Lemma padDigits_length w n : List.length (padDigits w n) = w.
Proof.
  revert n; induction w as [|w IH]; intros n; simpl; [reflexivity|].
  rewrite length_app, IH. simpl. lia.
Qed.

(** The civil date of a day from 1970-01-01 to 9999-12-31. *)
Lemma civilFromDays_range days :
  0 <= days <= 2932896 ->
  let '(y, m, d) := civilFromDays days in
  1970 <= y <= 9999 /\ 1 <= m <= 12 /\ 1 <= d <= 31.
Proof.
  intros H. unfold civilFromDays.
  set (z := days + 719468).
  set (era := z / 146097).
  set (doe := z - era * 146097).
  set (yoe := (doe - doe / 1460 + doe / 36524 - doe / 146096) / 365).
  set (doy := doe - (365 * yoe + yoe / 4 - yoe / 100)).
  set (mp := (5 * doy + 2) / 153).
  assert (Hz : 719468 <= z <= 3652364) by (unfold z; lia).
  assert (Hera : 4 <= era <= 24).
  { unfold era. split.
    - apply Z.div_le_lower_bound; lia.
    - apply Z.lt_succ_r. apply Z.div_lt_upper_bound; lia. }
  assert (Hdoe : 0 <= doe <= 146096).
  { unfold doe, era. pose proof (Z.mod_pos_bound z 146097 ltac:(lia)).
    rewrite Z.mod_eq in H0 by lia. lia. }
  assert (Hyoe : 0 <= yoe <= 399).
  { unfold yoe. split.
    - apply Z.div_pos; [|lia]. Z.div_mod_to_equations. lia.
    - apply Z.lt_succ_r. apply Z.div_lt_upper_bound; [lia|].
      Z.div_mod_to_equations. lia. }
  assert (Hdoy : 0 <= doy <= 365).
  { unfold doy, yoe. Z.div_mod_to_equations. lia. }
  assert (Hmp : 0 <= mp <= 11).
  { unfold mp. split.
    - apply Z.div_pos; lia.
    - apply Z.lt_succ_r. apply Z.div_lt_upper_bound; lia. }
  destruct (mp <? 10) eqn:Hm10.
  - apply Z.ltb_lt in Hm10.
    assert (Hm : (mp + 3 <=? 2) = false) by (apply Z.leb_gt; lia).
    rewrite Hm. repeat split; try lia.
    all: unfold mp, doy, yoe, doe, era, z in *; Z.div_mod_to_equations; lia.
  - apply Z.ltb_ge in Hm10.
    assert (Hm : (mp - 9 <=? 2) = true) by (apply Z.leb_le; lia).
    rewrite Hm. repeat split; try lia.
    all: unfold mp, doy, yoe, doe, era, z in *; Z.div_mod_to_equations; lia.
Qed.

(** [toISOString]'s date of an instant from 1970 to 9999 reads
    YYYY-MM-DD. *)
Lemma toISODate_shape t :
  0 <= t < 253402300800000 ->
  List.length (toISODate t) = 10%nat
  /\ nth 4 (toISODate t) 0%N = 45%N /\ nth 7 (toISODate t) 0%N = 45%N.
Proof.
  intros Ht. unfold toISODate.
  assert (Hd : 0 <= utcDay t <= 2932896).
  { unfold utcDay, msPerDay. split.
    - apply Z.div_pos; lia.
    - apply Z.lt_succ_r. apply Z.div_lt_upper_bound; lia. }
  pose proof (civilFromDays_range (utcDay t) Hd) as Hr.
  destruct (civilFromDays (utcDay t)) as [[y m] d].
  destruct Hr as (Hy & _ & _).
  unfold isoYear.
  assert (Hy' : (0 <=? y) && (y <=? 9999) = true).
  { apply andb_true_intro. split; apply Z.leb_le; lia. }
  rewrite Hy'.
  assert (H4 : List.length (padDigits 4 y) = 4%nat) by apply padDigits_length.
  assert (H2 : List.length (padDigits 2 m) = 2%nat) by apply padDigits_length.
  assert (H2' : List.length (padDigits 2 d) = 2%nat) by apply padDigits_length.
  destruct (padDigits 4 y) as [|a1 [|a2 [|a3 [|a4 [|? ?]]]]]; try discriminate.
  destruct (padDigits 2 m) as [|b1 [|b2 [|? ?]]]; try discriminate.
  destruct (padDigits 2 d) as [|c1 [|c2 [|? ?]]]; try discriminate.
  repeat split.
Qed.

(** The year of the era and the day of the year in [civilFromDays]. *)
Lemma yoe_facts doe :
  0 <= doe <= 146096 ->
  let yoe := (doe - doe / 1460 + doe / 36524 - doe / 146096) / 365 in
  let doy := doe - (365 * yoe + yoe / 4 - yoe / 100) in
  0 <= yoe <= 399 /\ 0 <= doy <= 365
  /\ (doy = 365 -> (yoe + 1) mod 4 = 0
                   /\ ((yoe + 1) mod 100 <> 0 \/ (yoe + 1) mod 400 = 0)).
Proof.
  intros H yoe doy. unfold doy, yoe.
  Z.div_mod_to_equations; lia.
Qed.

Lemma InLeapYear_true y :
  InLeapYear y = true <->
  y mod 4 = 0 /\ (y mod 100 <> 0 \/ y mod 400 = 0).
Proof.
  unfold InLeapYear.
  rewrite orb_true_iff, andb_true_iff, negb_true_iff, !Z.eqb_eq, Z.eqb_neq.
  split.
  - intros [[H4 H100]|H400]; [tauto|].
    split; [|now right]. Z.div_mod_to_equations. lia.
  - intros [H4 [H100|H400]]; [left; tauto | now right].
Qed.

Lemma InLeapYear_false y :
  InLeapYear y = false <->
  y mod 4 <> 0 \/ (y mod 100 = 0 /\ y mod 400 <> 0).
Proof.
  rewrite <- not_true_iff_false, InLeapYear_true.
  destruct (Z.eq_dec (y mod 4) 0), (Z.eq_dec (y mod 100) 0),
    (Z.eq_dec (y mod 400) 0); tauto.
Qed.

Ltac leap_cases y :=
  destruct (InLeapYear y) eqn:Hleap;
  [apply InLeapYear_true in Hleap | apply InLeapYear_false in Hleap].

(** [civilFromDays] gives a date of the calendar, and the date of the
    day it was given. *)
Lemma civilFromDays_correct days :
  let '(y, m, d) := civilFromDays days in
  1 <= m <= 12 /\ 1 <= d <= daysInMonth y m /\ dayOfDate y m d = days.
Proof.
  unfold civilFromDays.
  set (z := days + 719468).
  set (era := z / 146097).
  set (doe := z - era * 146097).
  assert (Hdoe : 0 <= doe <= 146096).
  { unfold doe, era. pose proof (Z.mod_pos_bound z 146097 ltac:(lia)) as Hm.
    rewrite Z.mod_eq in Hm by lia. lia. }
  pose proof (yoe_facts doe Hdoe) as Hy. cbv zeta in Hy.
  set (yoe := (doe - doe / 1460 + doe / 36524 - doe / 146096) / 365) in *.
  set (doy := doe - (365 * yoe + yoe / 4 - yoe / 100)) in *.
  destruct Hy as (Hyoe & Hdoy & Hfeb).
  set (mp := (5 * doy + 2) / 153).
  assert (Hmp : 0 <= mp <= 11).
  { unfold mp. split.
    - apply Z.div_pos; lia.
    - apply Z.lt_succ_r. apply Z.div_lt_upper_bound; lia. }
  assert (Hdays : days = era * 146097 + doe - 719468) by (unfold doe, z; lia).
  assert (Hdoe' : doe = 365 * yoe + yoe / 4 - yoe / 100 + doy)
    by (unfold doy; lia).
  assert (Hmpd : 153 * mp <= 5 * doy + 2 < 153 * mp + 153).
  { unfold mp. Z.div_mod_to_equations. lia. }
  clearbody mp doy yoe doe era. clear z.
  set (q := (153 * mp + 2) / 5).
  set (m := if mp <? 10 then mp + 3 else mp - 9).
  set (c := if m <=? 2 then 1 else 0).
  assert (Hcase : mp = 0 \/ mp = 1 \/ mp = 2 \/ mp = 3 \/ mp = 4 \/ mp = 5
                  \/ mp = 6 \/ mp = 7 \/ mp = 8 \/ mp = 9 \/ mp = 10
                  \/ mp = 11) by lia.
  unfold dayOfDate, daysBeforeMonth, daysInMonth.
  set (b := InLeapYear (yoe + era * 400 + c)).
  assert (Hb : InLeapYear (yoe + era * 400 + c) = b) by reflexivity.
  unfold DayFromYear.
  repeat (destruct Hcase as [Hcase|Hcase]);
    subst mp; vm_compute in q; vm_compute in m; vm_compute in c;
    subst q m c; clearbody b;
    (destruct b;
     [apply InLeapYear_true in Hb | apply InLeapYear_false in Hb]);
    cbn [Z.eqb Pos.eqb orb];
    match goal with
    | |- context [fold_left Z.add ?l 0] =>
        let v := eval vm_compute in (fold_left Z.add l 0) in
        change (fold_left Z.add l 0) with v
    end;
    (split; [lia|]); Z.div_mod_to_equations; lia.
Qed.

Lemma digitsValue_snoc s ch :
  digitsValue (s ++ [ch]) = 10 * digitsValue s + (Z.of_N ch - 48).
Proof. unfold digitsValue. rewrite fold_left_app. reflexivity. Qed.

Lemma digitsValue_padDigits w n :
  0 <= n -> digitsValue (padDigits w n) = n mod 10 ^ Z.of_nat w.
Proof.
  revert n. induction w as [|w IH]; intros n Hn.
  - cbn. now rewrite Z.mod_1_r.
  - cbn [padDigits]. rewrite digitsValue_snoc, IH
      by (apply Z.div_pos; lia).
    rewrite Z2N.id by (pose proof (Z.mod_pos_bound n 10); lia).
    rewrite Nat2Z.inj_succ, Z.pow_succ_r by lia.
    rewrite (Z.rem_mul_r n 10 (10 ^ Z.of_nat w)) by lia. lia.
Qed.

Lemma readISODate_digits y m d :
  0 <= y <= 9999 -> 0 <= m <= 99 -> 0 <= d <= 99 ->
  readISODate (padDigits 4 y ++ lit "-" ++ padDigits 2 m ++ lit "-"
               ++ padDigits 2 d)
  = (y, m, d).
Proof.
  intros Hy Hm Hd. unfold readISODate.
  pose proof (padDigits_length 4 y) as L4.
  pose proof (padDigits_length 2 m) as L2.
  pose proof (padDigits_length 2 d) as L2'.
  pose proof (digitsValue_padDigits 4 y ltac:(lia)) as V4.
  pose proof (digitsValue_padDigits 2 m ltac:(lia)) as V2.
  pose proof (digitsValue_padDigits 2 d ltac:(lia)) as V2'.
  destruct (padDigits 4 y) as [|a1 [|a2 [|a3 [|a4 [|? ?]]]]]; try discriminate.
  destruct (padDigits 2 m) as [|b1 [|b2 [|? ?]]]; try discriminate.
  destruct (padDigits 2 d) as [|c1 [|c2 [|? ?]]]; try discriminate.
  cbn [lit List.map list_ascii_of_string List.app firstn skipn].
  rewrite V4, V2, V2'.
  change (10 ^ Z.of_nat 4) with 10000. change (10 ^ Z.of_nat 2) with 100.
  rewrite !Z.mod_small by lia. reflexivity.
Qed.

(** The date [toISOString] prints for an instant from 1970 to 9999 is
    the Gregorian date of the instant's UTC day, and can be read back
    from the key. *)
Lemma toISODate_reads t :
  0 <= t < 253402300800000 ->
  exists y m d,
    toISODate t
    = padDigits 4 y ++ lit "-" ++ padDigits 2 m ++ lit "-" ++ padDigits 2 d
    /\ 1970 <= y <= 9999 /\ 1 <= m <= 12 /\ 1 <= d <= daysInMonth y m
    /\ dayOfDate y m d = t / 86400000
    /\ readISODate (toISODate t) = (y, m, d).
Proof.
  intros Ht. unfold toISODate.
  assert (Hd : 0 <= utcDay t <= 2932896).
  { unfold utcDay, msPerDay. split.
    - apply Z.div_pos; lia.
    - apply Z.lt_succ_r. apply Z.div_lt_upper_bound; lia. }
  pose proof (civilFromDays_range (utcDay t) Hd) as Hr.
  pose proof (civilFromDays_correct (utcDay t)) as Hc.
  destruct (civilFromDays (utcDay t)) as [[y m] d].
  destruct Hr as (Hy & Hm & Hd31). destruct Hc as (_ & Hdm & Hday).
  unfold isoYear.
  assert (Hy' : (0 <=? y) && (y <=? 9999) = true).
  { apply andb_true_intro. split; apply Z.leb_le; lia. }
  rewrite Hy'. exists y, m, d. repeat split; try lia.
  - exact Hday.
  - apply readISODate_digits; lia.
Qed.

(** Two instants from 1970 to 9999 have the same key exactly when they
    fall on the same UTC day. *)
Lemma toISODate_same_day t1 t2 :
  0 <= t1 < 253402300800000 -> 0 <= t2 < 253402300800000 ->
  toISODate t1 = toISODate t2 <-> t1 / 86400000 = t2 / 86400000.
Proof.
  intros H1 H2. split.
  - intros He.
    destruct (toISODate_reads t1 H1) as (y1 & m1 & d1 & _ & _ & _ & _ & D1 & R1).
    destruct (toISODate_reads t2 H2) as (y2 & m2 & d2 & _ & _ & _ & _ & D2 & R2).
    rewrite He, R2 in R1. injection R1 as <- <- <-. congruence.
  - intros He. unfold toISODate, utcDay, msPerDay. now rewrite He.
Qed.

End DateShape.

Section LedgerMetadata.

Import JournalEntry JournalController.

(** Neither the validators, nor the hook, nor the indexes read the
    metadata. *)
Lemma validate_metadata e md : validate (withMetadata e md) = validate e.
Proof. destruct e. reflexivity. Qed.

Lemma preSave_metadata d md :
  fresh d ->
  doc (preSave (mkDocument (withMetadata (doc d) md) true true true))
  = withMetadata (doc (preSave d)) md.
Proof.
  intros (Hn & Hc & He). destruct d as [[] ? ? ?].
  cbn [isNew modifiedContent modifiedEntryDate] in *. subst.
  entry_fields. reflexivity.
Qed.

Lemma insertOne_metadata c e md :
  insertOne c (withMetadata e md)
  = match insertOne c e with
    | inl err => inl err
    | inr _ => inr (c ++ [withMetadata e md])
    end.
Proof.
  unfold insertOne. destruct e; simpl.
  destruct (existsb _ c || existsb _ c); reflexivity.
Qed.

Lemma save_metadata c d c' e md :
  fresh d ->
  save c d = inr (c', e) ->
  save c (mkDocument (withMetadata (doc d) md) true true true)
  = inr (c ++ [withMetadata e md], withMetadata e md).
Proof.
  intros Hf. unfold save.
  rewrite (preSave_metadata d md Hf), insertOne_metadata.
  change (doc (mkDocument (withMetadata (doc d) md) true true true))
    with (withMetadata (doc d) md).
  rewrite validate_metadata.
  destruct (validate (doc d)); [|discriminate].
  destruct (insertOne c (doc (preSave d))); [discriminate|].
  intros H; injection H as <- <-. reflexivity.
Qed.

Lemma prepare_timezone c env req d tz :
  prepare c env req = inr d ->
  prepare c env (withTimezone req tz)
  = inr (mkDocument
           (withMetadata (doc d)
              (mkMetadata (req_ip req) (req_userAgent req)
                 (orElse tz (lit "UTC"))))
           true true true).
Proof.
  unfold prepare, withTimezone.
  cbn [req_userId req_body req_ip req_userAgent req_timezone].
  destruct (Validator.createEntryValidation _); [|discriminate].
  destruct (trim _); [discriminate|].
  destruct (negb _); [discriminate|].
  destruct (findOneByDay c _ _); [discriminate|].
  intros H; injection H as <-. entry_fields. reflexivity.
Qed.

End LedgerMetadata.

Section LedgerClaims.

Import JournalEntry JournalController.

(** C1.  At most one entry per identity and calendar-day key, after any
    sequence of [createEntry] operations, interleaved at their
    [await save()] or not: the number of entries of an identity under a
    day key never exceeds one, and [createEntry] keeps the keys unique.
    A second attempt for the identity and day of a stored entry, by a
    request that would otherwise be accepted, is answered with the
    conflict 'Entry already exists' and changes nothing.  The constraint
    is the store's: the save of a valid document whose key is taken fails
    with the duplicate-key error whatever the existence check saw, so of
    two requests that both passed the check the one that saves second
    gets the conflict. *)
Theorem C1_one_entry_per_identity_and_day :
  (forall w uid day,
      reachable w -> (List.length (entriesOn (entries w) uid day) <= 1)%nat)
  /\ (forall c env req,
         UniqueDays c -> UniqueDays (fst (createEntry c env req)))
  /\ (forall c env1 req1 c1 e1 env2 req2 e0,
         createEntry c env1 req1 = (c1, Created e1) ->
         req_userId req2 = req_userId req1 ->
         toISODate (tCheck env2) = toISODate (tNew env1)
         \/ toISODate (tNew env2) = toISODate (tNew env1) ->
         snd (createEntry [] env2 req2) = Created e0 ->
         createEntry c1 env2 req2 = (c1, entryExists))
  /\ (forall c d x,
         fresh d -> validate (doc d) = [] ->
         In x c -> dayKey x = (userId (doc d), toISODate (entryDate (doc d))) ->
         save c d = inl DuplicateKey /\ commit c d = (c, entryExists))
  /\ (forall c env1 req1 d1 env2 req2 d2 c1 e1,
         prepare c env1 req1 = inr d1 ->
         prepare c env2 req2 = inr d2 ->
         req_userId req2 = req_userId req1 ->
         toISODate (tNew env2) = toISODate (tNew env1) ->
         commit c d1 = (c1, Created e1) ->
         validate (doc d2) = [] ->
         commit c1 d2 = (c1, entryExists)).
Proof.
  split; [|split; [|split; [|split]]].
  - intros w uid day Hr. apply entriesOn_unique.
    apply (reachable_invariant w Hr).
  - intros c env req. apply createEntry_unique.
  - intros c env1 req1 c1 e1 env2 req2 e0 H1 Hu Hday H2.
    destruct (createEntry_stored _ _ _ _ _ H1) as (-> & Hu1 & _ & Hd1).
    apply (createEntry_conflict _ env2 req2 e0 e1 H2).
    + apply in_or_app. right. left. reflexivity.
    + congruence.
    + destruct Hday as [Hday|Hday]; [left|right]; congruence.
  - intros c d x Hf Hv Hin Hk. unfold dayKey in Hk. injection Hk as Hu Hd.
    apply (commit_conflict c d x); assumption.
  - intros c env1 req1 d1 env2 req2 d2 c1 e1 Hp1 Hp2 Hu Hday Hc1 Hv.
    pose proof (prepare_fresh _ _ _ _ Hp1) as Hf1.
    pose proof (prepare_fresh _ _ _ _ Hp2) as Hf2.
    destruct (prepare_doc _ _ _ _ Hp1) as (Hu1 & He1 & _).
    destruct (prepare_doc _ _ _ _ Hp2) as (Hu2 & He2 & _).
    destruct (commit_cases c d1) as [(e & Hs & Hc)|[_ Hst]].
    + rewrite Hc in Hc1. injection Hc1 as <- <-.
      apply save_inserted in Hs as (_ & He & _ & _).
      apply (commit_conflict (c ++ [e]) d2 e); auto.
      * apply in_or_app. right. left. reflexivity.
      * rewrite He, (preSave_fresh _ Hf1). simpl. congruence.
      * rewrite He, (preSave_fresh _ Hf1). simpl. congruence.
    + rewrite Hc1 in Hst. simpl in Hst. contradiction.
Qed.

(** C1, on the sample requests: the first is stored, the second of the
    same identity on the same day gets the conflict. *)
Lemma C1_second_attempt_witness :
  exists c1 e1,
    createEntry [] sampleEnv (sampleRequest (45 # 1)) = (c1, Created e1)
    /\ createEntry c1 sampleEnvLater (sampleRequest (30 # 1))
       = (c1, entryExists).
Proof.
  assert (H1 : exists e1, createEntry [] sampleEnv (sampleRequest (45 # 1))
                          = ([e1], Created e1))
    by (eexists; vm_compute; reflexivity).
  assert (H2 : exists e0,
             snd (createEntry [] sampleEnvLater (sampleRequest (30 # 1)))
             = Created e0)
    by (eexists; vm_compute; reflexivity).
  destruct H1 as [e1 H1]. destruct H2 as [e0 H2].
  exists [e1], e1. split; [exact H1|].
  apply (proj1 (proj2 (proj2 C1_one_entry_per_identity_and_day))
           [] sampleEnv (sampleRequest (45 # 1)) [e1] e1
           sampleEnvLater (sampleRequest (30 # 1)) e0 H1).
  - reflexivity.
  - left. vm_compute. reflexivity.
  - exact H2.
Defined.

(** C5.  The day key of a created entry is the UTC calendar date of its
    creation instant, the clock reading taken for [entryDate]: up to the
    year 9999 it reads YYYY-MM-DD, the digits are those of the date of
    the Gregorian calendar whose day number is the instant's number of
    whole days since the epoch, and two created entries have the same
    key exactly when their instants fall on the same UTC day.  The
    [timezone] header is stored in the metadata and nowhere else: the
    same request under any other header is stored as the same entry,
    under the same key, but for that metadata field. *)
Theorem C5_day_key_is_utc_date_of_creation :
  (forall c env req c' e,
      createEntry c env req = (c', Created e) ->
      entryDate e = tNew env
      /\ dateString e = toISODate (entryDate e)
      /\ (0 <= tNew env < 253402300800000 ->
          List.length (dateString e) = 10%nat
          /\ nth 4 (dateString e) 0%N = 45%N
          /\ nth 7 (dateString e) 0%N = 45%N)
      /\ (0 <= tNew env < 253402300800000 ->
          exists y m d,
            dateString e
            = padDigits 4 y ++ lit "-" ++ padDigits 2 m ++ lit "-"
              ++ padDigits 2 d
            /\ 1970 <= y <= 9999 /\ 1 <= m <= 12
            /\ 1 <= d <= daysInMonth y m
            /\ dayOfDate y m d = tNew env / 86400000
            /\ readISODate (dateString e) = (y, m, d))
      /\ timezone (metadata e) = orElse (req_timezone req) (lit "UTC")
      /\ forall tz,
          exists e',
            createEntry c env (withTimezone req tz) = (c ++ [e'], Created e')
            /\ e' = withMetadata e
                      (mkMetadata (req_ip req) (req_userAgent req)
                         (orElse tz (lit "UTC")))
            /\ dayKey e' = dayKey e)
  /\ (forall c1 env1 req1 c1' e1 c2 env2 req2 c2' e2,
         createEntry c1 env1 req1 = (c1', Created e1) ->
         createEntry c2 env2 req2 = (c2', Created e2) ->
         0 <= tNew env1 < 253402300800000 ->
         0 <= tNew env2 < 253402300800000 ->
         dateString e1 = dateString e2
         <-> tNew env1 / 86400000 = tNew env2 / 86400000).
Proof.
  split.
  - intros c env req c' e H.
    destruct (createEntry_stored _ _ _ _ _ H) as (Hc' & Hu & He & Hd).
    apply createEntry_created in H as (d & Hp & Hs).
    pose proof (prepare_fresh _ _ _ _ Hp) as Hf.
    split; [exact He|]. split; [congruence|].
    split; [intros Ht; rewrite Hd; apply toISODate_shape; exact Ht|].
    split; [intros Ht; rewrite Hd; apply toISODate_reads; exact Ht|].
    pose proof (save_inserted _ _ _ _ Hs) as (_ & Hed & _ & _).
    split.
    + rewrite Hed, (preSave_fresh _ Hf).
      revert Hp. unfold prepare.
      destruct (Validator.createEntryValidation _); [|discriminate].
      destruct (trim _); [discriminate|].
      destruct (negb _); [discriminate|].
      destruct (findOneByDay c _ _); [discriminate|].
      intros Hd0; injection Hd0 as <-. reflexivity.
    + intros tz. eexists. split; [|split; [reflexivity|]].
      * unfold createEntry. rewrite (prepare_timezone _ _ _ _ tz Hp).
        unfold commit. rewrite (save_metadata _ _ _ _ _ Hf Hs). reflexivity.
      * destruct e. reflexivity.
  - intros c1 env1 req1 c1' e1 c2 env2 req2 c2' e2 H1 H2 Ht1 Ht2.
    destruct (createEntry_stored _ _ _ _ _ H1) as (_ & _ & _ & ->).
    destruct (createEntry_stored _ _ _ _ _ H2) as (_ & _ & _ & ->).
    apply toISODate_same_day; assumption.
Qed.

(** C5, on the sample request, whose header names a zone fourteen hours
    ahead of UTC, at an instant when the date in that zone is already
    the next day: the key is the UTC date. *)
Lemma C5_sample_witness :
  exists c' e,
    createEntry [] sampleEnvDateLine (sampleRequest (45 # 1))
    = (c', Created e)
    /\ dateString e = lit "2026-11-03"
    /\ timezone (metadata e) = lit "Pacific/Kiritimati"
    /\ toISODate (entryDate e + 14 * 60 * 60 * 1000) = lit "2026-11-04"
    /\ readISODate (dateString e) = (2026, 11, 3)
    /\ dayOfDate 2026 11 3 = entryDate e / 86400000.
Proof.
  assert (H : exists e,
             createEntry [] sampleEnvDateLine (sampleRequest (45 # 1))
             = ([e], Created e))
    by (eexists; vm_compute; reflexivity).
  destruct H as [e H]. exists [e], e. split; [exact H|].
  destruct (proj1 C5_day_key_is_utc_date_of_creation _ _ _ _ _ H)
    as (H1 & H2 & _ & H3 & H4 & _).
  assert (Hkey : dateString e = lit "2026-11-03")
    by (rewrite H2, H1; vm_compute; reflexivity).
  split; [exact Hkey|]. split; [rewrite H4; reflexivity|].
  split; [rewrite H1; vm_compute; reflexivity|].
  destruct H3 as (y & m & d & _ & _ & _ & _ & Hday & Hread).
  { unfold sampleEnvDateLine. cbn [tNew]. lia. }
  rewrite Hkey in Hread.
  assert (Hymd : (2026, 11, 3) = (y, m, d))
    by (rewrite <- Hread; vm_compute; reflexivity).
  injection Hymd as <- <- <-.
  split; [rewrite Hkey; vm_compute; reflexivity|].
  rewrite Hday, H1. reflexivity.
Defined.

End LedgerClaims.

Section LedgerValidation.

Import JournalEntry JournalController.

Lemma flat_map_nil {A B} (f : A -> list B) (l : list A) :
  flat_map f l = [] <-> forall x, In x l -> f x = [].
Proof.
  induction l as [|a l IH]; simpl.
  - split; [intros _ x []|reflexivity].
  - split.
    + intros H. apply app_eq_nil in H as [Ha Hl].
      intros x [<-|Hx]; [exact Ha|]. apply IH; assumption.
    + intros H. rewrite (H a (or_introl eq_refl)). simpl.
      apply IH. intros x Hx. apply H. right. exact Hx.
Qed.

(** A number in the interval prints without an exponent. *)
Lemma isDuration_plain d :
  Validator.isDuration d = true -> Validator.printsExponent d = false.
Proof.
  unfold Validator.isDuration, Validator.printsExponent. intros H.
  apply andb_prop in H as [H1 H60]. apply Qle_bool_iff in H1, H60.
  assert (H0 : Qle_bool 0 d = true)
    by (apply Qle_bool_iff; apply Qle_trans with (1 # 1); [easy|exact H1]).
  rewrite H0.
  assert (Hs : Qle_bool (1 # 1000000) d = true)
    by (apply Qle_bool_iff; apply Qle_trans with (1 # 1); [easy|exact H1]).
  rewrite Hs. cbn [negb orb].
  destruct (Qle_bool (1000000000000000000000 # 1) d) eqn:Hb;
    [|apply andb_false_r].
  apply Qle_bool_iff in Hb. exfalso.
  assert (Hc : (1000000000000000000000 # 1 <= 60 # 1)%Q)
    by (apply Qle_trans with d; assumption).
  revert Hc. unfold Qle. cbn. lia.
Qed.

Lemma validation_passes b :
  Validator.createEntryValidation b = [] <-> chainsPass b.
Proof.
  unfold Validator.createEntryValidation, Validator.chainErrors, chainsPass.
  destruct b as [ct dur md tg].
  cbn [Validator.content Validator.writingDuration Validator.mood
       Validator.tags Validator.sanitized option_map].
  split.
  - intros H.
    apply app_eq_nil in H as [H1 H]. apply app_eq_nil in H as [_ H].
    apply app_eq_nil in H as [H2 H].
    apply app_eq_nil in H as [H3 H4].
    split; [|split; [|split]].
    + destruct (Validator.isLength 1 2000 (trim ct)); [reflexivity|discriminate].
    + destruct (Validator.isDuration dur); [reflexivity|discriminate].
    + intros m ->. destruct (Validator.isIn Validator.moods m);
        [reflexivity|discriminate].
    + intros ts t -> Hin. cbn [option_map] in H4.
      assert (Ht := proj1 (flat_map_nil _ _) H4 (trim t) (in_map trim _ _ Hin)).
      cbv beta in Ht.
      destruct (Validator.isLength 1 50 (trim t)); [reflexivity|discriminate].
  - intros (H1 & H2 & H3 & H4). rewrite H1, H2, (isDuration_plain dur H2).
    assert (Hm : match md with
                 | Some m => if Validator.isIn Validator.moods m then []
                             else ["Invalid mood value"%string]
                 | None => []
                 end = []).
    { destruct md as [m|]; [|reflexivity]. rewrite (H3 m eq_refl). reflexivity. }
    rewrite Hm. cbn [app].
    destruct tg as [ts|]; [|reflexivity]. cbn [option_map].
    apply flat_map_nil. intros x Hx.
    apply in_map_iff in Hx as (t & <- & Ht).
    rewrite (H4 ts t eq_refl Ht). reflexivity.
Qed.

Lemma isDuration_iff q :
  Validator.isDuration q = true <-> (1 <= q /\ q <= 60)%Q.
Proof.
  unfold Validator.isDuration. rewrite andb_true_iff, !Qle_bool_iff.
  reflexivity.
Qed.

Lemma validate_nil e :
  validate e = [] ->
  content e <> [] /\ (List.length (content e) <= 2000)%nat
  /\ Qle_bool (writingDuration e) (60 # 1) = true
  /\ Validator.isIn Validator.moods (mood e) = true
  /\ forallb (fun tag => (List.length tag <=? 50)%nat) (tags e) = true.
Proof.
  unfold validate. intros H.
  apply app_eq_nil in H as [H1 H]. apply app_eq_nil in H as [H2 H].
  apply app_eq_nil in H as [H3 H]. apply app_eq_nil in H as [_ H].
  apply app_eq_nil in H as [H5 H6].
  split; [|split; [|split; [|split]]].
  - destruct (content e); [discriminate|discriminate].
  - destruct (List.length (content e) <=? 2000)%nat eqn:Hl; [|discriminate].
    apply Nat.leb_le. exact Hl.
  - destruct (Qle_bool _ _); [reflexivity|discriminate].
  - destruct (Validator.isIn _ _); [reflexivity|discriminate].
  - destruct (forallb _ _); [reflexivity|discriminate].
Qed.

Lemma validate_duration e q :
  validate e = [] -> Qle_bool q (60 # 1) = true ->
  validate (withEntryDuration e q) = [].
Proof.
  unfold validate. destruct e. simpl. intros H Hq.
  apply app_eq_nil in H as [H1 H]. apply app_eq_nil in H as [H2 H].
  apply app_eq_nil in H as [_ H].
  rewrite H1, H2, Hq, H. reflexivity.
Qed.

Lemma preSave_duration d q :
  fresh d ->
  doc (preSave (mkDocument (withEntryDuration (doc d) q) true true true))
  = withEntryDuration (doc (preSave d)) q.
Proof.
  intros (Hn & Hc & He). destruct d as [[] ? ? ?].
  cbn [isNew modifiedContent modifiedEntryDate] in *. subst.
  entry_fields. reflexivity.
Qed.

Lemma insertOne_duration c e q :
  insertOne c (withEntryDuration e q)
  = match insertOne c e with
    | inl err => inl err
    | inr _ => inr (c ++ [withEntryDuration e q])
    end.
Proof.
  unfold insertOne. destruct e; simpl.
  destruct (existsb _ c || existsb _ c); reflexivity.
Qed.

Lemma save_duration c d c' e q :
  fresh d -> Qle_bool q (60 # 1) = true ->
  save c d = inr (c', e) ->
  save c (mkDocument (withEntryDuration (doc d) q) true true true)
  = inr (c ++ [withEntryDuration e q], withEntryDuration e q).
Proof.
  intros Hf Hq. unfold save.
  rewrite (preSave_duration d q Hf), insertOne_duration.
  change (doc (mkDocument (withEntryDuration (doc d) q) true true true))
    with (withEntryDuration (doc d) q).
  destruct (validate (doc d)) eqn:Hv; [|discriminate].
  rewrite (validate_duration _ _ Hv Hq).
  destruct (insertOne c (doc (preSave d))); [discriminate|].
  intros H; injection H as <- <-. reflexivity.
Qed.

Lemma prepare_duration c env req d q :
  prepare c env req = inr d ->
  Validator.isDuration q = true ->
  prepare c env (withDuration req q)
  = inr (mkDocument (withEntryDuration (doc d) q) true true true).
Proof.
  intros Hp Hq. revert Hp. unfold prepare.
  destruct (Validator.createEntryValidation (req_body req)) eqn:Hval;
    [|discriminate].
  assert (Hval' : Validator.createEntryValidation
                    (req_body (withDuration req q)) = []).
  { apply validation_passes. apply validation_passes in Hval.
    destruct Hval as (H1 & _ & H3 & H4). repeat split; assumption. }
  rewrite Hval'. unfold withDuration.
  cbn [req_userId req_body req_ip req_userAgent req_timezone
       Validator.sanitized Validator.content Validator.writingDuration
       Validator.mood Validator.tags].
  destruct (trim _); [discriminate|].
  destruct (negb _); [discriminate|].
  apply andb_prop in Hq as [_ Hq]. rewrite Hq. cbn [negb].
  destruct (findOneByDay c _ _); [discriminate|].
  intros H; injection H as <-. entry_fields. reflexivity.
Qed.

End LedgerValidation.

Section ValidationClaim.

Import JournalEntry JournalController.

Lemma isIn_In values s : Validator.isIn values s = true -> In s values.
Proof.
  unfold Validator.isIn. intros H. apply existsb_exists in H as (x & Hx & He).
  apply str_eqb_eq in He. subst. exact Hx.
Qed.

Lemma isLength_bounds lo hi s :
  Validator.isLength lo hi s = true ->
  (lo <= Validator.vLength s <= hi)%nat.
Proof.
  unfold Validator.isLength. intros H. apply andb_prop in H as [H1 H2].
  apply Nat.leb_le in H1. apply Nat.leb_le in H2. lia.
Qed.

(** The document [createEntry] builds from an accepted request. *)
Lemma prepare_document c env req d :
  prepare c env req = inr d ->
  chainsPass (req_body req)
  /\ content (doc d)
     = trim (sanitizeInput (trim (Validator.content (req_body req))))
  /\ writingDuration (doc d) = Validator.writingDuration (req_body req)
  /\ mood (doc d) = orElse (Validator.mood (req_body req)) (lit "neutral")
  /\ timezone (metadata (doc d)) = orElse (req_timezone req) (lit "UTC").
Proof.
  unfold prepare.
  destruct (Validator.createEntryValidation _) eqn:Hval; [|discriminate].
  apply validation_passes in Hval.
  destruct (trim (sanitizeInput _)) eqn:Ht; [discriminate|].
  destruct (negb _); [discriminate|].
  destruct (findOneByDay c _ _); [discriminate|].
  intros H; injection H as <-. split; [exact Hval|].
  split; [exact Ht|]. repeat split.
Qed.

(** C6.  What [createEntry] asks of a request it accepts: content that
    is not empty once trimmed and of length at most 2000, a writing
    duration of at least 1 and at most 60, a mood among the five values
    when one is given, tags of length at most 50.  A duration outside
    [1, 60], such as 61, is answered with the validation failure, every
    duration in [1, 60] is accepted in an accepted request's place, and a
    second create on the day of a stored entry is answered with the
    conflict, the ledger staying as it is. *)
Theorem C6_createEntry_validation :
  (forall c env req c' e,
      createEntry c env req = (c', Created e) ->
      trim (Validator.content (req_body req)) <> []
      /\ (Validator.vLength (trim (Validator.content (req_body req)))
          <= 2000)%nat
      /\ content e <> [] /\ (List.length (content e) <= 2000)%nat
      /\ (1 <= Validator.writingDuration (req_body req)
          /\ Validator.writingDuration (req_body req) <= 60)%Q
      /\ writingDuration e = Validator.writingDuration (req_body req)
      /\ (forall m, Validator.mood (req_body req) = Some m ->
                    In m Validator.moods)
      /\ In (mood e) Validator.moods
      /\ (forall ts t, Validator.tags (req_body req) = Some ts -> In t ts ->
                       (Validator.vLength (trim t) <= 50)%nat)
      /\ Forall (fun t => (List.length t <= 50)%nat) (tags e))
  /\ (forall c env req,
         ~ (1 <= Validator.writingDuration (req_body req)
            /\ Validator.writingDuration (req_body req) <= 60)%Q ->
         exists details,
           createEntry c env req = (c, ValidationFailed details)
           /\ In "Writing duration must be between 1 and 60 seconds"%string
                 details)
  /\ (forall c env req e0 q,
         snd (createEntry c env req) = Created e0 ->
         (1 <= q /\ q <= 60)%Q ->
         exists e,
           createEntry c env (withDuration req q) = (c ++ [e], Created e)
           /\ writingDuration e = q)
  /\ (forall c env1 req1 c1 e1 env2 req2 e0,
         createEntry c env1 req1 = (c1, Created e1) ->
         req_userId req2 = req_userId req1 ->
         toISODate (tCheck env2) = toISODate (tNew env1) ->
         snd (createEntry [] env2 req2) = Created e0 ->
         createEntry c1 env2 req2 = (c1, entryExists)).
Proof.
  split; [|split; [|split]].
  - intros c env req c' e H.
    apply createEntry_created in H as (d & Hp & Hs).
    pose proof (prepare_fresh _ _ _ _ Hp) as Hf.
    destruct (prepare_document _ _ _ _ Hp)
      as ((H1 & H2 & H3 & H4) & Hct & Hdur & Hmood & _).
    apply save_inserted in Hs as (Hv & -> & _ & _).
    apply validate_nil in Hv as (V1 & V2 & _ & V4 & V5).
    rewrite (preSave_fresh _ Hf). cbn [content writingDuration mood tags].
    apply isLength_bounds in H1.
    split; [|split; [|split; [|split; [|split; [|split; [|split;
      [|split; [|split]]]]]]]]; auto.
    + intros Hnil. rewrite Hnil in H1. unfold Validator.vLength in H1.
      simpl in H1. lia.
    + lia.
    + apply isDuration_iff. exact H2.
    + intros m Hm. apply isIn_In. eapply H3; eauto.
    + apply isIn_In. exact V4.
    + intros ts t Hts Hin. apply (isLength_bounds 1 50). eapply H4; eauto.
    + apply Forall_forall. intros t Ht.
      apply (proj1 (forallb_forall _ _) V5) in Ht.
      apply Nat.leb_le. exact Ht.
  - intros c env req Hq.
    assert (Hd : Validator.isDuration
                   (Validator.writingDuration (req_body req)) = false).
    { destruct (Validator.isDuration _) eqn:E; [|reflexivity].
      apply isDuration_iff in E. contradiction. }
    unfold createEntry, prepare, Validator.createEntryValidation,
      Validator.chainErrors.
    change (Validator.writingDuration (Validator.sanitized (req_body req)))
      with (Validator.writingDuration (req_body req)).
    rewrite Hd.
    match goal with
    | |- context [?a ++ ?n ++ [?m] ++ ?b] =>
        assert (Hin : In m (a ++ n ++ [m] ++ b))
          by (apply in_or_app; right; apply in_or_app; right; left;
              reflexivity);
        destruct (a ++ n ++ [m] ++ b) as [|x l] eqn:E
    end.
    + destruct Hin.
    + exists (x :: l). split; [reflexivity|exact Hin].
  - intros c env req e0 q H Hq.
    destruct (createEntry c env req) as [c0 r0] eqn:Hc. simpl in H. subst r0.
    apply createEntry_created in Hc as (d & Hp & Hs).
    pose proof (prepare_fresh _ _ _ _ Hp) as Hf.
    apply isDuration_iff in Hq.
    exists (withEntryDuration e0 q). split; [|reflexivity].
    unfold createEntry. rewrite (prepare_duration _ _ _ _ q Hp Hq).
    unfold commit. apply andb_prop in Hq as [_ Hq].
    rewrite (save_duration _ _ _ _ q Hf Hq Hs). reflexivity.
  - intros c env1 req1 c1 e1 env2 req2 e0 H1 Hu Hday H2.
    destruct (createEntry_stored _ _ _ _ _ H1) as (-> & Hu1 & _ & Hd1).
    apply (createEntry_conflict _ env2 req2 e0 e1 H2).
    + apply in_or_app. right. left. reflexivity.
    + congruence.
    + left. congruence.
Qed.

(** C6 as stated fails at half a second: a duration in (0, 60] that the
    chain [isFloat({ min: 1, max: 60 })] refuses, in a request that is
    accepted with 45 seconds. *)
Lemma C6_half_second_is_rejected :
  (0 < 1 # 2)%Q /\ (1 # 2 <= 60)%Q
  /\ createEntry [] sampleEnv (sampleRequest (1 # 2))
     = ([], ValidationFailed
              ["Writing duration must be between 1 and 60 seconds"%string])
  /\ status (snd (createEntry [] sampleEnv (sampleRequest (45 # 1)))) = 201.
Proof.
  split; [reflexivity|]. split; [discriminate|].
  split; vm_compute; reflexivity.
Qed.

(** C6 on the sample requests: 61 seconds and the second create of the
    day. *)
Lemma C6_sample_witness :
  (exists details,
      createEntry [] sampleEnv (sampleRequest (61 # 1))
      = ([], ValidationFailed details))
  /\ exists c1 e1,
      createEntry [] sampleEnv (sampleRequest (45 # 1)) = (c1, Created e1)
      /\ createEntry c1 sampleEnvLater (sampleRequest (45 # 1))
         = (c1, entryExists).
Proof.
  destruct C6_createEntry_validation as (_ & Hrej & _ & Hdup).
  split.
  - destruct (Hrej [] sampleEnv (sampleRequest (61 # 1))) as (details & H & _).
    + intros [_ H]. apply H. reflexivity.
    + exists details. exact H.
  - assert (H1 : exists e1, createEntry [] sampleEnv (sampleRequest (45 # 1))
                            = ([e1], Created e1))
      by (eexists; vm_compute; reflexivity).
    assert (H2 : exists e0,
               snd (createEntry [] sampleEnvLater (sampleRequest (45 # 1)))
               = Created e0)
      by (eexists; vm_compute; reflexivity).
    destruct H1 as [e1 H1]. destruct H2 as [e0 H2].
    exists [e1], e1. split; [exact H1|].
    apply (Hdup [] sampleEnv (sampleRequest (45 # 1)) [e1] e1
             sampleEnvLater (sampleRequest (45 # 1)) e0 H1).
    + reflexivity.
    + vm_compute. reflexivity.
    + exact H2.
Defined.

End ValidationClaim.

Section LookupClaim.

Import JournalEntry JournalController.

Lemma findOneById_some c id uid e :
  findOneById c id uid = Some e -> In e c /\ _id e = id /\ userId e = uid.
Proof.
  unfold findOneById. intros H. apply find_some in H as [Hin Hb].
  apply andb_prop in Hb as [H1 H2].
  apply N.eqb_eq in H1. apply N.eqb_eq in H2. auto.
Qed.

Lemma findOneById_none c id uid :
  (forall e, In e c -> _id e = id -> userId e <> uid) ->
  findOneById c id uid = None.
Proof.
  intros H. unfold findOneById.
  destruct (find _ c) as [e|] eqn:Hf; [|reflexivity].
  apply find_some in Hf as [Hin Hb]. apply andb_prop in Hb as [H1 H2].
  apply N.eqb_eq in H1. apply N.eqb_eq in H2.
  exfalso. exact (H e Hin H1 H2).
Qed.

(** C9.  [getEntry] returns an entry only to the identity that owns it,
    and then the entry of the id asked for; it never answers 403; an id
    under which the asking identity owns no entry, because no entry has
    it or because its entry belongs to another identity, is answered
    with the same 404 'Entry not found', so the two cases give equal
    responses. *)
Theorem C9_lookup_is_scoped_to_owner :
  (forall c uid p e,
      getEntry c uid p = Found e ->
      In e c /\ userId e = uid /\ p = Oid (_id e))
  /\ (forall c uid p, status (getEntry c uid p) <> 403)
  /\ (forall c uid id,
         (forall e, In e c -> _id e = id -> userId e <> uid) ->
         getEntry c uid (Oid id)
         = Json 404 "Entry not found"
                "The requested journal entry was not found")
  /\ (forall c1 c2 uid id other,
         (forall e, In e c1 -> _id e <> id) ->
         In other c2 -> _id other = id ->
         (forall e, In e c2 -> _id e = id -> userId e <> uid) ->
         getEntry c2 uid (Oid id) = getEntry c1 uid (Oid id)).
Proof.
  split; [|split; [|split]].
  - intros c uid p e. unfold getEntry. destruct p as [raw|id]; [discriminate|].
    destruct (findOneById c id uid) as [e'|] eqn:Hf; [|discriminate].
    intros H; injection H as ->.
    apply findOneById_some in Hf as (Hin & Hid & Hu). subst. auto.
  - intros c uid p. unfold getEntry. destruct p as [raw|id]; [discriminate|].
    destruct (findOneById c id uid); discriminate.
  - intros c uid id H. unfold getEntry.
    rewrite (findOneById_none _ _ _ H). reflexivity.
  - intros c1 c2 uid id other H1 _ _ H2. unfold getEntry.
    rewrite (findOneById_none c2 _ _ H2).
    rewrite (findOneById_none c1 id uid); [reflexivity|].
    intros e Hin Hid. exfalso. exact (H1 e Hin Hid).
Qed.

(** C9 on the sample ledger, where entry 7 belongs to identity 1:
    identity 2 gets the 404 it gets on an empty ledger. *)
Lemma C9_sample_witness :
  getEntry sampleLedger 2%N (Oid 7%N)
  = Json 404 "Entry not found" "The requested journal entry was not found"
  /\ getEntry sampleLedger 2%N (Oid 7%N) = getEntry [] 2%N (Oid 7%N)
  /\ status (getEntry sampleLedger 1%N (Oid 7%N)) = 200.
Proof.
  destruct C9_lookup_is_scoped_to_owner as (_ & _ & H404 & Hsame).
  assert (Hs : exists e, sampleLedger = [e] /\ _id e = 7%N /\ userId e = 1%N)
    by (eexists; vm_compute; repeat split).
  destruct Hs as (e & Hl & Hid & Hu).
  assert (Hother : forall x, In x sampleLedger -> _id x = 7%N -> userId x <> 2%N).
  { rewrite Hl. intros x [<-|[]] _. rewrite Hu. discriminate. }
  split; [apply H404; exact Hother|]. split.
  - apply (Hsame [] sampleLedger 2%N 7%N e).
    + intros x [].
    + rewrite Hl. left. reflexivity.
    + exact Hid.
    + exact Hother.
  - vm_compute. reflexivity.
Defined.

End LookupClaim.

Section CountsClaim.

Import JournalEntry JournalController.

(** C10.  The pre-save hook sets [characterCount] to the length of the
    content and [wordCount] to the number of whitespace-separated tokens
    of the trimmed content whenever the content was set; so the two
    agree with the content on every entry the server stores, in every
    world it reaches, and on the entry [createEntry] answers with, whose
    stored content is trimmed already. *)
Theorem C10_counts_follow_content :
  (forall d, modifiedContent d = true -> countsAgree (doc (preSave d)))
  /\ (forall w, reachable w -> Forall countsAgree (entries w))
  /\ (forall c env req c' e,
         createEntry c env req = (c', Created e) ->
         characterCount e = List.length (content e)
         /\ trim (content e) = content e
         /\ wordCount e = List.length (tokens (content e))
         /\ (content e = [] -> wordCount e = 0%nat)).
Proof.
  split; [|split].
  - intros d H. unfold preSave. rewrite H.
    destruct (modifiedEntryDate d || isNew d); cbn [doc content wordCount
      characterCount]; split;
      solve [reflexivity | apply countWords_tokens].
  - intros w Hr. apply (reachable_invariant w Hr).
  - intros c env req c' e H.
    apply createEntry_created in H as (d & Hp & Hs).
    pose proof (prepare_fresh _ _ _ _ Hp) as Hf.
    destruct (prepare_document _ _ _ _ Hp) as (_ & Hct & _).
    apply save_inserted in Hs as (_ & -> & _ & _).
    rewrite (preSave_fresh _ Hf). cbn [content wordCount characterCount].
    assert (Ht : trim (content (doc d)) = content (doc d))
      by (rewrite Hct; apply trim_idempotent).
    split; [reflexivity|]. split; [exact Ht|]. split.
    + rewrite countWords_tokens, Ht. reflexivity.
    + intros Hnil. rewrite countWords_tokens, Ht, Hnil. reflexivity.
Qed.

(** C10 on the sample request: 25 units, 5 words. *)
Lemma C10_sample_witness :
  exists c' e,
    createEntry [] sampleEnv (sampleRequest (45 # 1)) = (c', Created e)
    /\ content e = lit "Walked to the old harbour"
    /\ characterCount e = 25%nat /\ wordCount e = 5%nat.
Proof.
  assert (H : exists e, createEntry [] sampleEnv (sampleRequest (45 # 1))
                        = ([e], Created e)
                        /\ content e = lit "Walked to the old harbour")
    by (eexists; vm_compute; split; reflexivity).
  destruct H as (e & H & Hct). exists [e], e.
  destruct (proj2 (proj2 C10_counts_follow_content) _ _ _ _ _ H)
    as (Hch & _ & Hw & _).
  split; [exact H|]. split; [exact Hct|].
  rewrite Hch, Hw, Hct. split; vm_compute; reflexivity.
Defined.

End CountsClaim.

Section Streak.

Import JournalEntry JournalController.

Variables (c : Collection) (uid : ObjectId) (z : Zone) (now : Z).

Hypothesis Hz : stepsOneDay z.

Lemma walkAt_next k : setDatePrev z (walkAt z now k) = walkAt z now (S k).
Proof. reflexivity. Qed.

Lemma walkAt_zero : walkAt z now 0 = now.
Proof. reflexivity. Qed.

(** Each step of the walk is one local calendar day back. *)
Lemma toDateString_walkAt k :
  toDateString z (walkAt z now k) = toDateString z now - Z.of_nat k.
Proof.
  induction k as [|k IH]; [cbn; lia|].
  cbn [walkAt]. rewrite Hz, IH. lia.
Qed.

(** Only the day of the request is today. *)
Lemma isToday_walkAt k : isToday z now (walkAt z now k) = (k =? 0)%nat.
Proof.
  unfold isToday. rewrite toDateString_walkAt.
  destruct k; simpl Nat.eqb.
  - apply Z.eqb_eq. cbn. lia.
  - apply Z.eqb_neq. lia.
Qed.

Lemma hasEntryOn_true k :
  hasEntryOn c uid z now k = true ->
  exists e, findOneByDay c uid (formatDateString (walkAt z now k)) = Some e.
Proof.
  unfold hasEntryOn, keyAt. destruct (findOneByDay _ _ _) as [e|];
    [eauto|discriminate].
Qed.

Lemma hasEntryOn_false k :
  hasEntryOn c uid z now k = false ->
  findOneByDay c uid (formatDateString (walkAt z now k)) = None.
Proof.
  unfold hasEntryOn, keyAt. destruct (findOneByDay _ _ _);
    [discriminate|reflexivity].
Qed.

Lemma keys_cons k n :
  List.map (keyAt z now) (seq k (S n))
  = formatDateString (walkAt z now k) :: List.map (keyAt z now) (seq (S k) n).
Proof. reflexivity. Qed.

Lemma streakLoop_step fuel checkDate s :
  streakLoop (S fuel) c uid z now checkDate s
  = match findOneByDay c uid (formatDateString checkDate) with
    | None =>
        if isToday z now checkDate
        then match streakLoop fuel c uid z now (setDatePrev z checkDate) s with
             | Some (n, keys) => Some (n, formatDateString checkDate :: keys)
             | None => None
             end
        else Some (s, [formatDateString checkDate])
    | Some _ =>
        if 365 <=? s + 1
        then Some (s + 1, [formatDateString checkDate])
        else match streakLoop fuel c uid z now (setDatePrev z checkDate)
                     (s + 1) with
             | Some (n, keys) => Some (n, formatDateString checkDate :: keys)
             | None => None
             end
    end.
Proof. reflexivity. Qed.

(** The loop over a run of [n] days with an entry that ends at a day
    without one, below the cap. *)
Lemma streakLoop_run n :
  forall fuel k s,
    (n < fuel)%nat ->
    (forall i, (i < n)%nat -> hasEntryOn c uid z now (k + i) = true) ->
    hasEntryOn c uid z now (k + n) = false ->
    (0 < k + n)%nat ->
    s + Z.of_nat n < 365 ->
    streakLoop fuel c uid z now (walkAt z now k) s
    = Some (s + Z.of_nat n, List.map (keyAt z now) (seq k (S n))).
Proof.
  induction n as [|n IH]; intros fuel k s Hfuel Hrun Hgap Hpos Hcap;
    (destruct fuel as [|fuel]; [lia|]); rewrite streakLoop_step, keys_cons.
  - rewrite Nat.add_0_r in Hgap. rewrite (hasEntryOn_false _ Hgap).
    rewrite isToday_walkAt. destruct k; [lia|].
    change (S k =? 0)%nat with false. cbv iota.
    replace (s + Z.of_nat 0) with s by lia. reflexivity.
  - destruct (hasEntryOn_true k) as [e He].
    { rewrite <- (Nat.add_0_r k). apply Hrun. lia. }
    rewrite He.
    assert (Hc : (365 <=? s + 1) = false) by (apply Z.leb_gt; lia).
    rewrite Hc, walkAt_next.
    rewrite (IH fuel (S k) (s + 1)); try lia.
    + replace (s + 1 + Z.of_nat n) with (s + Z.of_nat (S n)) by lia.
      reflexivity.
    + intros i Hi. replace (S k + i)%nat with (k + S i)%nat by lia.
      apply Hrun. lia.
    + replace (S k + n)%nat with (k + S n)%nat by lia. exact Hgap.
Qed.

(** The loop over a run of days with an entry that reaches the cap. *)
Lemma streakLoop_cap n :
  forall fuel k s,
    (n < fuel)%nat ->
    (forall i, (i <= n)%nat -> hasEntryOn c uid z now (k + i) = true) ->
    s + Z.of_nat n = 364 ->
    streakLoop fuel c uid z now (walkAt z now k) s
    = Some (365, List.map (keyAt z now) (seq k (S n))).
Proof.
  induction n as [|n IH]; intros fuel k s Hfuel Hrun Hcap;
    (destruct fuel as [|fuel]; [lia|]); rewrite streakLoop_step, keys_cons;
    (destruct (hasEntryOn_true k) as [e He];
     [rewrite <- (Nat.add_0_r k); apply Hrun; lia|]); rewrite He.
  - assert (Hc : (365 <=? s + 1) = true) by (apply Z.leb_le; lia).
    rewrite Hc. replace (s + 1) with 365 by lia. reflexivity.
  - assert (Hc : (365 <=? s + 1) = false) by (apply Z.leb_gt; lia).
    rewrite Hc, walkAt_next.
    rewrite (IH fuel (S k) (s + 1)); try lia.
    + reflexivity.
    + intros i Hi. replace (S k + i)%nat with (k + S i)%nat by lia.
      apply Hrun. lia.
Qed.

Lemma runLength_le has k bound : (runLength has k bound <= bound)%nat.
Proof.
  revert k; induction bound as [|b IH]; intros k; simpl; [lia|].
  destruct (has k); [specialize (IH (S k)); lia|lia].
Qed.

Lemma runLength_run has k bound i :
  (i < runLength has k bound)%nat -> has (k + i)%nat = true.
Proof.
  revert k i; induction bound as [|b IH]; intros k i; simpl; [lia|].
  destruct (has k) eqn:Hk; [|lia].
  destruct i as [|i]; intros Hi.
  - rewrite Nat.add_0_r. exact Hk.
  - replace (k + S i)%nat with (S k + i)%nat by lia. apply IH. lia.
Qed.

Lemma runLength_gap has k bound :
  (runLength has k bound < bound)%nat ->
  has (k + runLength has k bound)%nat = false.
Proof.
  revert k; induction bound as [|b IH]; intros k; simpl; [lia|].
  destruct (has k) eqn:Hk; intros H.
  - replace (k + S (runLength has (S k) b))%nat
      with (S k + runLength has (S k) b)%nat by lia.
    apply IH. lia.
  - rewrite Nat.add_0_r. exact Hk.
Qed.

(** The loop started at day [k] with nothing counted, when day [k] is
    not the day of the request or has an entry. *)
Lemma streakLoop_from k fuel :
  (365 <= fuel)%nat ->
  (0 < k)%nat \/ hasEntryOn c uid z now k = true ->
  let r := runLength (hasEntryOn c uid z now) k 365 in
  streakLoop fuel c uid z now (walkAt z now k) 0
  = Some (Z.of_nat r, List.map (keyAt z now) (seq k (Nat.min (S r) 365))).
Proof.
  intros Hfuel Hk r.
  pose proof (runLength_le (hasEntryOn c uid z now) k 365) as Hle.
  fold r in Hle.
  destruct (Nat.eq_dec r 365) as [Hr|Hr].
  - rewrite Hr. replace (Nat.min 366 365) with (S 364) by reflexivity.
    apply streakLoop_cap; [lia| |reflexivity].
    intros i Hi. apply (runLength_run _ k 365). fold r. lia.
  - replace (Nat.min (S r) 365) with (S r) by lia.
    apply (streakLoop_run r fuel k 0); try lia.
    + intros i Hi. apply (runLength_run _ k 365). exact Hi.
    + apply runLength_gap. fold r. lia.
    + destruct Hk as [Hk|Hk]; [lia|].
      destruct r as [|r'] eqn:Er; [|lia].
      exfalso. unfold r in Er. simpl in Er. rewrite Hk in Er. discriminate.
Qed.

(** The loop of [getStats] in closed form, for any fuel that
    suffices. *)
Lemma streakLoop_closed fuel :
  (366 <= fuel)%nat ->
  let has := hasEntryOn c uid z now in
  let r := runLength has (firstCounted has) 365 in
  streakLoop fuel c uid z now now 0
  = Some (Z.of_nat r,
          List.map (keyAt z now)
            (seq 0 (firstCounted has + Nat.min (S r) 365))).
Proof.
  intros Hfuel has r.
  replace (streakLoop fuel c uid z now now 0)
    with (streakLoop fuel c uid z now (walkAt z now 0) 0)
    by (rewrite walkAt_zero; reflexivity).
  unfold firstCounted in *. fold has in r.
  destruct (has 0%nat) eqn:H0.
  - rewrite (streakLoop_from 0 fuel); [reflexivity|lia|right; exact H0].
  - destruct fuel as [|fuel]; [lia|]. rewrite streakLoop_step.
    rewrite (hasEntryOn_false _ H0), isToday_walkAt, walkAt_next.
    rewrite (streakLoop_from 1 fuel); [|lia|left; lia].
    change (1 + Nat.min (S r) 365)%nat with (S (Nat.min (S r) 365)).
    rewrite keys_cons. reflexivity.
Qed.

End Streak.

Section StreakClaim.

Import JournalEntry JournalController.

(** In a zone without transitions a step of the walk is 24 hours. *)
Lemma walkAt_fixed tz now k : walkAt (fixedZone tz) now k = dayAt now k.
Proof.
  induction k as [|k IH]; [unfold dayAt; cbn; lia|].
  cbn [walkAt]. rewrite IH.
  unfold setDatePrev, UTC, LocalTime, fixedZone, dayAt.
  cbn [utcOffset localOffset]. lia.
Qed.

Lemma fixedZone_stepsOneDay tz : stepsOneDay (fixedZone tz).
Proof.
  intros t. unfold toDateString, setDatePrev, UTC, LocalTime, fixedZone.
  cbn [utcOffset localOffset].
  replace (t + tz - msPerDay - tz + tz) with (t + tz + (- 1) * msPerDay)
    by lia.
  rewrite Z.div_add by (unfold msPerDay; lia). lia.
Qed.

(** The UTC days of instants 24 hours apart are consecutive. *)
Lemma dayAt_utcDay now k :
  dayAt now k / 86400000 = now / 86400000 - Z.of_nat k.
Proof.
  unfold dayAt, msPerDay.
  replace (now - Z.of_nat k * 86400000)
    with (now + (- Z.of_nat k) * 86400000) by lia.
  rewrite Z.div_add by lia. lia.
Qed.

(** The sample zone, with its two transitions, steps one local day at a
    time: the hour it skips is read back an hour later on the same
    day. *)
Lemma sampleZoneNewYork_stepsOneDay : stepsOneDay sampleZoneNewYork.
Proof.
  intros t.
  unfold toDateString, setDatePrev, UTC, LocalTime, sampleZoneNewYork,
    msPerDay.
  cbn [utcOffset localOffset].
  repeat match goal with
         | |- context [if ?b then _ else _] =>
             let E := fresh "E" in destruct b eqn:E
         end;
    repeat match goal with
           | H : _ && _ = true |- _ =>
               apply andb_prop in H; destruct H
           | H : _ && _ = false |- _ => apply andb_false_iff in H
           | H : (_ <=? _) = true |- _ => apply Z.leb_le in H
           | H : (_ <=? _) = false |- _ => apply Z.leb_gt in H
           | H : (_ <? _) = true |- _ => apply Z.ltb_lt in H
           | H : (_ <? _) = false |- _ => apply Z.ltb_ge in H
           end;
    Z.div_mod_to_equations; lia.
Qed.



(** C2 as stated fails on a server in a zone with daylight saving time:
    at 2026-11-02T00:30Z in the sample zone, the day after its clocks
    went back, the step from today is 25 hours, the keys looked up are
    those of 2 November, 31 October, 30 October and 29 October, and
    an identity with entries on the first three, and none on
    1 November, gets 3. *)
Lemma C2_walk_skips_a_day :
  currentStreak (ledgerOfDays [4; 3; 1]%nat) 1%N sampleZoneNewYork
    1793579400000
  = Some (3, [lit "2026-11-02"; lit "2026-10-31"; lit "2026-10-30";
              lit "2026-10-29"])
  /\ findOneByDay (ledgerOfDays [4; 3; 1]%nat) 1%N (lit "2026-11-01")
     = None.
Proof.
  split; vm_compute; reflexivity.
Qed.


End StreakClaim.


(* ================================================================== *)
(** ** Lockout *)
(* ================================================================== *)

Section Lockout.

Import User.

Lemma isLocked_iff u now :
  isLocked u now = true <-> exists l, lockUntil u = Some l /\ now < l.
Proof.
  unfold isLocked. destruct (lockUntil u) as [l|]; split.
  - intros H. exists l. split; [reflexivity|]. apply Z.ltb_lt. exact H.
  - intros (l' & E & H). injection E as ->. apply Z.ltb_lt. exact H.
  - discriminate.
  - intros (l' & E & _). discriminate.
Qed.

(** A failure on record below the threshold, with no lock set. *)
Lemma incLoginAttempts_below u now :
  lockUntil u = None -> loginAttempts u + 1 < 5 ->
  incLoginAttempts u now = setSecurity u (loginAttempts u + 1) None.
Proof.
  intros Hl Hn. unfold incLoginAttempts. rewrite Hl.
  assert (H : (5 <=? loginAttempts u + 1) = false) by (apply Z.leb_gt; lia).
  rewrite H. reflexivity.
Qed.

(** A failure that reaches the threshold while the identity is not
    locked and has no expired lock on record. *)
Lemma incLoginAttempts_locks u now :
  5 <= loginAttempts u + 1 ->
  (forall l, lockUntil u = Some l -> l = now) ->
  incLoginAttempts u now
  = setSecurity u (loginAttempts u + 1) (Some (now + lockTime)).
Proof.
  intros Hn Hl. unfold incLoginAttempts, isLocked.
  assert (H : (5 <=? loginAttempts u + 1) = true) by (apply Z.leb_le; lia).
  rewrite H.
  destruct (lockUntil u) as [l|]; [|reflexivity].
  rewrite (Hl l eq_refl), Z.ltb_irrefl. reflexivity.
Qed.

Lemma incLoginAttempts_restarts u l now :
  lockUntil u = Some l -> l < now ->
  incLoginAttempts u now = setSecurity u 1 None.
Proof.
  intros Hl Hlt. unfold incLoginAttempts. rewrite Hl.
  apply Z.ltb_lt in Hlt. rewrite Hlt. reflexivity.
Qed.

End Lockout.

Section LockoutLogin.

Import User AuthController.

(** What a successful [login] leaves on record. *)
Lemma login_success L cfg c now req c' u a r :
  login L cfg c now req = (c', LoggedIn u a r) ->
  c' = User.update c u /\ loginAttempts u = 0 /\ lockUntil u = None
  /\ lastLogin u = Some now
  /\ exists user,
      findOneByEmail c (toLowerCase L (sanitizeInput (req_email req)))
      = Some user
      /\ isLocked user now = false
      /\ comparePassword L user (req_password req) = true.
Proof.
  unfold login.
  destruct (validationErrors req); [|discriminate].
  destruct (findOneByEmail c _) as [user|] eqn:Hf; [|discriminate].
  destruct (isLocked user now) eqn:Hl; [discriminate|].
  destruct (comparePassword L user (req_password req)) eqn:Hp;
    [|discriminate].
  cbn [negb].
  destruct (checkMfa L user (req_mfaCode req) now) as [| |user'];
    try discriminate.
  unfold Tokens.generateTokenPair.
  intros H; injection H as <- <- _ _.
  repeat split. exists user. auto.
Qed.

(** A wrong password, for an identity that is not locked, goes on
    record. *)
Lemma login_wrong_password L cfg c now req user :
  validationErrors req = [] ->
  findOneByEmail c (toLowerCase L (sanitizeInput (req_email req)))
  = Some user ->
  isLocked user now = false ->
  comparePassword L user (req_password req) = false ->
  login L cfg c now req
  = (User.update c (incLoginAttempts user now),
     Json 401 "Login failed" "Invalid email or password").
Proof.
  intros Hv Hf Hl Hp. unfold login. rewrite Hv, Hf, Hl, Hp. reflexivity.
Qed.

End LockoutLogin.

(* ================================================================== *)
(** ** Account statistics *)
(* ================================================================== *)

Section Consistency.

Import JournalEntry UserController.

Lemma firstEntry_none c uid x :
  firstEntry c uid = None -> In x c -> userId x <> uid.
Proof.
  induction c as [|a c IH]; simpl; [intros _ []|].
  destruct (userId a =? uid)%N eqn:Ha.
  - destruct (firstEntry c uid) as [e'|];
      [destruct (entryDate e' <? entryDate a)|]; discriminate.
  - intros Hf [<-|Hx]; [apply N.eqb_neq; exact Ha|auto].
Qed.

(** [firstEntry] is an entry of the identity with the least
    [entryDate]. *)
Lemma firstEntry_least c uid e :
  firstEntry c uid = Some e ->
  In e c /\ userId e = uid
  /\ forall x, In x c -> userId x = uid -> entryDate e <= entryDate x.
Proof.
  revert e. induction c as [|a c IH]; intros e; simpl; [discriminate|].
  destruct (userId a =? uid)%N eqn:Ha.
  - apply N.eqb_eq in Ha.
    destruct (firstEntry c uid) as [e'|] eqn:Hf.
    + destruct (IH e' eq_refl) as (Hin & Hu & Hmin).
      destruct (entryDate e' <? entryDate a) eqn:Hlt;
        intros H; injection H as <-.
      * apply Z.ltb_lt in Hlt. repeat split; auto.
        intros x [<-|Hx] Hxu; [lia|auto].
      * apply Z.ltb_ge in Hlt. repeat split; auto.
        intros x [<-|Hx] Hxu; [lia|]. specialize (Hmin x Hx Hxu). lia.
    + intros H; injection H as <-. repeat split; auto.
      intros x [<-|Hx] Hxu; [lia|].
      exfalso. exact (firstEntry_none c uid x Hf Hx Hxu).
  - intros H. destruct (IH e H) as (Hin & Hu & Hmin). repeat split; auto.
    intros x [<-|Hx] Hxu; [|auto].
    apply N.eqb_neq in Ha. contradiction.
Qed.

Lemma consistencyRateOf_capped total days r :
  consistencyRateOf total days = Some r -> r <= 100.
Proof.
  unfold consistencyRateOf.
  destruct (0 <? days); [destruct (percentage total days)|];
    simpl; try discriminate; intros H; injection H as <-; lia.
Qed.

(** Within a hundred entries and a hundred days, the binary64 value that
    [Math.round] receives rounds to an integer nearest to the exact
    percentage. *)
Lemma percentage_nearest total days :
  (total <= 100)%nat -> (days <= 100)%nat ->
  exists r,
    percentage (Z.of_nat total) (Z.of_nat days) = Some r
    /\ Z.abs (200 * Z.of_nat total - 2 * r * (Z.of_nat days + 1))
       <= Z.of_nat days + 1.
Proof.
  intros Ht Hd.
  assert (Hall :
    forallb (fun d => forallb (fun t =>
       match percentage (Z.of_nat t) (Z.of_nat d) with
       | Some r =>
           Z.abs (200 * Z.of_nat t - 2 * r * (Z.of_nat d + 1))
           <=? Z.of_nat d + 1
       | None => false
       end) (seq 0 101)) (seq 0 101) = true)
    by (vm_compute; reflexivity).
  assert (Hd' : In days (seq 0 101)) by (apply in_seq; lia).
  assert (Ht' : In total (seq 0 101)) by (apply in_seq; lia).
  pose proof (proj1 (forallb_forall _ _) Hall days Hd') as H1.
  pose proof (proj1 (forallb_forall _ _) H1 total Ht') as H2.
  cbv beta in H2.
  destruct (percentage (Z.of_nat total) (Z.of_nat days)) as [r|];
    [|discriminate].
  exists r. split; [reflexivity|]. apply Z.leb_le. exact H2.
Qed.

(** C7.  The consistency rate of [getAccountStats]: zero while the first
    entry of the identity is less than a whole day old (and when it has
    none), and from then on the percentage of total entries over days
    since the first entry plus one, as [Math.round] yields it, capped at
    100; within a hundred entries and days that percentage is an integer
    nearest to the exact quotient. *)
Theorem C7_consistency_rate :
  (forall c uid now,
      let st := getAccountStats c uid now in
      totalEntries st = Z.of_nat (countDocuments c uid)
      /\ (forall e, firstEntry c uid = Some e ->
            In e c /\ userId e = uid
            /\ (forall x, In x c -> userId x = uid ->
                          entryDate e <= entryDate x)
            /\ daysSinceFirstEntry st = (now - entryDate e) / msPerDay)
      /\ (0 < daysSinceFirstEntry st ->
          consistencyRate st
          = option_map (Z.min 100)
              (percentage (totalEntries st) (daysSinceFirstEntry st)))
      /\ (daysSinceFirstEntry st <= 0 -> consistencyRate st = Some 0)
      /\ (forall e, firstEntry c uid = Some e ->
            now - entryDate e < msPerDay -> consistencyRate st = Some 0)
      /\ (forall r, consistencyRate st = Some r -> r <= 100))
  /\ (forall total days,
         (total <= 100)%nat -> (days <= 100)%nat ->
         exists r,
           percentage (Z.of_nat total) (Z.of_nat days) = Some r
           /\ Z.abs (200 * Z.of_nat total - 2 * r * (Z.of_nat days + 1))
              <= Z.of_nat days + 1).
Proof.
  split; [|exact percentage_nearest].
  intros c uid now st. unfold st, getAccountStats.
  cbn [totalEntries daysSinceFirstEntry consistencyRate].
  split; [reflexivity|]. split; [|split; [|split; [|split]]].
  - intros e He. rewrite He.
    destruct (firstEntry_least _ _ _ He) as (H1 & H2 & H3).
    repeat split; auto.
  - intros Hd. unfold consistencyRateOf.
    apply Z.ltb_lt in Hd. rewrite Hd. reflexivity.
  - intros Hd. unfold consistencyRateOf.
    assert (H : (0 <? match firstEntry c uid with
                      | Some e => daysSince now (entryDate e)
                      | None => 0
                      end) = false) by (apply Z.ltb_ge; exact Hd).
    rewrite H. reflexivity.
  - intros e He Hlt. rewrite He. unfold consistencyRateOf, daysSince.
    assert (H : (0 <? (now - entryDate e) / msPerDay) = false).
    { apply Z.ltb_ge.
      assert ((now - entryDate e) / msPerDay < 1); [|lia].
      apply Z.div_lt_upper_bound; unfold msPerDay in *; lia. }
    rewrite H. reflexivity.
  - intros r. apply consistencyRateOf_capped.
Qed.

(** C7 as stated fails on its own example: forty minutes after the first
    and only entry of identity 1, the rate is 0, not 100. *)
Lemma C7_first_day_rate_is_zero :
  countDocuments sampleLedger 1%N = 1%nat
  /\ List.map entryDate sampleLedger = [1793698200250]
  /\ getAccountStats sampleLedger 1%N 1793700600000
     = mkJournaling 1 0 (Some 0)
  /\ consistencyRate (getAccountStats sampleLedger 1%N 1793700600000)
     <> Some 100.
Proof.
  repeat split; try (vm_compute; reflexivity).
  vm_compute. discriminate.
Qed.

(** C7 on the sample ledger two days on, and on a rate that the cap
    cuts. *)
Lemma C7_sample_witness :
  consistencyRate (getAccountStats sampleLedger 1%N 1793871600000)
  = Some 33
  /\ consistencyRate (getAccountStats sampleLedger 1%N 1793700600000)
     = Some 0
  /\ consistencyRateOf 3 1 = Some 100.
Proof.
  destruct (proj1 C7_consistency_rate sampleLedger 1%N 1793871600000)
    as (_ & _ & Hpos & _).
  destruct (proj1 C7_consistency_rate sampleLedger 1%N 1793700600000)
    as (_ & _ & _ & Hzero & _).
  split; [|split].
  - cbv zeta in Hpos. rewrite Hpos; vm_compute; reflexivity.
  - apply Hzero. vm_compute. discriminate.
  - vm_compute. reflexivity.
Defined.

End Consistency.

(* ================================================================== *)
(** ** Credentials *)
(* ================================================================== *)

Section Credentials.

Import User AuthController.

Lemma insertOne_user c u c' :
  User.insertOne c u = inr c' -> c' = c ++ [u].
Proof.
  unfold User.insertOne. destruct (existsb _ c || existsb _ c);
    [discriminate|].
  intros H; injection H as <-. reflexivity.
Qed.

Lemma update_members c u x :
  In x (User.update c u) -> (In x c /\ _id x <> _id u) \/ x = u.
Proof.
  unfold User.update. intros H. apply in_map_iff in H as (y & Hy & Hin).
  destruct (_id y =? _id u)%N eqn:E.
  - right. auto.
  - left. subst y. split; [exact Hin|]. apply N.eqb_neq. exact E.
Qed.

Lemma update_holds c u x :
  In x c -> _id x = _id u -> In u (User.update c u).
Proof.
  intros Hin Hid. unfold User.update. apply in_map_iff. exists x.
  rewrite Hid, N.eqb_refl. auto.
Qed.

(** The record a successful [register] stores: the document built from
    the request, hashed once by the first save, with the refresh token
    pushed before the second. *)
Lemma register_success L cfg c env req c' u a r :
  register L cfg c env req = (c', Registered u a r) ->
  validatePassword (req_password req) = []
  /\ u = pushRefreshToken
           (setPassword
              (User.new L (newId env)
                 (toLowerCase L (sanitizeInput (req_email req)))
                 (req_password req))
              (bcrypt_hash L (saltRounds cfg) (salt env) (req_password req)))
           r (now env)
  /\ a = Tokens.generateAccessToken cfg (newId env) (now env)
  /\ r = Tokens.generateRefreshToken cfg (newId env) (now env)
  /\ c' = User.update
            (c ++ [setPassword
                     (User.new L (newId env)
                        (toLowerCase L (sanitizeInput (req_email req)))
                        (req_password req))
                     (bcrypt_hash L (saltRounds cfg) (salt env)
                        (req_password req))])
            u.
Proof.
  unfold register.
  destruct (validationErrors req); [|discriminate].
  destruct (validatePassword (req_password req)) eqn:Hpw; [|discriminate].
  destruct (findOneByEmail c _); [discriminate|].
  destruct (User.validate L _); [|discriminate].
  destruct (User.insertOne c _) as [err|c1] eqn:Hi; [discriminate|].
  apply insertOne_user in Hi. subst c1.
  destruct (Tokens.generateTokenPairThrows cfg); [discriminate|].
  unfold Tokens.generateTokenPair.
  intros H; injection H as <- <- <- <-.
  repeat split.
Qed.

(** C8.  For every registration that succeeds, under the contract of
    bcrypt: the password on record is the hash the first save computed
    from the plaintext, once; it differs from the plaintext;
    [comparePassword] with the plaintext succeeds on it; and the record
    is the only one the registration added. *)
Theorem C8_password_stored_hashed :
  forall L cfg c env req c' u a r,
    bcryptContract L ->
    register L cfg c env req = (c', Registered u a r) ->
    password u
    = bcrypt_hash L (saltRounds cfg) (salt env) (req_password req)
    /\ password u <> req_password req
    /\ comparePassword L u (req_password req) = true
    /\ In u c'
    /\ (forall x, In x c' -> In x c \/ x = u)
    /\ validatePassword (req_password req) = [].
Proof.
  intros L cfg c env req c' u a r [Hcmp Hne] H.
  apply register_success in H as (Hpw & Hu & _ & _ & Hc').
  assert (Hp : password u
               = bcrypt_hash L (saltRounds cfg) (salt env) (req_password req))
    by (rewrite Hu; reflexivity).
  assert (Hid : _id u = newId env) by (rewrite Hu; reflexivity).
  split; [exact Hp|]. split; [rewrite Hp; apply Hne|].
  split; [unfold comparePassword; rewrite Hp; apply Hcmp|].
  split; [|split; [|exact Hpw]].
  - rewrite Hc'. eapply update_holds.
    + apply in_or_app. right. left. reflexivity.
    + rewrite Hid. reflexivity.
  - intros x Hx. rewrite Hc' in Hx.
    apply update_members in Hx as [[Hin Hx]|Hx]; [|right; exact Hx].
    apply in_app_or in Hin as [Hin|[<-|[]]]; [left; exact Hin|].
    exfalso. apply Hx. rewrite Hid. reflexivity.
Qed.

Lemma sampleLib_contract : bcryptContract sampleLib.
Proof.
  split; intros rounds salt data; cbn [sampleLib bcrypt_hash bcrypt_compare].
  - apply andb_true_intro. split; [reflexivity|].
    apply str_eqb_eq.
    replace (List.length (lit "$2a$" ++ salt ++ data) - List.length data)%nat
      with (List.length (lit "$2a$" ++ salt)).
    + rewrite app_assoc, skipn_app, skipn_all, Nat.sub_diag. reflexivity.
    + rewrite !length_app. lia.
  - intros H. apply (f_equal (@List.length _)) in H.
    rewrite !length_app in H. cbn in H. lia.
Qed.

(** C8 on the registration of the specification's scenario. *)
Lemma C8_sample_witness :
  exists u a r,
    register sampleLib sampleConfig [] sampleRegisterEnv sampleRegistration
    = ([u], Registered u a r)
    /\ password u <> lit "Str0ng!Pass"
    /\ comparePassword sampleLib u (lit "Str0ng!Pass") = true.
Proof.
  assert (H : exists u a r,
             register sampleLib sampleConfig [] sampleRegisterEnv
               sampleRegistration = ([u], Registered u a r))
    by (do 3 eexists; vm_compute; reflexivity).
  destruct H as (u & a & r & H). exists u, a, r.
  destruct (C8_password_stored_hashed _ _ _ _ _ _ _ _ _
              sampleLib_contract H) as (_ & Hne & Hcmp & _).
  split; [exact H|]. split; [exact Hne|exact Hcmp].
Defined.

End Credentials.

(* ================================================================== *)
(** ** Tokens *)
(* ================================================================== *)

Section TokenFacts.

Import User AuthController.

Lemma token_eqb_eq a b : Jwt.token_eqb a b = true <-> a = b.
Proof.
  unfold Jwt.token_eqb. destruct (Jwt.token_eq_dec a b); split; congruence.
Qed.

Lemma token_eqb_refl a : Jwt.token_eqb a a = true.
Proof. apply token_eqb_eq. reflexivity. Qed.

Lemma findById_update c u x :
  In x c -> _id x = _id u -> findById (User.update c u) (_id u) = Some u.
Proof.
  unfold findById, User.update.
  induction c as [|a c IH]; intros Hin Hid; [destruct Hin|].
  cbn [List.map find].
  destruct (_id a =? _id u)%N eqn:Ha.
  - rewrite N.eqb_refl. reflexivity.
  - rewrite Ha. destruct Hin as [<-|Hin].
    + rewrite Hid, N.eqb_refl in Ha. discriminate.
    + apply IH; assumption.
Qed.

Lemma find_app_found {A} (p : A -> bool) l x :
  p x = true -> exists y, find p (l ++ [x]) = Some y.
Proof.
  intros Hx. induction l as [|a l IH]; simpl.
  - rewrite Hx. eauto.
  - destruct (p a); eauto.
Qed.

Lemma find_none_all {A} (p : A -> bool) l :
  (forall z, In z l -> p z = false) -> find p l = None.
Proof.
  induction l as [|a l IH]; simpl; intros H; [reflexivity|].
  rewrite (H a (or_introl eq_refl)). apply IH. intros z Hz. apply H. auto.
Qed.

Lemma checkMfa_passed L user code now user' :
  checkMfa L user code now = MfaPassed user' ->
  _id user' = _id user /\ refreshTokens user' = refreshTokens user.
Proof.
  unfold checkMfa.
  destruct (negb (mfaEnabled user)); [intros H; injection H as <-; auto|].
  destruct (isBlank code); [discriminate|].
  destruct (totp_verify L _ _ now); [intros H; injection H as <-; auto|].
  destruct (useBackupCode _ _); [|discriminate].
  intros H; injection H as <-. auto.
Qed.

(** The tokens a successful [login] issues and the record it keeps of
    the refresh token. *)
Lemma login_tokens L cfg c now req c' u a r :
  login L cfg c now req = (c', LoggedIn u a r) ->
  exists user,
    In user c /\ _id user = _id u
    /\ c' = User.update c u
    /\ a = Tokens.generateAccessToken cfg (_id u) now
    /\ r = Tokens.generateRefreshToken cfg (_id u) now
    /\ refreshTokens u
       = filter (fun tokenObj =>
                   isActive tokenObj && (now <? expiresAt tokenObj))
                (refreshTokens user)
         ++ [mkRefreshToken r now (Tokens.getRefreshTokenExpiry now) true].
Proof.
  unfold login.
  destruct (validationErrors req); [|discriminate].
  destruct (findOneByEmail c _) as [user|] eqn:Hf; [|discriminate].
  destruct (isLocked user now); [discriminate|].
  destruct (negb (comparePassword L user (req_password req)));
    [discriminate|].
  destruct (checkMfa L user (req_mfaCode req) now) as [| |user'] eqn:Hm;
    try discriminate.
  apply checkMfa_passed in Hm as [Hid Hrt].
  unfold Tokens.generateTokenPair.
  intros H; injection H as <- <- <- <-.
  exists user. unfold findOneByEmail in Hf. apply find_some in Hf as [Hin _].
  cbn. rewrite Hid, Hrt. repeat split; auto.
Qed.

(** [jwt.verify] of a refresh token of the configuration, before the
    second it expires at. *)
Lemma verifyRefreshToken_issued cfg uid now now' :
  now' / 1000 < now / 1000 + Tokens.refreshExpire ->
  Tokens.verifyRefreshToken cfg (Tokens.generateRefreshToken cfg uid now) now'
  = inr (Jwt.mkClaims (JWT_REFRESH_SECRET cfg) uid (now / 1000)
           (now / 1000 + Tokens.refreshExpire)).
Proof.
  intros H. unfold Tokens.verifyRefreshToken, Tokens.generateRefreshToken,
    Jwt.sign, Jwt.verify. cbn [Jwt.signedWith Jwt.exp].
  rewrite str_eqb_refl. cbn [negb].
  apply Z.leb_gt in H. rewrite H. reflexivity.
Qed.

(** While the token's claims are valid, its record has not expired. *)
Lemma record_outlives_claims now now' :
  now' / 1000 < now / 1000 + Tokens.refreshExpire ->
  now' < Tokens.getRefreshTokenExpiry now.
Proof.
  unfold Tokens.refreshExpire, Tokens.getRefreshTokenExpiry. intros H.
  pose proof (Z.mul_div_le now 1000 ltac:(lia)).
  assert (now' < 1000 * (now / 1000 + 7 * 24 * 60 * 60)); [|lia].
  pose proof (Z.mul_succ_div_gt now' 1000 ltac:(lia)). lia.
Qed.

(** Renewal with the refresh token of a successful login, at any
    instant before the second the token expires at. *)
Lemma renew_after_login L cfg c now req c' u a r now' :
  login L cfg c now req = (c', LoggedIn u a r) ->
  now' / 1000 < now / 1000 + Tokens.refreshExpire ->
  refreshToken cfg c' now' (Some r)
  = Refreshed (Tokens.generateAccessToken cfg (_id u) now').
Proof.
  intros H Hexp.
  apply login_tokens in H as (user & Hin & Hid & -> & _ & -> & Hrt).
  unfold refreshToken.
  change (Jwt.isEmpty (Tokens.generateRefreshToken cfg (_id u) now))
    with false. cbv iota.
  rewrite (verifyRefreshToken_issued cfg (_id u) now now' Hexp).
  cbn [Jwt.userId].
  rewrite (findById_update c u user Hin Hid), Hrt.
  destruct (find_app_found
              (fun tokenObj =>
                 Jwt.token_eqb (token tokenObj)
                   (Tokens.generateRefreshToken cfg (_id u) now)
                 && isActive tokenObj && (now' <? expiresAt tokenObj))
              (filter (fun tokenObj =>
                         isActive tokenObj && (now <? expiresAt tokenObj))
                      (refreshTokens user))
              (mkRefreshToken (Tokens.generateRefreshToken cfg (_id u) now)
                 now (Tokens.getRefreshTokenExpiry now) true)) as [y Hy].
  - cbn [token isActive expiresAt]. rewrite token_eqb_refl. cbn [andb].
    apply Z.ltb_lt. apply record_outlives_claims. exact Hexp.
  - rewrite Hy. reflexivity.
Qed.

(** The access token of a renewal verifies under the access secret and
    names the identity. *)
Lemma access_token_valid cfg uid now :
  exists claims,
    Jwt.verify (Tokens.generateAccessToken cfg uid now)
      (JWT_ACCESS_SECRET cfg) now = inr claims
    /\ Jwt.userId claims = uid.
Proof.
  unfold Tokens.generateAccessToken, Jwt.sign, Jwt.verify.
  cbn [Jwt.signedWith Jwt.exp]. rewrite str_eqb_refl. cbn [negb].
  assert (H : (now / 1000 + Tokens.accessExpire <=? now / 1000) = false)
    by (apply Z.leb_gt; unfold Tokens.accessExpire; lia).
  rewrite H. eexists. split; reflexivity.
Qed.

(** After [deactivate], no active record holds the token, when at most
    one record held it. *)
Lemma deactivate_single rt rts now :
  (List.length (filter (fun tokenObj => Jwt.token_eqb (token tokenObj) rt)
                  rts) <= 1)%nat ->
  find (fun tokenObj =>
          Jwt.token_eqb (token tokenObj) rt && isActive tokenObj
          && (now <? expiresAt tokenObj))
       (deactivate rt rts) = None.
Proof.
  induction rts as [|x rts IH]; simpl; [reflexivity|].
  destruct (Jwt.token_eqb (token x) rt) eqn:Hx; simpl; intros Hlen.
  - rewrite Hx. simpl.
    destruct (filter _ rts) as [|y l] eqn:Hf; [|simpl in Hlen; lia].
    apply find_none_all. intros z Hz.
    destruct (Jwt.token_eqb (token z) rt) eqn:Hzt; [|reflexivity].
    exfalso.
    assert (Hin : In z (filter (fun tokenObj =>
                                  Jwt.token_eqb (token tokenObj) rt) rts))
      by (apply filter_In; auto).
    rewrite Hf in Hin. destruct Hin.
  - rewrite Hx. simpl. apply IH. exact Hlen.
Qed.

End TokenFacts.

Section TokenClaims.

Import User AuthController.

(** Renewal round trip: with the refresh token of a successful login,
    at any instant before the second the token expires at, [refreshToken]
    answers with an access token that verifies under the access secret
    and names the identity.  The handler writes nothing, so the refresh
    token is not rotated and serves again. *)
Theorem renewal_round_trip :
  forall L cfg c now req c' u a r now',
    login L cfg c now req = (c', LoggedIn u a r) ->
    now' / 1000 < now / 1000 + Tokens.refreshExpire ->
    exists a',
      refreshToken cfg c' now' (Some r) = Refreshed a'
      /\ exists claims,
          Jwt.verify a' (JWT_ACCESS_SECRET cfg) now' = inr claims
          /\ Jwt.userId claims = _id u.
Proof.
  intros L cfg c now req c' u a r now' H Hexp.
  exists (Tokens.generateAccessToken cfg (_id u) now'). split.
  - eapply renew_after_login; eauto.
  - apply access_token_valid.
Qed.

(** Revocation of a token string that one record holds: when no record
    the identity had before the login holds the string of the token the
    login issued, [logout] with that token makes every later renewal
    with it fail with 401. *)
Theorem revoked_single_record_fails_renewal :
  forall L cfg c now req c' u a r now',
    login L cfg c now req = (c', LoggedIn u a r) ->
    (forall x tokenObj,
        In x c -> _id x = _id u -> In tokenObj (refreshTokens x) ->
        token tokenObj <> r) ->
    status (refreshToken cfg (fst (logout c' (_id u) (Some r))) now' (Some r))
    = 401.
Proof.
  intros L cfg c now req c' u a r now' H Hfresh.
  apply login_tokens in H as (user & Hin & Hid & -> & _ & Hr & Hrt).
  assert (He : Jwt.isEmpty r = false) by (rewrite Hr; reflexivity).
  unfold logout. rewrite He, (findById_update c u user Hin Hid). cbn [fst].
  unfold refreshToken. rewrite He.
  destruct (Tokens.verifyRefreshToken cfg r now') as [err|decoded] eqn:Hv;
    [reflexivity|].
  assert (Hd : Jwt.userId decoded = _id u).
  { revert Hv. rewrite Hr.
    unfold Tokens.verifyRefreshToken, Tokens.generateRefreshToken, Jwt.sign,
      Jwt.verify.
    destruct (negb _); [discriminate|]. destruct (_ <=? _); [discriminate|].
    intros E; injection E as <-. reflexivity. }
  rewrite Hd.
  set (u' := setRefreshTokens u (deactivate r (refreshTokens u))).
  assert (Hu' : findById (User.update (User.update c u) u') (_id u)
                = Some u').
  { change (_id u) with (_id u').
    apply (findById_update (User.update c u) u' u); [|reflexivity].
    eapply update_holds; eauto. }
  rewrite Hu'. cbn [u' setRefreshTokens refreshTokens].
  rewrite deactivate_single; [reflexivity|].
  rewrite Hrt, filter_app, length_app.
  cbn [filter token]. rewrite token_eqb_refl. cbn [List.length].
  match goal with
  | |- (List.length ?l + 1 <= 1)%nat => destruct l as [|y l'] eqn:Hf
  end; [simpl; lia|].
  exfalso.
  assert (Hy : In y (y :: l')) by (left; reflexivity).
  rewrite <- Hf in Hy. apply filter_In in Hy as [Hy Ht].
  apply filter_In in Hy as [Hy _]. apply token_eqb_eq in Ht.
  exact (Hfresh user y Hin Hid Hy Ht).
Qed.

(** C4 fails on a token string that two records hold.  The identity
    registers, and logs in 800 milliseconds later, within the same clock
    second: both responses carry the same refresh token, and two records
    hold it.  After [logout] with that token, which deactivates the
    first record, [refreshToken] with it still answers with a new access
    token. *)
Theorem C4_logout_leaves_second_record_active :
  issuedRefreshToken
    (snd (register sampleLib sampleConfig [] sampleRegisterEnv
            sampleRegistration)) = Some sampleRefreshToken
  /\ issuedRefreshToken
       (snd (login sampleLib sampleConfig sampleUsers 1793698200900
               sampleRegistration)) = Some sampleRefreshToken
  /\ activeFlags sampleUsersLoggedIn = [[true; true]]
  /\ snd (logout sampleUsersLoggedIn 1%N (Some sampleRefreshToken))
     = LoggedOut
  /\ activeFlags sampleUsersLoggedOut = [[false; true]]
  /\ refreshToken sampleConfig sampleUsersLoggedOut 1793698201000
       (Some sampleRefreshToken)
     = Refreshed
         (Tokens.generateAccessToken sampleConfig 1%N 1793698201000).
Proof.
  repeat split; vm_compute; reflexivity.
Qed.

(** The round trip on the sample login. *)
Lemma renewal_round_trip_witness :
  exists a',
    refreshToken sampleConfig sampleUsersLoggedIn 1793698201000
      (Some sampleRefreshToken) = Refreshed a'.
Proof.
  assert (H : exists u a,
             login sampleLib sampleConfig sampleUsers 1793698200900
               sampleRegistration
             = (sampleUsersLoggedIn, LoggedIn u a sampleRefreshToken))
    by (do 2 eexists; vm_compute; reflexivity).
  destruct H as (u & a & H).
  destruct (renewal_round_trip _ _ _ _ _ _ _ _ _ 1793698201000 H)
    as (a' & Ha & _); [vm_compute; reflexivity|].
  exists a'. exact Ha.
Defined.

(** Revocation on a login five seconds after the sample registration,
    whose token no other record holds. *)
Lemma revoked_single_record_witness :
  exists c' r,
    issuedRefreshToken
      (snd (login sampleLib sampleConfig sampleUsers 1793698205100
              sampleRegistration)) = Some r
    /\ c' = fst (login sampleLib sampleConfig sampleUsers 1793698205100
                   sampleRegistration)
    /\ status (refreshToken sampleConfig (fst (logout c' 1%N (Some r)))
                 1793698206000 (Some r)) = 401.
Proof.
  assert (H : exists c' u a r,
             login sampleLib sampleConfig sampleUsers 1793698205100
               sampleRegistration = (c', LoggedIn u a r)
             /\ _id u = 1%N
             /\ r = Tokens.generateRefreshToken sampleConfig 1%N
                      1793698205100)
    by (do 4 eexists; vm_compute; repeat split).
  destruct H as (c' & u & a & r & H & Hid & Hr).
  exists c', r. rewrite H. cbn [snd fst issuedRefreshToken].
  split; [reflexivity|]. split; [reflexivity|].
  rewrite <- Hid.
  apply (revoked_single_record_fails_renewal _ _ _ _ _ _ _ _ _ _ H).
  intros x tokenObj Hx _ Ht. rewrite Hr.
  vm_compute in Hx. destruct Hx as [<-|[]].
  vm_compute in Ht. destruct Ht as [<-|[]].
  vm_compute. discriminate.
Defined.

End TokenClaims.

(* ================================================================== *)
(** ** Sanitised input and the password rules *)
(* ================================================================== *)

Section PasswordRules.

Lemma dropSpaces_length (s : jsstring) :
  (List.length (dropSpaces s) <= List.length s)%nat.
Proof.
  induction s as [|c s IH]; cbn [dropSpaces]; [lia|].
  destruct (isSpace c); cbn [List.length]; lia.
Qed.

Lemma trim_length (s : jsstring) :
  (List.length (trim s) <= List.length s)%nat.
Proof.
  unfold trim. rewrite length_rev.
  etransitivity; [apply dropSpaces_length|].
  rewrite length_rev. apply dropSpaces_length.
Qed.

Lemma filter_clean (s : jsstring) :
  forallb (fun c => negb (isAngle c)) s = true ->
  filter (fun c => negb (isAngle c)) s = s.
Proof.
  induction s as [|c s IH]; cbn [forallb filter]; [reflexivity|].
  intros H. apply andb_prop in H as [-> H]. now rewrite IH.
Qed.

Lemma sanitizeInput_fixed (input : jsstring) :
  trim input = input ->
  forallb (fun c => negb (isAngle c)) input = true ->
  (List.length input <= 2000)%nat ->
  sanitizeInput input = input.
Proof.
  intros Ht Hc Hl. unfold sanitizeInput, slice0.
  rewrite Ht, (filter_clean _ Hc). now apply firstn_all2.
Qed.

Lemma dropSpaces_incl (s : jsstring) (c : char16) :
  In c (dropSpaces s) -> In c s.
Proof.
  induction s as [|d s IH]; cbn [dropSpaces]; [easy|].
  destruct (isSpace d); [right; auto | easy].
Qed.

Lemma trim_incl (s : jsstring) (c : char16) : In c (trim s) -> In c s.
Proof.
  unfold trim. intros H. apply in_rev, dropSpaces_incl, in_rev in H.
  now apply dropSpaces_incl.
Qed.

(** What [sanitizeInput] returns holds neither < nor >, is at most
    2000 code units long and never longer than its input; a string that
    is trimmed, holds no angle bracket and fits is returned as it is. *)
Theorem sanitizeInput_clean_and_bounded (input : jsstring) :
  Forall (fun c => c <> 60%N /\ c <> 62%N) (sanitizeInput input)
  /\ (List.length (sanitizeInput input) <= 2000)%nat
  /\ (List.length (sanitizeInput input) <= List.length input)%nat
  /\ (trim input = input ->
      forallb (fun c => negb (isAngle c)) input = true ->
      (List.length input <= 2000)%nat ->
      sanitizeInput input = input).
Proof.
  split; [|split; [|split]]; [| | |apply sanitizeInput_fixed];
    unfold sanitizeInput, slice0.
  - apply Forall_forall. intros c Hc.
    assert (Hf : In c (filter (fun c => negb (isAngle c)) (trim input))).
    { rewrite <- (firstn_skipn 2000). apply in_or_app. now left. }
    apply filter_In in Hf as [_ Hf]. unfold isAngle in Hf.
    apply negb_true_iff, orb_false_iff in Hf as [H1 H2].
    apply N.eqb_neq in H1, H2. now split.
  - rewrite length_firstn. lia.
  - rewrite length_firstn.
    pose proof (filter_length_le (fun c => negb (isAngle c)) (trim input)).
    pose proof (trim_length input). lia.
Qed.

Lemma firstLine_incl (s : jsstring) (c : char16) :
  In c (Routes.firstLine s) -> In c s.
Proof.
  induction s as [|d s IH]; cbn [Routes.firstLine]; [easy|].
  destruct (Routes.isLineTerminator d); [easy|].
  intros [->|H]; [now left | right; auto].
Qed.

Lemma ahead_somewhere (class : char16 -> bool) (s : jsstring) :
  Routes.ahead class s = true -> existsb class s = true.
Proof.
  unfold Routes.ahead. rewrite !existsb_exists.
  intros (c & Hc & Hp). exists c. split; [now apply firstLine_incl | easy].
Qed.

Lemma chainSpecial_special (c : char16) :
  Routes.isChainSpecial c = true -> isSpecialChar c = true.
Proof.
  unfold Routes.isChainSpecial. rewrite existsb_exists.
  intros (d & Hd & He). apply N.eqb_eq in He. subst d.
  cbv [lit List.map list_ascii_of_string N_of_ascii N_of_digits] in Hd.
  cbn in Hd.
  repeat (destruct Hd as [<-|Hd]; [reflexivity|]). destruct Hd.
Qed.

Lemma vLength_le (s : jsstring) :
  (Validator.vLength s <= List.length s)%nat.
Proof. unfold Validator.vLength. lia. Qed.

(** A password that passes the chain of [registerValidation] (or of
    [changePasswordValidation], which differs in the messages only) is
    one [validatePassword] has nothing to say against: behind the chain,
    the handlers' own password check cannot fail.  The chain is the
    stricter of the two: it refuses every password none of whose special
    characters is among the seven of its pattern, whatever
    [validatePassword] says. *)
Theorem route_password_passes_policy (short weak : string)
    (password : jsstring) :
  (Routes.passwordChain short weak password = [] ->
   validatePassword password = [])
  /\ (existsb Routes.isChainSpecial password = false ->
      In weak (Routes.passwordChain short weak password)).
Proof.
  unfold Routes.passwordChain. split.
  - intros H. apply app_eq_nil in H as [H1 H2].
    destruct (8 <=? Validator.vLength password)%nat eqn:Hl; [|discriminate].
    destruct (Routes.matchesPasswordPattern password) eqn:Hm;
      [|discriminate].
    unfold Routes.matchesPasswordPattern in Hm.
    apply andb_prop in Hm as [Hm _].
    apply andb_prop in Hm as [Hm Hspecial].
    apply andb_prop in Hm as [Hm Hdigit].
    apply andb_prop in Hm as [Hlower Hupper].
    apply Nat.leb_le in Hl. pose proof (vLength_le password).
    unfold validatePassword.
    replace (List.length password <? 8)%nat with false
      by (symmetry; apply Nat.ltb_ge; lia).
    rewrite !ahead_somewhere by assumption.
    assert (Hs : existsb isSpecialChar password = true).
    { apply ahead_somewhere in Hspecial.
      apply existsb_exists in Hspecial as (c & Hc & Hp).
      apply existsb_exists. exists c. split; [easy|].
      now apply chainSpecial_special. }
    rewrite Hs. reflexivity.
  - intros Hno. apply in_or_app. right.
    unfold Routes.matchesPasswordPattern.
    replace (Routes.ahead Routes.isChainSpecial password) with false.
    + rewrite andb_false_r. now left.
    + symmetry.
      destruct (Routes.ahead Routes.isChainSpecial password) eqn:Ha;
        [|reflexivity].
      apply ahead_somewhere in Ha. congruence.
Qed.

Lemma route_password_passes_policy_witness :
  Routes.registerPasswordChain (lit "Str0ng!Pass") = []
  /\ validatePassword (lit "Str0ng!Pass") = [].
Proof.
  split; [reflexivity|].
  apply (proj1 (route_password_passes_policy
                  "Password must be at least 8 characters long"
                  "Password must contain at least one uppercase letter, one lowercase letter, one number, and one special character"
                  (lit "Str0ng!Pass"))).
  reflexivity.
Defined.

End PasswordRules.

(* ================================================================== *)
(** ** Accounts: registration *)
(* ================================================================== *)

Section Registration.

Lemma update_absent (c : User.Collection) (u : User.t) :
  existsb (fun x => (User._id x =? User._id u)%N) c = false ->
  User.update c u = c.
Proof.
  unfold User.update. induction c as [|x c IH]; cbn [existsb List.map];
    [reflexivity|].
  intros H. apply orb_false_iff in H as [-> H]. now rewrite IH.
Qed.

Lemma update_last (c : User.Collection) (u0 u : User.t) :
  User._id u = User._id u0 ->
  existsb (fun x => (User._id x =? User._id u0)%N) c = false ->
  User.update (c ++ [u0]) u = c ++ [u].
Proof.
  intros Hid Hc. unfold User.update. rewrite map_app.
  fold (User.update c u). rewrite update_absent by now rewrite Hid.
  cbn [List.map]. now rewrite Hid, N.eqb_refl.
Qed.

Lemma existsb_false_notin {A B : Type} (f : A -> B) (eqb : B -> B -> bool)
    (b : B) (l : list A) :
  (forall x y, eqb x y = true <-> x = y) ->
  existsb (fun x => eqb (f x) b) l = false -> ~ In b (List.map f l).
Proof.
  intros Heq H Hin. apply in_map_iff in Hin as (x & Hx & Hin).
  assert (Ht : existsb (fun x => eqb (f x) b) l = true).
  { apply existsb_exists. exists x. split; [easy|]. now apply Heq. }
  congruence.
Qed.

(** [register] appends exactly one account when it answers 201, one
    whose address and id no stored account has, and leaves every stored
    account as it was; so addresses stay distinct.  With both JWT
    secrets set, every other answer changes nothing at all.  With a
    secret unset or empty it never answers 201: either nothing changes,
    or the account is stored by the first save, without a refresh
    token, and the exception of [generateTokenPair] is answered 500. *)
Theorem register_adds_one_account (L : Lib) (cfg : Config)
    (c : User.Collection) (env : AuthController.Env)
    (req : AuthController.Request) :
  let c' := fst (AuthController.register L cfg c env req) in
  match snd (AuthController.register L cfg c env req) with
  | AuthController.Registered u _ _ =>
      c' = c ++ [u]
      /\ User._id u = AuthController.newId env
      /\ ~ In (User.email u) (List.map User.email c)
      /\ ~ In (User._id u) (List.map User._id c)
      /\ (NoDup (List.map User.email c) -> NoDup (List.map User.email c'))
  | answer =>
      c' = c
      \/ (Tokens.generateTokenPairThrows cfg = true
          /\ answer = AuthController.Json 500 "Registration failed"
                        "An error occurred during registration"
          /\ exists u,
               c' = c ++ [u]
               /\ User._id u = AuthController.newId env
               /\ ~ In (User.email u) (List.map User.email c)
               /\ ~ In (User._id u) (List.map User._id c)
               /\ User.refreshTokens u = []
               /\ (NoDup (List.map User.email c) ->
                   NoDup (List.map User.email c')))
  end
  /\ (Tokens.generateTokenPairThrows cfg = false ->
      match snd (AuthController.register L cfg c env req) with
      | AuthController.Registered _ _ _ => True
      | _ => c' = c
      end)
  /\ (Tokens.generateTokenPairThrows cfg = true ->
      forall u a r,
        snd (AuthController.register L cfg c env req)
        <> AuthController.Registered u a r).
Proof.
  unfold AuthController.register.
  destruct (AuthController.validationErrors req);
    [|split; [now left|split; [reflexivity|discriminate]]].
  destruct (validatePassword _);
    [|split; [now left|split; [reflexivity|discriminate]]].
  destruct (User.findOneByEmail _ _);
    [split; [now left|split; [reflexivity|discriminate]]|].
  destruct (User.validate _ _);
    [|split; [now left|split; [reflexivity|discriminate]]].
  set (u0 := User.preSave L cfg true _ _).
  destruct (User.insertOne _ _) as [err|c1] eqn:Hins;
    [split; [now left|split; [reflexivity|discriminate]]|].
  unfold User.insertOne in Hins.
  destruct (existsb _ c || existsb _ c) eqn:He; [discriminate|].
  injection Hins as <-. apply orb_false_iff in He as [Hemail Hid].
  assert (Hn0 : ~ In (User.email u0) (List.map User.email c))
    by (apply (existsb_false_notin User.email str_eqb);
        [apply str_eqb_eq|easy]).
  assert (Hi0 : ~ In (User._id u0) (List.map User._id c))
    by (apply (existsb_false_notin User._id N.eqb); [apply N.eqb_eq|easy]).
  destruct (Tokens.generateTokenPairThrows cfg).
  - cbn [fst snd]. split; [|split; [discriminate|discriminate]].
    right. split; [reflexivity|]. split; [reflexivity|].
    exists u0. repeat split; try assumption.
    intros Hnd. rewrite map_app. cbn [List.map].
    apply NoDup_snoc; assumption.
  - cbn [Tokens.generateTokenPair fst snd User.preSave negb].
    match goal with
    | |- context [AuthController.pushRefreshToken u0 ?r ?n] =>
        set (u := AuthController.pushRefreshToken u0 r n)
    end.
    assert (Hu : User._id u = User._id u0) by reflexivity.
    assert (Hm : User.email u = User.email u0) by reflexivity.
    rewrite (update_last c u0 u Hu Hid).
    split; [|split; [easy|discriminate]].
    repeat split.
    + rewrite Hm. exact Hn0.
    + rewrite Hu. exact Hi0.
    + intros Hnd. rewrite map_app. cbn [List.map].
      apply NoDup_snoc; [exact Hnd|]. rewrite Hm. exact Hn0.
Qed.

(** The sample registration on a deployment without JWT secrets: the
    answer is 500 and the account is stored all the same, so the same
    registration sent again is answered 400. *)
Lemma register_adds_one_account_witness :
  snd (AuthController.register sampleLib sampleConfigNoSecret []
         sampleRegisterEnv sampleRegistration)
  = AuthController.Json 500 "Registration failed"
      "An error occurred during registration"
  /\ List.map User.email
       (fst (AuthController.register sampleLib sampleConfigNoSecret []
               sampleRegisterEnv sampleRegistration))
     = [lit "a@b.com"]
  /\ AuthController.status
       (snd (AuthController.register sampleLib sampleConfigNoSecret
               (fst (AuthController.register sampleLib sampleConfigNoSecret
                       [] sampleRegisterEnv sampleRegistration))
               sampleRegisterEnv sampleRegistration))
     = 400.
Proof.
  pose proof (register_adds_one_account sampleLib sampleConfigNoSecret []
                sampleRegisterEnv sampleRegistration) as H.
  cbv zeta in H. destruct H as (H & _ & _).
  destruct (snd (AuthController.register sampleLib sampleConfigNoSecret []
                   sampleRegisterEnv sampleRegistration)) eqn:E;
    try (vm_compute in E; discriminate E).
  destruct H as [H|(_ & Ha & _)].
  - vm_compute in H. discriminate H.
  - split; [exact Ha|]. split; vm_compute; reflexivity.
Defined.

Lemma register_appends (L : Lib) (cfg : Config) (c : User.Collection)
    (env : AuthController.Env) (req : AuthController.Request)
    (c' : User.Collection) (u : User.t) (a r : Jwt.Token) :
  AuthController.register L cfg c env req
    = (c', AuthController.Registered u a r) ->
  c' = c ++ [u].
Proof.
  intros H. destruct (register_success L cfg c env req c' u a r H)
    as (_ & Hu & _ & _ & Hc).
  unfold AuthController.register in H.
  destruct (AuthController.validationErrors req); [|discriminate].
  destruct (validatePassword _); [|discriminate].
  destruct (User.findOneByEmail _ _); [discriminate|].
  destruct (User.validate _ _); [|discriminate].
  destruct (User.insertOne _ _) as [err|c1] eqn:Hins; [discriminate|].
  unfold User.insertOne in Hins.
  destruct (existsb _ c || existsb _ c) eqn:He; [discriminate|].
  apply orb_false_iff in He as [_ Hid].
  rewrite Hc. apply update_last; [now rewrite Hu | exact Hid].
Qed.

Lemma findOneByEmail_last (c : User.Collection) (u : User.t) :
  exists x, User.findOneByEmail (c ++ [u]) (User.email u) = Some x.
Proof.
  unfold User.findOneByEmail. apply find_app_found. apply str_eqb_refl.
Qed.

(** Once an address is registered, registering it again is refused
    with 400 and nothing is written; the address compared is the
    sanitised, lower-cased one, which the schema's setters must have
    left as it was. *)
Theorem register_same_address_twice (L : Lib) (cfg : Config)
    (c c' : User.Collection) (env env2 : AuthController.Env)
    (req req2 : AuthController.Request) (u : User.t) (a r : Jwt.Token) :
  AuthController.register L cfg c env req
    = (c', AuthController.Registered u a r) ->
  User.email u = toLowerCase L (sanitizeInput (AuthController.req_email req)) ->
  AuthController.validationErrors req2 = [] ->
  validatePassword (AuthController.req_password req2) = [] ->
  toLowerCase L (sanitizeInput (AuthController.req_email req2))
    = toLowerCase L (sanitizeInput (AuthController.req_email req)) ->
  AuthController.register L cfg c' env2 req2
    = (c', AuthController.Json 400 "Registration failed"
             "An account with this email already exists").
Proof.
  intros Hreg Hmail Hv Hp He.
  rewrite (register_appends L cfg c env req c' u a r Hreg) in *.
  unfold AuthController.register. rewrite Hv, Hp, He, <- Hmail.
  destruct (findOneByEmail_last c u) as (x & ->). reflexivity.
Qed.

Lemma register_same_address_twice_witness :
  AuthController.register sampleLib sampleConfig sampleUsers
    sampleRegisterEnv sampleRegistration
  = (sampleUsers, AuthController.Json 400 "Registration failed"
                    "An account with this email already exists").
Proof.
  assert (H : exists u a r,
             AuthController.register sampleLib sampleConfig []
               sampleRegisterEnv sampleRegistration
             = (sampleUsers, AuthController.Registered u a r)
             /\ User.email u
                = toLowerCase sampleLib
                    (sanitizeInput
                       (AuthController.req_email sampleRegistration))).
  { do 3 eexists. split; vm_compute; reflexivity. }
  destruct H as (u & a & r & Hreg & Hmail).
  apply (register_same_address_twice sampleLib sampleConfig [] sampleUsers
           sampleRegisterEnv sampleRegisterEnv sampleRegistration
           sampleRegistration u a r Hreg Hmail);
    reflexivity.
Defined.

End Registration.

(* ================================================================== *)
(** ** Accounts: login *)
(* ================================================================== *)

Section Login.

Lemma str_eqb_neq (a b : jsstring) : a <> b -> str_eqb a b = false.
Proof.
  intros H. destruct (str_eqb a b) eqn:He; [|reflexivity].
  apply str_eqb_eq in He. contradiction.
Qed.

Lemma findOneByEmail_update (c : User.Collection) (e : jsstring)
    (user u' : User.t) :
  User.findOneByEmail c e = Some user ->
  User.email u' = e ->
  User._id u' = User._id user ->
  User.findOneByEmail (User.update c u') e = Some u'.
Proof.
  unfold User.findOneByEmail, User.update. intros Hf He Hid.
  induction c as [|x c IH]; [discriminate|].
  cbn [find List.map] in *.
  destruct (str_eqb (User.email x) e) eqn:Hx.
  - injection Hf as ->. rewrite Hid, N.eqb_refl.
    now rewrite He, str_eqb_refl.
  - destruct (User._id x =? User._id u')%N.
    + now rewrite He, str_eqb_refl.
    + rewrite Hx. now apply IH.
Qed.

(** [login] answers with tokens only to who knows the password of
    an account that is not locked and, when the account has MFA
    enabled, also sends a code that the authenticator accepts or that is
    one of the account's unused backup codes, which is then used up. *)
Theorem login_requires_every_factor (L : Lib) (cfg : Config)
    (c c' : User.Collection) (now : Z) (req : AuthController.Request)
    (u : User.t) (a r : Jwt.Token) :
  AuthController.login L cfg c now req
    = (c', AuthController.LoggedIn u a r) ->
  exists user,
    User.findOneByEmail c
      (toLowerCase L (sanitizeInput (AuthController.req_email req)))
      = Some user
    /\ User.isLocked user now = false
    /\ User.comparePassword L user (AuthController.req_password req) = true
    /\ (User.mfaEnabled user = true ->
        exists code,
          AuthController.req_mfaCode req = Some code /\ code <> []
          /\ (totp_verify L
                (match User.mfaSecret user with Some k => k | None => [] end)
                code now = true
              /\ User.mfaBackupCodes u = User.mfaBackupCodes user
              \/ AuthController.useBackupCode (toUpperCase L code)
                   (User.mfaBackupCodes user)
                 = Some (User.mfaBackupCodes u))).
Proof.
  unfold AuthController.login.
  destruct (AuthController.validationErrors req); [|discriminate].
  destruct (User.findOneByEmail _ _) as [user|]; [|discriminate].
  destruct (User.isLocked user now) eqn:Hl; [discriminate|].
  destruct (User.comparePassword L user _) eqn:Hp; cbn [negb];
    [|discriminate].
  destruct (AuthController.checkMfa L user _ now) as [| |user'] eqn:Hm;
    try discriminate.
  cbn [Tokens.generateTokenPair]. intros H. injection H as _ <- _ _.
  exists user. repeat split; try assumption.
  intros Hen. unfold AuthController.checkMfa in Hm. rewrite Hen in Hm.
  cbn [negb] in Hm.
  destruct (AuthController.req_mfaCode req) as [[|k code]|];
    cbn [AuthController.isBlank] in Hm; try discriminate.
  exists (k :: code). split; [reflexivity|]. split; [discriminate|].
  destruct (totp_verify L _ _ now).
  - injection Hm as <-. now left.
  - destruct (AuthController.useBackupCode _ _) as [bcs|]; [|discriminate].
    injection Hm as <-. now right.
Qed.

Lemma login_requires_every_factor_witness :
  exists user,
    User.findOneByEmail sampleUsers
      (toLowerCase sampleLib
         (sanitizeInput (AuthController.req_email sampleRegistration)))
      = Some user
    /\ User.isLocked user 1793698200900 = false.
Proof.
  assert (H : exists u a r,
             AuthController.login sampleLib sampleConfig sampleUsers
               1793698200900 sampleRegistration
             = (sampleUsersLoggedIn, AuthController.LoggedIn u a r)).
  { do 3 eexists. vm_compute. reflexivity. }
  destruct H as (u & a & r & H).
  destruct (login_requires_every_factor _ _ _ _ _ _ _ _ _ H)
    as (user & Hf & Hl & _).
  exists user. split; assumption.
Defined.

Lemma wrong_password_attempt (L : Lib) (cfg : Config) (c : User.Collection)
    (now : Z) (req : AuthController.Request) (user : User.t) :
  AuthController.validationErrors req = [] ->
  User.findOneByEmail c
    (toLowerCase L (sanitizeInput (AuthController.req_email req)))
    = Some user ->
  User.lockUntil user = None ->
  User.comparePassword L user (AuthController.req_password req) = false ->
  User.findOneByEmail (fst (AuthController.login L cfg c now req))
    (toLowerCase L (sanitizeInput (AuthController.req_email req)))
  = Some (User.incLoginAttempts user now).
Proof.
  intros Hv Hf Hl Hp.
  rewrite (login_wrong_password L cfg c now req user Hv Hf);
    [| unfold User.isLocked; now rewrite Hl | exact Hp].
  cbn [fst]. apply (findOneByEmail_update c _ user); [exact Hf| |].
  - apply find_some in Hf as [_ Hf]. apply str_eqb_eq in Hf.
    rewrite <- Hf. unfold User.incLoginAttempts.
    repeat match goal with |- context [if ?b then _ else _] =>
      destruct b end; reflexivity.
  - unfold User.incLoginAttempts.
    repeat match goal with |- context [if ?b then _ else _] =>
      destruct b end; reflexivity.
Qed.

Lemma login_locked (L : Lib) (cfg : Config) (c : User.Collection)
    (now : Z) (req : AuthController.Request) (user : User.t) :
  AuthController.validationErrors req = [] ->
  User.findOneByEmail c
    (toLowerCase L (sanitizeInput (AuthController.req_email req)))
    = Some user ->
  User.isLocked user now = true ->
  AuthController.login L cfg c now req
  = (c, AuthController.Json 423 "Account locked"
          "Account is temporarily locked due to too many failed login attempts").
Proof.
  intros Hv Hf Hl. unfold AuthController.login. now rewrite Hv, Hf, Hl.
Qed.

(** Five attempts with a wrong password on an account with a clean
    record lock it: until two hours after the fifth, [login] answers 423
    to every request for the account, the right password included, and
    writes nothing. *)
Theorem five_wrong_passwords_lock_login (L : Lib) (cfg : Config)
    (c : User.Collection) (bad req : AuthController.Request)
    (user : User.t) (t1 t2 t3 t4 t5 now : Z) :
  AuthController.validationErrors bad = [] ->
  AuthController.validationErrors req = [] ->
  toLowerCase L (sanitizeInput (AuthController.req_email req))
    = toLowerCase L (sanitizeInput (AuthController.req_email bad)) ->
  User.findOneByEmail c
    (toLowerCase L (sanitizeInput (AuthController.req_email bad)))
    = Some user ->
  User.loginAttempts user = 0 ->
  User.lockUntil user = None ->
  User.comparePassword L user (AuthController.req_password bad) = false ->
  now < t5 + 2 * 60 * 60 * 1000 ->
  let c5 := attempts L cfg bad [t1; t2; t3; t4; t5] c in
  AuthController.login L cfg c5 now req
  = (c5, AuthController.Json 423 "Account locked"
           "Account is temporarily locked due to too many failed login attempts").
Proof.
  intros Hb Hr He Hf Ha Hl Hp Hnow. cbn [attempts fold_left].
  set (e := toLowerCase L (sanitizeInput (AuthController.req_email bad)))
    in *.
  assert (step : forall c t u n,
             User.findOneByEmail c e = Some u ->
             User.loginAttempts u = n -> User.lockUntil u = None ->
             User.password u = User.password user ->
             n + 1 < 5 ->
             exists u',
               User.findOneByEmail
                 (fst (AuthController.login L cfg c t bad)) e = Some u'
               /\ User.loginAttempts u' = n + 1
               /\ User.lockUntil u' = None
               /\ User.password u' = User.password user).
  { intros c0 t u n Hf0 Hn Hl0 Hpw Hlt.
    exists (User.incLoginAttempts u t). split.
    - apply wrong_password_attempt; try assumption.
      unfold User.comparePassword in *. now rewrite Hpw.
    - rewrite incLoginAttempts_below by (try assumption; lia).
      cbn. repeat split; [lia | assumption]. }
  destruct (step c t1 user 0 Hf Ha Hl eq_refl ltac:(lia))
    as (u1 & Hf1 & Ha1 & Hl1 & Hp1).
  destruct (step _ t2 u1 1 Hf1 Ha1 Hl1 Hp1 ltac:(lia))
    as (u2 & Hf2 & Ha2 & Hl2 & Hp2).
  destruct (step _ t3 u2 2 Hf2 Ha2 Hl2 Hp2 ltac:(lia))
    as (u3 & Hf3 & Ha3 & Hl3 & Hp3).
  destruct (step _ t4 u3 3 Hf3 Ha3 Hl3 Hp3 ltac:(lia))
    as (u4 & Hf4 & Ha4 & Hl4 & Hp4).
  assert (Hf5 : User.comparePassword L u4 (AuthController.req_password bad)
                = false)
    by (unfold User.comparePassword in *; now rewrite Hp4).
  apply (wrong_password_attempt L cfg _ t5 bad u4 Hb Hf4 Hl4) in Hf5.
  rewrite incLoginAttempts_locks in Hf5
    by first [rewrite Ha4; lia | rewrite Hl4; discriminate].
  fold e in Hf5. rewrite <- He in Hf5.
  apply (login_locked L cfg _ now req _ Hr Hf5).
  unfold User.isLocked, User.lockTime. cbn [User.setSecurity User.lockUntil].
  apply Z.ltb_lt. lia.
Qed.

Lemma five_wrong_passwords_lock_login_witness :
  let bad := AuthController.mkRequest [] (lit "a@b.com") (lit "Wr0ng!Pass")
               None in
  let c5 := attempts sampleLib sampleConfig bad sampleFailures sampleUsers in
  AuthController.login sampleLib sampleConfig c5 1793698400000
    sampleRegistration
  = (c5, AuthController.Json 423 "Account locked"
           "Account is temporarily locked due to too many failed login attempts").
Proof.
  assert (H : exists user,
             User.findOneByEmail sampleUsers (lit "a@b.com") = Some user
             /\ User.loginAttempts user = 0
             /\ User.lockUntil user = None
             /\ User.comparePassword sampleLib user (lit "Wr0ng!Pass")
                = false).
  { eexists. repeat split; vm_compute; reflexivity. }
  destruct H as (user & Hf & Ha & Hl & Hp).
  apply (five_wrong_passwords_lock_login sampleLib sampleConfig sampleUsers
           (AuthController.mkRequest [] (lit "a@b.com") (lit "Wr0ng!Pass")
              None)
           sampleRegistration user 1793698200000 1793698230000 1793698260000
           1793698290000 1793698320000 1793698400000);
    try reflexivity; assumption.
Defined.

(** After a login the stored account is the one answered, and each
    of its refresh-token records is active and unexpired: the revoked
    and the expired ones are pruned, the new one is added. *)
Theorem login_leaves_live_records_only (L : Lib) (cfg : Config)
    (c c' : User.Collection) (now : Z) (req : AuthController.Request)
    (u : User.t) (a r : Jwt.Token) :
  AuthController.login L cfg c now req
    = (c', AuthController.LoggedIn u a r) ->
  User.findById c' (User._id u) = Some u
  /\ Forall (fun tokenObj =>
               User.isActive tokenObj = true
               /\ now < User.expiresAt tokenObj)
            (User.refreshTokens u)
  /\ In (User.mkRefreshToken r now (now + 7 * 24 * 60 * 60 * 1000) true)
        (User.refreshTokens u)
  /\ exists user,
       In user c /\ User._id user = User._id u
       /\ (List.length (User.refreshTokens u)
           <= S (List.length (User.refreshTokens user)))%nat.
Proof.
  intros H.
  destruct (login_tokens L cfg c now req c' u a r H)
    as (user & Hin & Hid & -> & _ & _ & Hrt).
  split; [now apply (findById_update c u user)|].
  rewrite Hrt. repeat split.
  - apply Forall_app. split.
    + apply Forall_forall. intros x Hx. apply filter_In in Hx as [_ Hx].
      apply andb_prop in Hx as [Ha Hb]. apply Z.ltb_lt in Hb. now split.
    + constructor; [|constructor]. cbn. unfold Tokens.getRefreshTokenExpiry.
      split; [reflexivity | lia].
  - apply in_or_app. right. now left.
  - exists user. repeat split; [assumption..|].
    rewrite length_app. cbn [List.length].
    pose proof (filter_length_le
                  (fun tokenObj =>
                     User.isActive tokenObj && (now <? User.expiresAt tokenObj))
                  (User.refreshTokens user)).
    lia.
Qed.

Lemma login_leaves_live_records_only_witness :
  exists u, User.findById sampleUsersLoggedIn 1%N = Some u.
Proof.
  assert (H : exists u a r,
             AuthController.login sampleLib sampleConfig sampleUsers
               1793698200900 sampleRegistration
             = (sampleUsersLoggedIn, AuthController.LoggedIn u a r)
             /\ User._id u = 1%N).
  { do 3 eexists. split; vm_compute; reflexivity. }
  destruct H as (u & a & r & H & Hid).
  exists u. rewrite <- Hid.
  apply (login_leaves_live_records_only _ _ _ _ _ _ _ _ _ H).
Defined.

Lemma useBackupCode_none (code : jsstring) (bcs : list User.BackupCode) :
  (forall bc, In bc bcs -> User.code bc = code -> User.used bc = true) ->
  AuthController.useBackupCode code bcs = None.
Proof.
  induction bcs as [|bc bcs IH]; [reflexivity|]. intros H.
  cbn [AuthController.useBackupCode].
  destruct (str_eqb (User.code bc) code) eqn:He.
  - apply str_eqb_eq in He. rewrite (H bc) by (now left || assumption).
    cbn. rewrite IH; [reflexivity|]. intros x Hx. apply H. now right.
  - cbn. rewrite IH; [reflexivity|]. intros x Hx. apply H. now right.
Qed.

(** A backup code works once.  Using a code marks one record as
    used and keeps the codes as they are; if the codes are distinct the
    same code is refused from then on, while every other code is
    accepted or refused as before. *)
Theorem backup_code_single_use (code : jsstring)
    (bcs bcs' : list User.BackupCode) :
  AuthController.useBackupCode code bcs = Some bcs' ->
  NoDup (List.map User.code bcs) ->
  List.map User.code bcs' = List.map User.code bcs
  /\ AuthController.useBackupCode code bcs' = None
  /\ (forall other,
        other <> code ->
        AuthController.useBackupCode other bcs' = None
        <-> AuthController.useBackupCode other bcs = None).
Proof.
  revert bcs'. induction bcs as [|bc bcs IH]; [discriminate|].
  intros bcs' H Hnd. cbn [AuthController.useBackupCode] in H.
  cbn [List.map] in Hnd. apply NoDup_cons_iff in Hnd as [Hnotin Hnd].
  destruct (str_eqb (User.code bc) code && negb (User.used bc)) eqn:Hb.
  - injection H as <-. apply andb_prop in Hb as [He Hu].
    apply str_eqb_eq in He. split; [reflexivity|]. split.
    + cbn [AuthController.useBackupCode User.code User.used].
      rewrite andb_false_r.
      rewrite useBackupCode_none; [reflexivity|].
      intros x Hx Hcode. exfalso. apply Hnotin. rewrite He, <- Hcode.
      now apply in_map.
    + intros other Hother.
      cbn [AuthController.useBackupCode User.code User.used].
      replace (str_eqb (User.code bc) other) with false.
      * cbn [andb].
        destruct (AuthController.useBackupCode other bcs); split; intros Hx;
          (discriminate Hx || reflexivity).
      * symmetry. apply str_eqb_neq. congruence.
  - destruct (AuthController.useBackupCode code bcs) as [rest|] eqn:Hr;
      [|discriminate].
    injection H as <-. destruct (IH rest eq_refl Hnd) as (Hm & Hn & Ho).
    split; [|split].
    + cbn [List.map]. now rewrite Hm.
    + cbn [AuthController.useBackupCode]. now rewrite Hb, Hn.
    + intros other Hother. specialize (Ho other Hother).
      cbn [AuthController.useBackupCode].
      destruct (str_eqb (User.code bc) other && negb (User.used bc));
        [split; discriminate|].
      destruct (AuthController.useBackupCode other rest),
        (AuthController.useBackupCode other bcs); split; intros Hx;
        try reflexivity; try discriminate Hx.
      * destruct Ho as [_ Ho]. discriminate (Ho eq_refl).
      * destruct Ho as [Ho _]. discriminate (Ho eq_refl).
Qed.

Lemma backup_code_single_use_witness :
  let bcs := BackupCodes.generateBackupCodes 10 sampleDraws in
  exists bcs',
    AuthController.useBackupCode (lit "01336597") bcs = Some bcs'
    /\ AuthController.useBackupCode (lit "01336597") bcs' = None.
Proof.
  cbv zeta.
  assert (H : exists bcs',
             AuthController.useBackupCode (lit "01336597")
               (BackupCodes.generateBackupCodes 10 sampleDraws)
             = Some bcs').
  { eexists. vm_compute. reflexivity. }
  destruct H as (bcs' & H). exists bcs'. split; [exact H|].
  destruct (backup_code_single_use _ _ _ H) as (_ & Hn & _); [|exact Hn].
  vm_compute.
  repeat (apply NoDup_cons;
          [cbn [In]; intros Hx;
           repeat (destruct Hx as [Hx|Hx]; [discriminate Hx|]); exact Hx|]).
  apply NoDup_nil.
Defined.

Lemma hexDigit_plain (n : N) :
  (n < 16)%N ->
  Validator.isPresentationSelector (BackupCodes.hexDigit n) = false
  /\ Validator.isHighSurrogate (BackupCodes.hexDigit n) = false.
Proof.
  intros H. unfold BackupCodes.hexDigit, Validator.isPresentationSelector,
    Validator.isHighSurrogate.
  destruct (n <? 10)%N; split;
    repeat rewrite ?orb_false_iff, ?andb_false_iff, ?N.eqb_neq,
      ?N.leb_gt; lia.
Qed.

Lemma vLength_plain (s : jsstring) :
  Forall (fun c => Validator.isPresentationSelector c = false
                   /\ Validator.isHighSurrogate c = false) s ->
  Validator.vLength s = List.length s.
Proof.
  intros H. unfold Validator.vLength.
  assert (Hf : filter Validator.isPresentationSelector s = []
               /\ Validator.surrogatePairs s = O).
  { induction H as [|c s [Hp Hh] _ [IH1 IH2]]; [easy|]. split.
    - cbn [filter]. now rewrite Hp.
    - cbn [Validator.surrogatePairs]. destruct s; [reflexivity|].
      now rewrite Hh. }
  destruct Hf as [-> ->]. cbn. lia.
Qed.

Lemma generateBackupCode_plain (bytes : list N) :
  Forall (fun b => (b < 256)%N) bytes ->
  Forall (fun c => Validator.isPresentationSelector c = false
                   /\ Validator.isHighSurrogate c = false)
         (BackupCodes.generateBackupCode bytes)
  /\ List.length (BackupCodes.generateBackupCode bytes)
     = (2 * List.length bytes)%nat.
Proof.
  induction 1 as [|b bytes Hb _ [IH1 IH2]]; [now split|].
  cbn [BackupCodes.generateBackupCode flat_map List.app List.length].
  fold (BackupCodes.generateBackupCode bytes). split.
  - constructor; [|constructor; [|exact IH1]]; apply hexDigit_plain.
    + apply N.Div0.div_lt_upper_bound. lia.
    + apply N.mod_lt. lia.
  - rewrite IH2. lia.
Qed.

(** A backup code as [generateBackupCode] makes it, eight
    hexadecimal digits from four random bytes, does not pass the
    [mfaCode] chain of [loginValidation], which asks for six units: a
    request that carries one, and whose validation result holds what the
    chain reports, is answered by [login] with the validation errors and
    nothing is written. *)
Theorem backup_code_fails_login_validation (L : Lib) (cfg : Config)
    (c : User.Collection) (now : Z) (req : AuthController.Request)
    (bytes : list N) :
  List.length bytes = 4%nat ->
  Forall (fun b => (b < 256)%N) bytes ->
  AuthController.req_mfaCode req
    = Some (BackupCodes.generateBackupCode bytes) ->
  incl (Routes.mfaCodeChain (AuthController.req_mfaCode req))
       (AuthController.validationErrors req) ->
  In "Invalid value"%string
     (Routes.mfaCodeChain (AuthController.req_mfaCode req))
  /\ AuthController.login L cfg c now req
     = (c, AuthController.ValidationFailed
             (AuthController.validationErrors req)).
Proof.
  intros Hlen Hb Hcode Hincl.
  assert (Hin : In "Invalid value"%string
                  (Routes.mfaCodeChain (AuthController.req_mfaCode req))).
  { rewrite Hcode. unfold Routes.mfaCodeChain, Validator.isLength.
    destruct (generateBackupCode_plain bytes Hb) as [Hp Hl].
    rewrite (vLength_plain _ Hp), Hl, Hlen. cbn. now left. }
  split; [exact Hin|].
  apply Hincl in Hin. unfold AuthController.login.
  destruct (AuthController.validationErrors req); [destruct Hin|reflexivity].
Qed.

Lemma backup_code_fails_login_validation_witness :
  AuthController.login sampleLib sampleConfig sampleUsers 1793698200900
    (AuthController.mkRequest ["Invalid value"%string] (lit "a@b.com")
       (lit "Str0ng!Pass")
       (Some (BackupCodes.generateBackupCode [18; 52; 86; 120]%N)))
  = (sampleUsers,
     AuthController.ValidationFailed ["Invalid value"%string]).
Proof.
  apply (backup_code_fails_login_validation sampleLib sampleConfig
           sampleUsers 1793698200900
           (AuthController.mkRequest ["Invalid value"%string]
              (lit "a@b.com") (lit "Str0ng!Pass")
              (Some (BackupCodes.generateBackupCode [18; 52; 86; 120]%N)))
           [18; 52; 86; 120]%N).
  - reflexivity.
  - repeat constructor.
  - reflexivity.
  - vm_compute. intros x Hx. exact Hx.
Defined.

End Login.

(* ================================================================== *)
(** ** Lockout, through the store *)
(* ================================================================== *)

Section LockoutClaim.

Import User AuthController.

(** A wrong password, for an identity that is not locked, is what the
    next request for the identity loads. *)
Lemma failed_login_recorded L cfg c now req user :
  validationErrors req = [] ->
  findOneByEmail c (toLowerCase L (sanitizeInput (req_email req)))
  = Some user ->
  isLocked user now = false ->
  comparePassword L user (req_password req) = false ->
  findOneByEmail (fst (login L cfg c now req))
    (toLowerCase L (sanitizeInput (req_email req)))
  = Some (incLoginAttempts user now).
Proof.
  intros Hv Hf Hl Hp.
  rewrite (login_wrong_password L cfg c now req user Hv Hf Hl Hp).
  cbn [fst]. apply (findOneByEmail_update c _ user); [exact Hf| |].
  - apply find_some in Hf as [_ Hf]. apply str_eqb_eq in Hf.
    rewrite <- Hf. unfold incLoginAttempts.
    repeat match goal with |- context [if ?b then _ else _] =>
      destruct b end; reflexivity.
  - unfold incLoginAttempts.
    repeat match goal with |- context [if ?b then _ else _] =>
      destruct b end; reflexivity.
Qed.

(** The record a successful [login] answers with is what the next
    request for the identity loads. *)
Lemma login_success_stored L cfg c now req c' u a r :
  login L cfg c now req = (c', LoggedIn u a r) ->
  findOneByEmail c' (toLowerCase L (sanitizeInput (req_email req)))
  = Some u.
Proof.
  unfold login.
  destruct (validationErrors req); [|discriminate].
  destruct (findOneByEmail c _) as [user|] eqn:Hf; [|discriminate].
  destruct (isLocked user now); [discriminate|].
  destruct (comparePassword L user (req_password req)); [|discriminate].
  cbn [negb].
  destruct (checkMfa L user (req_mfaCode req) now) as [| |user'] eqn:Hm;
    try discriminate.
  unfold Tokens.generateTokenPair. intros H. injection H as <- <- _ _.
  assert (He : email user' = email user /\ _id user' = _id user).
  { unfold checkMfa in Hm.
    destruct (negb (mfaEnabled user)); [now injection Hm as <-|].
    destruct (isBlank (req_mfaCode req)); [discriminate|].
    destruct (totp_verify L _ _ now); [now injection Hm as <-|].
    destruct (useBackupCode _ _); [|discriminate].
    now injection Hm as <-. }
  destruct He as [He Hid].
  apply (findOneByEmail_update c _ user); [exact Hf| |].
  - apply find_some in Hf as [_ Hf]. apply str_eqb_eq in Hf.
    rewrite <- Hf. cbn. exact He.
  - cbn. exact Hid.
Qed.

(** Four and five wrong passwords in a row on a clean record, as the
    store holds them. *)
Lemma five_failures_recorded L cfg c bad user t1 t2 t3 t4 t5 :
  validationErrors bad = [] ->
  findOneByEmail c (toLowerCase L (sanitizeInput (req_email bad)))
  = Some user ->
  loginAttempts user = 0 -> lockUntil user = None ->
  comparePassword L user (req_password bad) = false ->
  findOneByEmail (attempts L cfg bad [t1; t2; t3; t4] c)
    (toLowerCase L (sanitizeInput (req_email bad)))
  = Some (setSecurity user 4 None)
  /\ findOneByEmail (attempts L cfg bad [t1; t2; t3; t4; t5] c)
       (toLowerCase L (sanitizeInput (req_email bad)))
     = Some (setSecurity user 5 (Some (t5 + lockTime))).
Proof.
  intros Hv Hf Ha Hl Hp. cbn [attempts fold_left].
  set (e := toLowerCase L (sanitizeInput (req_email bad))) in *.
  assert (step : forall c0 t n,
             findOneByEmail c0 e = Some (setSecurity user n None) ->
             n + 1 < 5 ->
             findOneByEmail (fst (login L cfg c0 t bad)) e
             = Some (setSecurity user (n + 1) None)).
  { intros c0 t n Hf0 Hn. unfold e in *.
    rewrite (failed_login_recorded L cfg c0 t bad _ Hv Hf0 eq_refl Hp).
    rewrite incLoginAttempts_below by (cbn; (reflexivity || lia)).
    reflexivity. }
  assert (H0 : user = setSecurity user 0 None).
  { destruct user. cbn in Ha, Hl. subst. reflexivity. }
  rewrite H0 in Hf.
  pose proof (step _ t1 0 Hf ltac:(lia)) as H1.
  pose proof (step _ t2 1 H1 ltac:(lia)) as H2.
  pose proof (step _ t3 2 H2 ltac:(lia)) as H3.
  pose proof (step _ t4 3 H3 ltac:(lia)) as H4.
  split; [exact H4|]. unfold e in *.
  rewrite (failed_login_recorded L cfg _ t5 bad _ Hv H4 eq_refl Hp).
  rewrite incLoginAttempts_locks by (cbn; (lia || discriminate)).
  reflexivity.
Qed.

(** C3.  From a counter at zero with no lock, the first four failures
    leave the identity unlocked and the fifth sets lock-until to its
    instant plus two hours; in general a failure of an identity with no
    lock on record adds one to the counter and sets the lock exactly
    when the counter reaches five.  [isLocked] is true exactly at the
    instants before lock-until.  A failure recorded after a lock has
    expired restarts the counter at 1 and drops the lock.
    [resetLoginAttempts] puts the counter at zero and clears the lock,
    and that is the record a successful [login] leaves; a wrong password
    of an unlocked identity is recorded by [incLoginAttempts].  All of
    this is on record in the store: the next request for the identity
    loads the record the failed or successful [login] wrote.  So, with
    requests served one after the other, five wrong passwords on a
    clean record leave the stored identity locked until two hours after
    the fifth, every [login] for it before then is answered 423 and
    writes nothing, and a wrong password after the lock has expired
    leaves the stored counter at 1 with no lock. *)
Theorem C3_lockout_policy :
  (forall u t1 t2 t3 t4 t5,
      loginAttempts u = 0 -> lockUntil u = None ->
      let u4 := fold_left incLoginAttempts [t1; t2; t3; t4] u in
      let u5 := incLoginAttempts u4 t5 in
      loginAttempts u4 = 4 /\ lockUntil u4 = None
      /\ loginAttempts u5 = 5
      /\ lockUntil u5 = Some (t5 + 2 * 60 * 60 * 1000)
      /\ forall t, isLocked u5 t = true <-> t < t5 + 2 * 60 * 60 * 1000)
  /\ (forall u now,
         lockUntil u = None ->
         loginAttempts (incLoginAttempts u now) = loginAttempts u + 1
         /\ lockUntil (incLoginAttempts u now)
            = if 5 <=? loginAttempts u + 1 then Some (now + 2 * 60 * 60 * 1000)
              else None)
  /\ (forall u now,
         isLocked u now = true <-> exists l, lockUntil u = Some l /\ now < l)
  /\ (forall u l now,
         lockUntil u = Some l -> l < now ->
         loginAttempts (incLoginAttempts u now) = 1
         /\ lockUntil (incLoginAttempts u now) = None)
  /\ (forall u,
         loginAttempts (resetLoginAttempts u) = 0
         /\ lockUntil (resetLoginAttempts u) = None
         /\ forall now, isLocked (resetLoginAttempts u) now = false)
  /\ (forall L cfg c now req c' u a r,
         login L cfg c now req = (c', LoggedIn u a r) ->
         c' = User.update c u /\ loginAttempts u = 0 /\ lockUntil u = None)
  /\ (forall L cfg c now req user,
         validationErrors req = [] ->
         findOneByEmail c (toLowerCase L (sanitizeInput (req_email req)))
         = Some user ->
         isLocked user now = false ->
         comparePassword L user (req_password req) = false ->
         fst (login L cfg c now req)
         = User.update c (incLoginAttempts user now))
  /\ (forall L cfg c now req user,
         validationErrors req = [] ->
         findOneByEmail c (toLowerCase L (sanitizeInput (req_email req)))
         = Some user ->
         isLocked user now = false ->
         comparePassword L user (req_password req) = false ->
         findOneByEmail (fst (login L cfg c now req))
           (toLowerCase L (sanitizeInput (req_email req)))
         = Some (incLoginAttempts user now))
  /\ (forall L cfg c now req c' u a r,
         login L cfg c now req = (c', LoggedIn u a r) ->
         findOneByEmail c' (toLowerCase L (sanitizeInput (req_email req)))
         = Some u)
  /\ (forall L cfg c bad user t1 t2 t3 t4 t5,
         validationErrors bad = [] ->
         findOneByEmail c (toLowerCase L (sanitizeInput (req_email bad)))
         = Some user ->
         loginAttempts user = 0 -> lockUntil user = None ->
         comparePassword L user (req_password bad) = false ->
         let e := toLowerCase L (sanitizeInput (req_email bad)) in
         let c4 := attempts L cfg bad [t1; t2; t3; t4] c in
         let c5 := attempts L cfg bad [t1; t2; t3; t4; t5] c in
         (exists u4,
             findOneByEmail c4 e = Some u4
             /\ loginAttempts u4 = 4 /\ lockUntil u4 = None)
         /\ exists u5,
             findOneByEmail c5 e = Some u5
             /\ loginAttempts u5 = 5
             /\ lockUntil u5 = Some (t5 + 2 * 60 * 60 * 1000)
             /\ (forall now,
                   isLocked u5 now = true <-> now < t5 + 2 * 60 * 60 * 1000)
             /\ (forall now req,
                   validationErrors req = [] ->
                   toLowerCase L (sanitizeInput (req_email req)) = e ->
                   now < t5 + 2 * 60 * 60 * 1000 ->
                   login L cfg c5 now req
                   = (c5, Json 423 "Account locked"
                            "Account is temporarily locked due to too many failed login attempts"))
             /\ (forall now,
                   t5 + 2 * 60 * 60 * 1000 < now ->
                   exists u6,
                     findOneByEmail (fst (login L cfg c5 now bad)) e
                     = Some u6
                     /\ loginAttempts u6 = 1 /\ lockUntil u6 = None)).
Proof.
  split; [|split; [|split; [|split; [|split; [|split;
    [|split; [|split; [|split]]]]]]]].
  - intros u t1 t2 t3 t4 t5 Hn Hl u4 u5.
    assert (H4 : u4 = setSecurity u 4 None).
    { unfold u4. cbn [fold_left].
      rewrite (incLoginAttempts_below u t1) by (rewrite ?Hn; auto; lia).
      rewrite Hn.
      rewrite incLoginAttempts_below by (cbn; auto; lia).
      rewrite incLoginAttempts_below by (cbn; auto; lia).
      rewrite incLoginAttempts_below by (cbn; auto; lia).
      reflexivity. }
    assert (H5 : u5 = setSecurity u 5 (Some (t5 + lockTime))).
    { unfold u5. rewrite H4.
      rewrite incLoginAttempts_locks; [reflexivity|cbn; lia|discriminate]. }
    rewrite H4, H5. cbn [setSecurity loginAttempts lockUntil].
    repeat split; try reflexivity.
    + intros H. apply isLocked_iff in H as (l & E & H).
      cbn in E. injection E as <-. exact H.
    + intros H. apply isLocked_iff. eexists. split; [reflexivity|exact H].
  - intros u now Hl. unfold incLoginAttempts, isLocked. rewrite Hl.
    destruct (5 <=? loginAttempts u + 1); split; reflexivity.
  - apply isLocked_iff.
  - intros u l now Hl Hlt. rewrite (incLoginAttempts_restarts u l now Hl Hlt).
    split; reflexivity.
  - intros u. repeat split.
  - intros L cfg c now req c' u a r H.
    apply login_success in H as (H1 & H2 & H3 & _). auto.
  - intros L cfg c now req user Hv Hf Hl Hp.
    rewrite (login_wrong_password L cfg c now req user Hv Hf Hl Hp).
    reflexivity.
  - apply failed_login_recorded.
  - apply login_success_stored.
  - intros L cfg c bad user t1 t2 t3 t4 t5 Hv Hf Ha Hl Hp e c4 c5.
    destruct (five_failures_recorded L cfg c bad user t1 t2 t3 t4 t5
                Hv Hf Ha Hl Hp) as [H4 H5].
    subst e. fold c4 in H4. fold c5 in H5.
    split; [exists (setSecurity user 4 None); now repeat split|].
    exists (setSecurity user 5 (Some (t5 + lockTime))).
    split; [exact H5|]. split; [reflexivity|]. split; [reflexivity|].
    split; [|split].
    + intros now. unfold isLocked, lockTime.
      cbn [setSecurity lockUntil]. apply Z.ltb_lt.
    + intros now req Hr He Hnow. rewrite <- He in H5.
      apply (login_locked L cfg c5 now req _ Hr H5).
      unfold isLocked, lockTime. cbn [setSecurity lockUntil].
      apply Z.ltb_lt. exact Hnow.
    + intros now Hnow. exists (setSecurity user 1 None).
      split; [|now split].
      rewrite (failed_login_recorded L cfg c5 now bad _ Hv H5).
      * rewrite (incLoginAttempts_restarts _ (t5 + lockTime) now);
          [reflexivity|reflexivity|unfold lockTime; lia].
      * unfold isLocked, lockTime. cbn [setSecurity lockUntil].
        apply Z.ltb_ge. lia.
      * exact Hp.
Qed.

(** C3 on the sample identity: five failures within two minutes lock it
    until two hours after the fifth; and the sample account after five
    wrong passwords is answered 423, the right password included. *)
Lemma C3_sample_witness :
  lockUntil (fold_left incLoginAttempts sampleFailures sampleUser)
  = Some 1793705520000
  /\ isLocked (fold_left incLoginAttempts sampleFailures sampleUser)
       1793705519999 = true
  /\ isLocked (fold_left incLoginAttempts sampleFailures sampleUser)
       1793705520000 = false
  /\ login sampleLib sampleConfig
       (attempts sampleLib sampleConfig sampleWrongPassword sampleFailures
          sampleUsers)
       1793698400000 sampleRegistration
     = (attempts sampleLib sampleConfig sampleWrongPassword sampleFailures
          sampleUsers,
        Json 423 "Account locked"
          "Account is temporarily locked due to too many failed login attempts").
Proof.
  destruct (proj1 C3_lockout_policy sampleUser
              1793698200000 1793698230000 1793698260000 1793698290000
              1793698320000 eq_refl eq_refl) as (_ & _ & _ & H & Hiff).
  split; [exact H|]. split; [|split].
  - apply Hiff. reflexivity.
  - destruct (isLocked _ 1793705520000) eqn:E; [|reflexivity].
    apply Hiff in E. discriminate E.
  - assert (Hu : exists user,
               findOneByEmail sampleUsers
                 (toLowerCase sampleLib
                    (sanitizeInput (req_email sampleWrongPassword)))
               = Some user
               /\ loginAttempts user = 0 /\ lockUntil user = None
               /\ comparePassword sampleLib user
                    (req_password sampleWrongPassword) = false).
    { eexists. repeat split; vm_compute; reflexivity. }
    destruct Hu as (user & Hf & Ha & Hl & Hp).
    destruct (proj2 (proj2 (proj2 (proj2 (proj2 (proj2 (proj2 (proj2
               (proj2 C3_lockout_policy))))))))
                sampleLib sampleConfig sampleUsers sampleWrongPassword user
                1793698200000 1793698230000 1793698260000 1793698290000
                1793698320000 eq_refl Hf Ha Hl Hp)
      as (_ & u5 & _ & _ & _ & _ & H423 & _).
    apply H423; reflexivity.
Defined.

End LockoutClaim.

(* ================================================================== *)
(** ** Sessions: logout, renewal and the middleware *)
(* ================================================================== *)

Section Sessions.

Lemma deactivate_again (rt : Jwt.Token) (rts : list User.RefreshToken) :
  AuthController.deactivate rt (AuthController.deactivate rt rts)
  = AuthController.deactivate rt rts.
Proof.
  induction rts as [|x rts IH]; [reflexivity|].
  cbn [AuthController.deactivate].
  destruct (Jwt.token_eqb (User.token x) rt) eqn:He;
    cbn [AuthController.deactivate User.token User.createdAt
         User.expiresAt]; rewrite He; [reflexivity | now rewrite IH].
Qed.

Lemma update_again (c : User.Collection) (u : User.t) :
  User.update (User.update c u) u = User.update c u.
Proof.
  unfold User.update. rewrite map_map. apply map_ext. intros x.
  destruct (User._id x =? User._id u)%N eqn:He;
    [now rewrite N.eqb_refl | now rewrite He].
Qed.

Lemma findById_found (c : User.Collection) (id : ObjectId) (u : User.t) :
  User.findById c id = Some u -> In u c /\ User._id u = id.
Proof.
  intros H. apply find_some in H as [Hin He]. apply N.eqb_eq in He.
  now split.
Qed.

Lemma findById_update_other (c : User.Collection) (u : User.t)
    (id : ObjectId) :
  id <> User._id u ->
  User.findById (User.update c u) id = User.findById c id.
Proof.
  intros Hne. unfold User.findById, User.update.
  induction c as [|x c IH]; [reflexivity|]. cbn [List.map find].
  destruct (User._id x =? User._id u)%N eqn:He.
  - apply N.eqb_eq in He.
    replace (User._id u =? id)%N with false
      by (symmetry; apply N.eqb_neq; congruence).
    replace (User._id x =? id)%N with false
      by (symmetry; apply N.eqb_neq; congruence).
    exact IH.
  - now rewrite IH.
Qed.

(** Logging out twice with the same token is logging out once. *)
Theorem logout_idempotent (c : User.Collection) (userId : ObjectId)
    (rt : option Jwt.Token) :
  AuthController.logout (fst (AuthController.logout c userId rt)) userId rt
  = AuthController.logout c userId rt.
Proof.
  unfold AuthController.logout.
  destruct rt as [rt|]; [|reflexivity].
  destruct (Jwt.isEmpty rt) eqn:He; cbn [fst]; [reflexivity|].
  destruct (User.findById c userId) as [user|] eqn:Hf; cbn [fst];
    [|now rewrite Hf].
  destruct (findById_found _ _ _ Hf) as [Hin Hid].
  set (user' := User.setRefreshTokens user _).
  assert (Hf' : User.findById (User.update c user') userId = Some user').
  { rewrite <- Hid. apply (findById_update c user' user Hin). reflexivity. }
  rewrite Hf'. subst user'.
  cbn [User.setRefreshTokens User.refreshTokens User._id User.email
       User.password User.mfaEnabled User.mfaSecret User.mfaBackupCodes
       User.loginAttempts User.lockUntil User.lastLogin].
  rewrite deactivate_again.
  fold (User.setRefreshTokens user
          (AuthController.deactivate rt (User.refreshTokens user))).
  now rewrite update_again.
Qed.

Lemma deactivate_frame (rt : Jwt.Token) (rts : list User.RefreshToken) :
  Forall2 (fun t t' =>
             User.token t' = User.token t
             /\ User.createdAt t' = User.createdAt t
             /\ User.expiresAt t' = User.expiresAt t
             /\ (User.isActive t' = true -> User.isActive t = true)
             /\ (User.token t <> rt -> t' = t))
          rts (AuthController.deactivate rt rts).
Proof.
  induction rts as [|x rts IH]; [constructor|].
  cbn [AuthController.deactivate].
  destruct (Jwt.token_eqb (User.token x) rt) eqn:He.
  - constructor.
    + cbn. repeat split; try discriminate.
      apply token_eqb_eq in He. congruence.
    + clear. induction rts; constructor; [now repeat split | assumption].
  - constructor; [now repeat split | exact IH].
Qed.

(** [logout] deletes nothing and touches one account only: every
    other account reads as before, and the account logged out keeps its
    refresh-token records in place with their tokens and dates, none
    turned active and none with another token changed. *)
Theorem logout_frame (c : User.Collection) (userId : ObjectId)
    (rt : option Jwt.Token) :
  let c' := fst (AuthController.logout c userId rt) in
  List.map User._id c' = List.map User._id c
  /\ (forall id, id <> userId -> User.findById c' id = User.findById c id)
  /\ (forall user,
        User.findById c userId = Some user ->
        exists rts,
          User.findById c' userId = Some (User.setRefreshTokens user rts)
          /\ Forall2 (fun t t' =>
                        User.token t' = User.token t
                        /\ User.createdAt t' = User.createdAt t
                        /\ User.expiresAt t' = User.expiresAt t
                        /\ (User.isActive t' = true ->
                            User.isActive t = true)
                        /\ (Some (User.token t) <> rt -> t' = t))
                     (User.refreshTokens user) rts).
Proof.
  assert (Hsame : forall user : User.t,
             user = User.setRefreshTokens user (User.refreshTokens user))
    by (now intros []).
  assert (Hrefl : forall rts : list User.RefreshToken,
             Forall2 (fun t t' =>
                        User.token t' = User.token t
                        /\ User.createdAt t' = User.createdAt t
                        /\ User.expiresAt t' = User.expiresAt t
                        /\ (User.isActive t' = true ->
                            User.isActive t = true)
                        /\ (Some (User.token t) <> rt -> t' = t))
                     rts rts)
    by (induction rts; constructor; [now repeat split | assumption]).
  assert (Hunchanged :
            List.map User._id c = List.map User._id c
            /\ (forall id, id <> userId ->
                           User.findById c id = User.findById c id)
            /\ (forall user,
                  User.findById c userId = Some user ->
                  exists rts,
                    User.findById c userId
                    = Some (User.setRefreshTokens user rts)
                    /\ Forall2 (fun t t' =>
                                  User.token t' = User.token t
                                  /\ User.createdAt t' = User.createdAt t
                                  /\ User.expiresAt t' = User.expiresAt t
                                  /\ (User.isActive t' = true ->
                                      User.isActive t = true)
                                  /\ (Some (User.token t) <> rt -> t' = t))
                               (User.refreshTokens user) rts)).
  { repeat split. intros user Hf. exists (User.refreshTokens user).
    split; [now rewrite <- Hsame | apply Hrefl]. }
  unfold AuthController.logout.
  destruct rt as [rt|]; [|exact Hunchanged].
  destruct (Jwt.isEmpty rt); [exact Hunchanged|].
  destruct (User.findById c userId) as [user|] eqn:Hf;
    [|repeat split; discriminate].
  cbn [fst]. destruct (findById_found _ _ _ Hf) as [Hin Hid].
  set (user' := User.setRefreshTokens user _).
  repeat split.
  - unfold User.update. rewrite map_map. apply map_ext_in.
    intros x _. destruct (User._id x =? User._id user')%N eqn:He;
      [|reflexivity].
    apply N.eqb_eq in He. now rewrite He.
  - intros id Hne. apply findById_update_other. cbn. congruence.
  - intros user0 Hf0. injection Hf0 as <-.
    exists (AuthController.deactivate rt (User.refreshTokens user)). split.
    + rewrite <- Hid. apply (findById_update c user' user Hin). reflexivity.
    + eapply Forall2_impl; [|apply deactivate_frame].
      cbn beta. intros t t' (H1 & H2 & H3 & H4 & H5).
      repeat split; try assumption. intros Hne. apply H5. congruence.
Qed.


(** With distinct secrets the two kinds of token cannot stand in
    for each other: an access token sent for renewal is answered 401
    'Invalid refresh token', and a refresh token sent as a bearer token
    is turned away by [authMiddleware] with 'Invalid token'. *)
Theorem tokens_are_not_interchangeable (cfg : Config)
    (c : User.Collection) (uid : ObjectId) (issued now : Z) :
  JWT_ACCESS_SECRET cfg <> JWT_REFRESH_SECRET cfg ->
  AuthController.refreshToken cfg c now
    (Some (Tokens.generateAccessToken cfg uid issued))
  = AuthController.accessDenied "Invalid refresh token"
  /\ Middleware.authMiddleware cfg c now
       (Middleware.Bearer (Tokens.generateRefreshToken cfg uid issued))
     = Middleware.denied "Invalid token".
Proof.
  intros Hne. split.
  - unfold AuthController.refreshToken, Tokens.generateAccessToken,
      Tokens.verifyRefreshToken, Jwt.sign, Jwt.verify.
    cbn [Jwt.isEmpty Jwt.signedWith]. now rewrite (str_eqb_neq _ _ Hne).
  - unfold Middleware.authMiddleware, Tokens.generateRefreshToken, Jwt.sign,
      Jwt.verify.
    cbn [Jwt.isEmpty Jwt.signedWith].
    rewrite str_eqb_neq by congruence. reflexivity.
Qed.

Lemma tokens_are_not_interchangeable_witness :
  AuthController.refreshToken sampleConfig sampleUsers 1793698200900
    (Some (Tokens.generateAccessToken sampleConfig 1%N 1793698200100))
  = AuthController.accessDenied "Invalid refresh token".
Proof.
  apply (tokens_are_not_interchangeable sampleConfig sampleUsers 1%N
           1793698200100 1793698200900).
  vm_compute. discriminate.
Defined.


(** [optionalAuth] never turns a request away, and attaches an
    identity exactly when [authMiddleware] would let the request
    through, the same one. *)
Theorem optionalAuth_follows_authMiddleware (cfg : Config)
    (c : User.Collection) (now : Z) (authHeader : Middleware.AuthHeader) :
  Middleware.optionalAuth cfg c now authHeader
  = match Middleware.authMiddleware cfg c now authHeader with
    | Middleware.Next o => Middleware.Next o
    | Middleware.Denied _ _ _ => Middleware.Next None
    end.
Proof.
  unfold Middleware.optionalAuth, Middleware.authMiddleware.
  destruct authHeader as [|raw|token]; try reflexivity.
  destruct (Jwt.isEmpty token); [reflexivity|].
  destruct (Jwt.verify token (JWT_ACCESS_SECRET cfg) now) as [[]|claims];
    try reflexivity.
  destruct (User.findById c (Jwt.userId claims)) as [user|]; [|reflexivity].
  now destruct (User.isLocked user now).
Qed.

(** The access token a login answers with is let through by
    [authMiddleware], as the account logged in, for the fifteen minutes
    it is valid. *)
Theorem login_token_is_admitted (L : Lib) (cfg : Config)
    (c c' : User.Collection) (now now' : Z) (req : AuthController.Request)
    (u : User.t) (a r : Jwt.Token) :
  AuthController.login L cfg c now req
    = (c', AuthController.LoggedIn u a r) ->
  now' / 1000 < now / 1000 + 15 * 60 ->
  Middleware.authMiddleware cfg c' now' (Middleware.Bearer a)
  = Middleware.Next (Some (User._id u)).
Proof.
  intros H Hnow.
  destruct (login_success L cfg c now req c' u a r H)
    as (_ & _ & Hlock & _).
  destruct (login_tokens L cfg c now req c' u a r H)
    as (user & Hin & Hid & -> & -> & _).
  unfold Middleware.authMiddleware, Tokens.generateAccessToken, Jwt.sign,
    Jwt.verify, Tokens.accessExpire.
  cbn [Jwt.isEmpty Jwt.signedWith Jwt.exp Jwt.userId].
  rewrite str_eqb_refl. cbn [negb].
  replace (now / 1000 + 15 * 60 <=? now' / 1000) with false
    by (symmetry; apply Z.leb_gt; lia).
  cbn [Jwt.userId]. rewrite (findById_update c u user Hin Hid).
  unfold User.isLocked. now rewrite Hlock.
Qed.

Lemma login_token_is_admitted_witness :
  exists a,
    Middleware.authMiddleware sampleConfig sampleUsersLoggedIn 1793699000000
      (Middleware.Bearer a)
    = Middleware.Next (Some 1%N).
Proof.
  assert (H : exists u a r,
             AuthController.login sampleLib sampleConfig sampleUsers
               1793698200900 sampleRegistration
             = (sampleUsersLoggedIn, AuthController.LoggedIn u a r)
             /\ User._id u = 1%N).
  { do 3 eexists. split; vm_compute; reflexivity. }
  destruct H as (u & a & r & H & Hid).
  exists a. rewrite <- Hid.
  apply (login_token_is_admitted _ _ _ _ _ 1793699000000 _ _ _ _ H).
  vm_compute. reflexivity.
Defined.

End Sessions.

(* ================================================================== *)
(** ** The account: password change and deletion *)
(* ================================================================== *)

Section AccountChanges.

(** [changePassword] succeeds only for who knows the current
    password and brings a new one that passes the password rules and
    that the current hash does not accept; it then stores the hash of
    the new password and drops every refresh-token record.  Any other
    outcome writes nothing. *)
Theorem changePassword_effect (L : Lib) (cfg : Config)
    (c : User.Collection) (salt : jsstring) (userId : ObjectId)
    (validationErrors : list string) (currentPassword newPassword : jsstring) :
  let c' := fst (Account.changePassword L cfg c salt userId validationErrors
                   currentPassword newPassword) in
  match snd (Account.changePassword L cfg c salt userId validationErrors
               currentPassword newPassword) with
  | Account.Done _ =>
      exists user u',
        User.findById c userId = Some user
        /\ User.comparePassword L user currentPassword = true
        /\ validatePassword newPassword = []
        /\ User.comparePassword L user newPassword = false
        /\ User.findById c' userId = Some u'
        /\ User.password u'
           = bcrypt_hash L (User.saltRounds cfg) salt newPassword
        /\ User.refreshTokens u' = []
        /\ User.email u' = User.email user
        /\ User.mfaEnabled u' = User.mfaEnabled user
        /\ User.lockUntil u' = User.lockUntil user
        /\ (forall id, id <> userId ->
                       User.findById c' id = User.findById c id)
  | _ => c' = c
  end.
Proof.
  unfold Account.changePassword.
  destruct validationErrors; [|reflexivity].
  destruct (User.findById c userId) as [user|] eqn:Hf; [|reflexivity].
  destruct (User.comparePassword L user currentPassword) eqn:Hc;
    cbn [negb]; [|reflexivity].
  destruct (validatePassword newPassword) eqn:Hv; [|reflexivity].
  destruct (User.comparePassword L user newPassword) eqn:Hn; [reflexivity|].
  cbn [fst snd]. destruct (findById_found _ _ _ Hf) as [Hin Hid].
  set (u' := User.preSave L cfg true salt _).
  exists user, u'. repeat split; try assumption; try reflexivity.
  - rewrite <- Hid. apply (findById_update c u' user Hin). reflexivity.
  - intros id Hne. apply findById_update_other. cbn. congruence.
Qed.

Lemma changePassword_done (L : Lib) (cfg : Config)
    (c c' : User.Collection) (salt : jsstring) (userId : ObjectId)
    (validationErrors : list string) (currentPassword newPassword : jsstring)
    (message : string) :
  Account.changePassword L cfg c salt userId validationErrors
    currentPassword newPassword = (c', Account.Done message) ->
  exists u',
    User.findById c' userId = Some u' /\ User.refreshTokens u' = [].
Proof.
  unfold Account.changePassword. intros H.
  destruct validationErrors; [|discriminate].
  destruct (User.findById c userId) as [user|] eqn:Hf; [|discriminate].
  destruct (User.comparePassword L user currentPassword); cbn [negb] in H;
    [|discriminate].
  destruct (validatePassword newPassword); [|discriminate].
  destruct (User.comparePassword L user newPassword); [discriminate|].
  injection H as <- _. destruct (findById_found _ _ _ Hf) as [Hin Hid].
  exists (User.preSave L cfg true salt
            (User.setRefreshTokens (User.setPassword user newPassword) [])).
  split; [|reflexivity].
  rewrite <- Hid.
  apply (findById_update c
           (User.preSave L cfg true salt
              (User.setRefreshTokens (User.setPassword user newPassword) []))
           user Hin).
  reflexivity.
Qed.

(** After a password change no refresh token issued to the account
    renews anything: whatever token names the account is answered
    401. *)
Theorem changePassword_ends_sessions (L : Lib) (cfg : Config)
    (c c' : User.Collection) (salt : jsstring) (userId : ObjectId)
    (validationErrors : list string) (currentPassword newPassword : jsstring)
    (message : string) (now : Z) (claims : Jwt.Claims) :
  Account.changePassword L cfg c salt userId validationErrors
    currentPassword newPassword = (c', Account.Done message) ->
  Jwt.userId claims = userId ->
  AuthController.status
    (AuthController.refreshToken cfg c' now (Some (Jwt.Signed claims)))
  = 401.
Proof.
  intros H Hid.
  destruct (changePassword_done L cfg c c' salt userId validationErrors
              currentPassword newPassword message H) as (u' & Hf & Hrt).
  unfold AuthController.refreshToken. cbn [Jwt.isEmpty].
  destruct (Tokens.verifyRefreshToken cfg (Jwt.Signed claims) now)
    as [err|decoded] eqn:Hv; [reflexivity|].
  assert (decoded = claims) as ->.
  { unfold Tokens.verifyRefreshToken, Jwt.verify in Hv.
    destruct (negb _); [discriminate|].
    destruct (_ <=? _); [discriminate|]. now injection Hv. }
  rewrite Hid, Hf, Hrt. reflexivity.
Qed.

Lemma changePassword_ends_sessions_witness :
  exists c',
    Account.changePassword sampleLib sampleConfig sampleUsersLoggedIn
      (lit "N9qo8uLOickgx2ZMRZoMyf") 1%N [] (lit "Str0ng!Pass")
      (lit "N3w&Better1")
    = (c', Account.Done "Password changed successfully")
    /\ AuthController.status
         (AuthController.refreshToken sampleConfig c' 1793698201000
            (Some sampleRefreshToken))
       = 401.
Proof.
  assert (Hc : exists c',
             Account.changePassword sampleLib sampleConfig
               sampleUsersLoggedIn (lit "N9qo8uLOickgx2ZMRZoMyf") 1%N []
               (lit "Str0ng!Pass") (lit "N3w&Better1")
             = (c', Account.Done "Password changed successfully"))
    by (eexists; vm_compute; reflexivity).
  destruct Hc as (c' & H). exists c'.
  split; [exact H|].
  apply (changePassword_ends_sessions _ _ _ _ _ _ _ _ _ _ 1793698201000
           (Jwt.mkClaims (lit "refresh-secret") 1%N 1793698200 1794303000)
           H).
  reflexivity.
Defined.



Lemma findByIdAndDelete_other (c : User.Collection) (userId id : ObjectId) :
  id <> userId ->
  User.findById (Account.findByIdAndDelete c userId) id = User.findById c id.
Proof.
  intros Hne. unfold User.findById.
  induction c as [|x c IH]; [reflexivity|].
  cbn [Account.findByIdAndDelete find].
  destruct (User._id x =? userId)%N eqn:He.
  - apply N.eqb_eq in He.
    replace (User._id x =? id)%N with false
      by (symmetry; apply N.eqb_neq; congruence).
    reflexivity.
  - cbn [find]. now rewrite IH.
Qed.

Lemma findByIdAndDelete_gone (c : User.Collection) (userId : ObjectId) :
  NoDup (List.map User._id c) ->
  User.findById (Account.findByIdAndDelete c userId) userId = None.
Proof.
  unfold User.findById. induction c as [|x c IH]; [reflexivity|].
  cbn [List.map]. intros Hnd. apply NoDup_cons_iff in Hnd as [Hx Hnd].
  cbn [Account.findByIdAndDelete].
  destruct (User._id x =? userId)%N eqn:He.
  - apply N.eqb_eq in He. apply find_none_all. intros z Hz.
    apply N.eqb_neq. intros Heq. apply Hx. rewrite He, <- Heq.
    now apply in_map.
  - cbn [find]. rewrite He. now apply IH.
Qed.

Lemma findByIdAndDelete_length (c : User.Collection) (userId : ObjectId)
    (user : User.t) :
  User.findById c userId = Some user ->
  S (List.length (Account.findByIdAndDelete c userId)) = List.length c.
Proof.
  unfold User.findById. induction c as [|x c IH]; [discriminate|].
  cbn [find Account.findByIdAndDelete].
  destruct (User._id x =? userId)%N; [reflexivity|].
  intros H. cbn [List.length]. now rewrite IH.
Qed.

(** [deleteAccount] goes through only with the exact confirmation
    phrase and the account's password; it then removes every entry of
    the account and no entry of anyone else, and one account document,
    leaving the other accounts as they were.  Any other outcome deletes
    nothing. *)
Theorem deleteAccount_effect (L : Lib) (c : User.Collection)
    (entries : JournalEntry.Collection) (userId : ObjectId)
    (validationErrors : list string) (password confirmationText : jsstring) :
  match Account.deleteAccount L c entries userId validationErrors password
          confirmationText with
  | (c', entries', Account.Done _) =>
      confirmationText = lit "DELETE MY ACCOUNT"
      /\ (exists user,
            User.findById c userId = Some user
            /\ User.comparePassword L user password = true)
      /\ (forall e,
            In e entries'
            <-> In e entries /\ JournalEntry.userId e <> userId)
      /\ JournalEntry.countDocuments entries' userId = O
      /\ (forall uid, uid <> userId ->
            JournalEntry.countDocuments entries' uid
            = JournalEntry.countDocuments entries uid)
      /\ S (List.length c') = List.length c
      /\ (forall id, id <> userId ->
                     User.findById c' id = User.findById c id)
      /\ (NoDup (List.map User._id c) -> User.findById c' userId = None)
  | (c', entries', _) => c' = c /\ entries' = entries
  end.
Proof.
  unfold Account.deleteAccount.
  destruct validationErrors; [|now split].
  destruct (str_eqb confirmationText (lit "DELETE MY ACCOUNT")) eqn:Ht;
    cbn [negb]; [|now split].
  destruct (User.findById c userId) as [user|] eqn:Hf; [|now split].
  destruct (User.comparePassword L user password) eqn:Hp; cbn [negb];
    [|now split].
  apply str_eqb_eq in Ht.
  split; [exact Ht|]. split; [now exists user|].
  unfold JournalEntry.deleteMany, JournalEntry.countDocuments.
  split; [|split; [|split; [|split; [|split]]]].
  - intros e. rewrite filter_In, negb_true_iff, N.eqb_neq. tauto.
  - induction entries as [|e entries IH]; [reflexivity|]. cbn [filter].
    destruct (JournalEntry.userId e =? userId)%N eqn:He; cbn [negb];
      [exact IH|].
    cbn [filter]. now rewrite He.
  - intros uid Hne. induction entries as [|e entries IH]; [reflexivity|].
    cbn [filter].
    destruct (JournalEntry.userId e =? userId)%N eqn:He; cbn [negb].
    + apply N.eqb_eq in He.
      replace (JournalEntry.userId e =? uid)%N with false
        by (symmetry; apply N.eqb_neq; congruence).
      exact IH.
    + cbn [filter]. destruct (JournalEntry.userId e =? uid)%N;
        cbn [List.length]; now rewrite IH.
  - now apply (findByIdAndDelete_length c userId user).
  - intros id Hne. now apply findByIdAndDelete_other.
  - apply findByIdAndDelete_gone.
Qed.

Lemma deleteAccount_done (L : Lib) (c c' : User.Collection)
    (entries entries' : JournalEntry.Collection) (userId : ObjectId)
    (validationErrors : list string) (password confirmationText : jsstring)
    (message : string) :
  Account.deleteAccount L c entries userId validationErrors password
    confirmationText = (c', entries', Account.Done message) ->
  c' = Account.findByIdAndDelete c userId.
Proof.
  unfold Account.deleteAccount. intros H.
  destruct validationErrors; [|discriminate].
  destruct (negb _); [discriminate|].
  destruct (User.findById c userId) as [user|]; [|discriminate].
  destruct (negb _); [discriminate|].
  now injection H as <- _ _.
Qed.

(** A deleted account is gone for the middleware and for renewal:
    with distinct account ids, a token that names the deleted account,
    however valid, is answered 401 'User not found' by both. *)
Theorem deleted_account_is_denied (L : Lib) (cfg : Config)
    (c c' : User.Collection) (entries entries' : JournalEntry.Collection)
    (userId : ObjectId) (validationErrors : list string)
    (password confirmationText : jsstring) (message : string) (now : Z)
    (access refresh : Jwt.Claims) :
  Account.deleteAccount L c entries userId validationErrors password
    confirmationText = (c', entries', Account.Done message) ->
  NoDup (List.map User._id c) ->
  Jwt.verify (Jwt.Signed access) (JWT_ACCESS_SECRET cfg) now = inr access ->
  Jwt.userId access = userId ->
  Tokens.verifyRefreshToken cfg (Jwt.Signed refresh) now = inr refresh ->
  Jwt.userId refresh = userId ->
  Middleware.authMiddleware cfg c' now (Middleware.Bearer (Jwt.Signed access))
  = Middleware.denied "User not found"
  /\ AuthController.refreshToken cfg c' now (Some (Jwt.Signed refresh))
     = AuthController.accessDenied "User not found".
Proof.
  intros H Hnd Ha Hida Hr Hidr.
  pose proof (findByIdAndDelete_gone c userId Hnd) as Hgone.
  rewrite <- (deleteAccount_done L c c' entries entries' userId
                validationErrors password confirmationText message H)
    in Hgone.
  split.
  - unfold Middleware.authMiddleware. cbn [Jwt.isEmpty].
    now rewrite Ha, Hida, Hgone.
  - unfold AuthController.refreshToken. cbn [Jwt.isEmpty].
    now rewrite Hr, Hidr, Hgone.
Qed.

Lemma deleted_account_is_denied_witness :
  exists c' entries',
    Account.deleteAccount sampleLib sampleUsersLoggedIn sampleLedger 1%N []
      (lit "Str0ng!Pass") (lit "DELETE MY ACCOUNT")
    = (c', entries', Account.Done "Account deleted successfully")
    /\ Middleware.authMiddleware sampleConfig c' 1793698201000
         (Middleware.Bearer
            (Tokens.generateAccessToken sampleConfig 1%N 1793698200900))
       = Middleware.denied "User not found".
Proof.
  assert (Hd : exists c' entries',
             Account.deleteAccount sampleLib sampleUsersLoggedIn
               sampleLedger 1%N [] (lit "Str0ng!Pass")
               (lit "DELETE MY ACCOUNT")
             = (c', entries', Account.Done "Account deleted successfully"))
    by (do 2 eexists; vm_compute; reflexivity).
  destruct Hd as (c' & entries' & H). exists c', entries'.
  split; [exact H|].
  apply (deleted_account_is_denied sampleLib sampleConfig _ _ _ _ _ _ _ _ _
           1793698201000
           (Jwt.mkClaims (lit "access-secret") 1%N 1793698200 1793699100)
           (Jwt.mkClaims (lit "refresh-secret") 1%N 1793698200 1794303000)
           H).
  - vm_compute. repeat constructor. intros [].
  - reflexivity.
  - reflexivity.
  - reflexivity.
  - reflexivity.
Defined.

End AccountChanges.

(* ================================================================== *)
(** ** Multi-factor authentication: setup, verification, removal *)
(* ================================================================== *)

Section MultiFactor.

(** Enrolment takes two steps.  [setupMFA] stores the secret and ten
    fresh, unused backup codes but leaves MFA off; [verifyMFA] then
    turns it on for a code the authenticator accepts for that secret,
    keeping secret and codes, and refuses any other code with 400,
    writing nothing. *)
Theorem mfa_enrolment (L : Lib) (c c1 : User.Collection)
    (userId : ObjectId) (secret shown : jsstring) (draws : nat -> list N)
    (codes : list jsstring) (now : Z) :
  Mfa.setupMFA c userId secret draws = (c1, Mfa.SetupDone shown codes) ->
  secret <> [] ->
  shown = secret
  /\ codes = List.map User.code (BackupCodes.generateBackupCodes 10 draws)
  /\ List.length codes = 10%nat
  /\ (exists u1,
        User.findById c1 userId = Some u1
        /\ User.mfaEnabled u1 = false
        /\ User.mfaSecret u1 = Some secret
        /\ User.mfaBackupCodes u1 = BackupCodes.generateBackupCodes 10 draws
        /\ Forall (fun bc => User.used bc = false) (User.mfaBackupCodes u1))
  /\ (forall code,
        totp_verify L secret code now = true ->
        exists u2,
          Mfa.verifyMFA L c1 userId code now
          = (User.update c1 u2, Mfa.Done "MFA enabled successfully")
          /\ User.findById (User.update c1 u2) userId = Some u2
          /\ User.mfaEnabled u2 = true
          /\ User.mfaSecret u2 = Some secret
          /\ User.mfaBackupCodes u2 = BackupCodes.generateBackupCodes 10 draws)
  /\ (forall code,
        totp_verify L secret code now = false ->
        Mfa.verifyMFA L c1 userId code now
        = (c1, Mfa.Failed 400 "Invalid MFA code")).
Proof.
  unfold Mfa.setupMFA. intros H Hs.
  destruct (User.findById c userId) as [user|] eqn:Hf; [|discriminate].
  destruct (User.mfaEnabled user) eqn:Hen; [discriminate|].
  injection H as <- <- <-. destruct (findById_found _ _ _ Hf) as [Hin Hid].
  set (u1 := Mfa.setMfa user false (Some secret)
               (BackupCodes.generateBackupCodes 10 draws)).
  assert (Hf1 : User.findById (User.update c u1) userId = Some u1).
  { rewrite <- Hid. apply (findById_update c u1 user Hin). reflexivity. }
  assert (Hns : Mfa.noSecret u1 = false).
  { unfold Mfa.noSecret. cbn. now destruct secret. }
  split; [reflexivity|]. split; [reflexivity|]. split; [reflexivity|].
  split; [|split].
  - exists u1. repeat split; [exact Hf1|].
    cbn [u1 Mfa.setMfa User.mfaBackupCodes].
    unfold BackupCodes.generateBackupCodes.
    apply Forall_forall. intros bc Hbc.
    apply in_map_iff in Hbc as (x & <- & _). reflexivity.
  - intros code Hcode.
    set (u2 := Mfa.setMfa u1 true (User.mfaSecret u1)
                 (User.mfaBackupCodes u1)).
    exists u2. split; [|split; [|repeat split]].
    + unfold Mfa.verifyMFA. rewrite Hf1, Hns.
      replace (totp_verify L
                 (match User.mfaSecret u1 with Some k => k | None => [] end)
                 code now) with true by (symmetry; exact Hcode).
      reflexivity.
    + rewrite <- Hid.
      apply (findById_update (User.update c u1) u2 u1); [|reflexivity].
      now apply (update_holds c u1 user).
  - intros code Hcode. unfold Mfa.verifyMFA. rewrite Hf1, Hns.
    replace (totp_verify L
               (match User.mfaSecret u1 with Some k => k | None => [] end)
               code now) with false by (symmetry; exact Hcode).
    reflexivity.
Qed.

Lemma mfa_enrolment_witness :
  exists c1 shown codes u1,
    Mfa.setupMFA sampleUsers 1%N (lit "JBSWY3DPEHPK3PXP")
      sampleDraws
    = (c1, Mfa.SetupDone shown codes)
    /\ User.findById c1 1%N = Some u1
    /\ User.mfaEnabled u1 = false.
Proof.
  assert (H : exists c1 shown codes,
             Mfa.setupMFA sampleUsers 1%N (lit "JBSWY3DPEHPK3PXP")
               sampleDraws
             = (c1, Mfa.SetupDone shown codes))
    by (do 3 eexists; vm_compute; reflexivity).
  destruct H as (c1 & shown & codes & H).
  destruct (mfa_enrolment sampleLib _ _ _ _ _ _ _ 0 H)
    as (_ & _ & _ & (u1 & Hf & Hen & _) & _); [discriminate|].
  exists c1, shown, codes, u1. repeat split; assumption.
Defined.

(** [disableMFA] goes through only with the account's password
    and, while MFA is on, a code the authenticator accepts for the
    stored secret; it then clears the flag, the secret and the backup
    codes and touches nothing else, so that [login] asks the account for
    no code any more.  Any other outcome writes nothing. *)
Theorem disableMFA_effect (L : Lib) (c : User.Collection)
    (userId : ObjectId) (password mfaCode : jsstring) (now : Z) :
  let c' := fst (Mfa.disableMFA L c userId password mfaCode now) in
  match snd (Mfa.disableMFA L c userId password mfaCode now) with
  | Mfa.Done _ =>
      exists user u',
        User.findById c userId = Some user
        /\ User.comparePassword L user password = true
        /\ (User.mfaEnabled user = true ->
            totp_verify L
              (match User.mfaSecret user with Some k => k | None => [] end)
              mfaCode now = true)
        /\ User.findById c' userId = Some u'
        /\ u' = Mfa.setMfa user false None []
        /\ User.password u' = User.password user
        /\ User.refreshTokens u' = User.refreshTokens user
        /\ (forall code t,
              AuthController.checkMfa L u' code t
              = AuthController.MfaPassed u')
        /\ (forall id, id <> userId ->
                       User.findById c' id = User.findById c id)
  | _ => c' = c
  end.
Proof.
  unfold Mfa.disableMFA.
  destruct (User.findById c userId) as [user|] eqn:Hf; [|reflexivity].
  destruct (User.comparePassword L user password) eqn:Hp; cbn [negb];
    [|reflexivity].
  destruct (User.mfaEnabled user && negb (totp_verify L _ mfaCode now))
    eqn:Hm; [reflexivity|].
  cbn [fst snd]. destruct (findById_found _ _ _ Hf) as [Hin Hid].
  exists user, (Mfa.setMfa user false None []).
  repeat split; try assumption.
  - intros Hen. rewrite Hen in Hm. cbn [andb] in Hm.
    now apply negb_false_iff in Hm.
  - rewrite <- Hid.
    apply (findById_update c (Mfa.setMfa user false None []) user Hin).
    reflexivity.
  - intros id Hne. apply findById_update_other. cbn. congruence.
Qed.

End MultiFactor.

(* ================================================================== *)
(** ** The day's entry: [canWriteToday], reading time, the client's count *)
(* ================================================================== *)

Section DayEntry.

Lemma existsb_false_all {A : Type} (p : A -> bool) (l : list A) :
  (forall x, In x l -> p x = false) -> existsb p l = false.
Proof.
  intros H. induction l as [|x l IH]; [reflexivity|]. cbn [existsb].
  rewrite (H x) by now left. apply IH. intros y Hy. apply H. now right.
Qed.

Lemma find_none_each {A : Type} (p : A -> bool) (l : list A) :
  find p l = None -> forall x, In x l -> p x = false.
Proof. intros H x Hx. exact (find_none p l H x Hx). Qed.

(** [canWriteToday] foretells [createEntry].  For a request that
    would be accepted into an empty store, handled on the UTC day of the
    check and with an unused id: if the check says the identity can
    write, the entry is created; if it says the identity has written,
    the request is refused with 'Entry already exists' and nothing is
    stored. *)
Theorem canWriteToday_foretells_createEntry (c : JournalEntry.Collection)
    (env : JournalController.Env) (req : JournalController.Request)
    (e0 : JournalEntry.t) (now : Z) :
  snd (JournalController.createEntry [] env req)
    = JournalController.Created e0 ->
  toISODate (JournalController.tCheck env) = toISODate now ->
  toISODate (JournalController.tNew env) = toISODate now ->
  (forall x, In x c -> JournalEntry._id x <> JournalController.newId env) ->
  if JournalQueries.canWrite
       (JournalQueries.canWriteToday c (JournalController.req_userId req) now)
  then exists e,
         JournalController.createEntry c env req
         = (c ++ [e], JournalController.Created e)
  else JournalController.createEntry c env req
       = (c, JournalController.entryExists).
Proof.
  intros H0 Hcheck Hnew Hid.
  destruct (JournalController.createEntry [] env req) as [c0 r0] eqn:Hc0.
  cbn [snd] in H0. subst r0.
  destruct (createEntry_created _ _ _ _ _ Hc0) as (d & Hprep & Hsave).
  pose proof (prepare_other_store [] c env req d Hprep) as Hp.
  unfold formatDateString in Hp. rewrite Hcheck in Hp.
  destruct (prepare_doc _ _ _ _ Hprep) as (Huid & Hdate & Hnewid & _).
  destruct (save_inserted _ _ _ _ Hsave) as (Hval & _).
  unfold JournalQueries.canWriteToday, JournalQueries.hasEntryForToday.
  cbn [JournalQueries.canWrite]. unfold JournalController.createEntry.
  destruct (JournalEntry.findOneByDay c (JournalController.req_userId req)
              (toISODate now)) eqn:Hfind; rewrite Hp; cbn [negb];
    [reflexivity|].
  unfold JournalController.commit, JournalEntry.save. rewrite Hval.
  rewrite (preSave_fresh d (prepare_fresh _ _ _ _ Hprep)).
  unfold JournalEntry.insertOne.
  cbn [JournalEntry.userId JournalEntry.dateString JournalEntry._id].
  rewrite Huid, Hdate, Hnew, Hnewid.
  unfold JournalEntry.findOneByDay in Hfind.
  rewrite (existsb_false_all _ c (find_none_each _ c Hfind)).
  rewrite existsb_false_all.
  - cbn [orb]. eexists. reflexivity.
  - intros x Hx. apply N.eqb_neq. now apply Hid.
Qed.

Lemma canWriteToday_foretells_createEntry_witness :
  JournalController.createEntry sampleLedger sampleEnvLater
    (sampleRequest 45)
  = (sampleLedger, JournalController.entryExists).
Proof.
  assert (H0 : exists e0,
             snd (JournalController.createEntry [] sampleEnvLater
                    (sampleRequest 45))
             = JournalController.Created e0)
    by (eexists; vm_compute; reflexivity).
  destruct H0 as (e0 & H0).
  apply (canWriteToday_foretells_createEntry sampleLedger sampleEnvLater
           (sampleRequest 45) e0 (JournalController.tNew sampleEnvLater) H0).
  - vm_compute. reflexivity.
  - reflexivity.
  - vm_compute. intros x [<-|[]]. discriminate.
Defined.

Lemma find_app_miss {A : Type} (p : A -> bool) (l : list A) (x : A) :
  p x = false -> find p (l ++ [x]) = find p l.
Proof.
  intros H. induction l as [|y l IH]; cbn [find List.app];
    [now rewrite H|].
  destruct (p y); [reflexivity | exact IH].
Qed.

(** A created entry closes the day for its identity and for nobody
    else.  After [createEntry] answers 201, [canWriteToday] tells the
    identity, at every instant of the UTC day of [entryDate], that it
    has written and cannot write; what it tells any other identity is
    what it told before. *)
Theorem created_entry_closes_the_day (c c' : JournalEntry.Collection)
    (env : JournalController.Env) (req : JournalController.Request)
    (e : JournalEntry.t) (now : Z) :
  JournalController.createEntry c env req
    = (c', JournalController.Created e) ->
  (toISODate now = toISODate (JournalController.tNew env) ->
   JournalQueries.canWriteToday c' (JournalController.req_userId req) now
   = JournalQueries.mkCanWrite false true)
  /\ (forall uid,
        uid <> JournalController.req_userId req ->
        JournalQueries.canWriteToday c' uid now
        = JournalQueries.canWriteToday c uid now).
Proof.
  intros H. destruct (createEntry_stored _ _ _ _ _ H)
    as (-> & Huid & _ & Hday).
  unfold JournalQueries.canWriteToday, JournalQueries.hasEntryForToday,
    JournalEntry.findOneByDay.
  split.
  - intros Hnow.
    destruct (find_app_found
                (fun x => (JournalEntry.userId x
                           =? JournalController.req_userId req)%N
                          && str_eqb (JournalEntry.dateString x)
                               (toISODate now)) c e) as (y & ->);
      [|reflexivity].
    now rewrite Huid, N.eqb_refl, Hday, Hnow, str_eqb_refl.
  - intros uid Hne. rewrite find_app_miss; [reflexivity|].
    replace (JournalEntry.userId e =? uid)%N with false; [reflexivity|].
    symmetry. apply N.eqb_neq. congruence.
Qed.

Lemma created_entry_closes_the_day_witness :
  JournalQueries.canWriteToday sampleLedger 1%N 1793750000000
  = JournalQueries.mkCanWrite false true.
Proof.
  assert (H : exists e,
             JournalController.createEntry [] sampleEnv (sampleRequest 45)
             = (sampleLedger, JournalController.Created e))
    by (eexists; vm_compute; reflexivity).
  destruct H as (e & H).
  destruct (created_entry_closes_the_day _ _ _ _ _ 1793750000000 H)
    as [Hsame _].
  apply Hsame. vm_compute. reflexivity.
Defined.

Lemma readingTimes_2000 :
  forallb readingTimeExactAt (seq 0 2001) = true.
Proof. vm_compute. reflexivity. Qed.

Lemma tokensGo_count (s acc : jsstring) :
  (2 * List.length (tokensGo acc s)
   <= List.length s + match acc with [] => 1 | _ => 2 end)%nat.
Proof.
  revert acc. induction s as [|c s IH]; intros acc.
  - destruct acc; cbn; lia.
  - cbn [tokensGo]. destruct (isSpace c).
    + destruct acc; cbn [List.length]; specialize (IH []); cbn in IH; lia.
    + specialize (IH (c :: acc)). cbn [List.length]. destruct acc; lia.
Qed.

Lemma estimatedReadingTime_exact (e : JournalEntry.t) :
  (JournalEntry.wordCount e <= 2000)%nat ->
  JournalQueries.estimatedReadingTime e
  = Some (Z.max 1 ((Z.of_nat (JournalEntry.wordCount e) + 199) / 200)).
Proof.
  intros Hw. unfold JournalQueries.estimatedReadingTime.
  assert (Hin : In (JournalEntry.wordCount e) (seq 0 2001))
    by (apply in_seq; lia).
  pose proof (proj1 (forallb_forall readingTimeExactAt (seq 0 2001))
                readingTimes_2000 (JournalEntry.wordCount e) Hin) as H.
  unfold readingTimeExactAt in H.
  destruct (option_map _ _) as [t|]; [|discriminate H].
  f_equal. now apply Z.eqb_eq.
Qed.

Lemma created_wordCount_bound (c c' : JournalEntry.Collection)
    (env : JournalController.Env) (req : JournalController.Request)
    (e : JournalEntry.t) :
  JournalController.createEntry c env req
    = (c', JournalController.Created e) ->
  (JournalEntry.wordCount e <= 1000)%nat.
Proof.
  intros H.
  destruct (createEntry_created _ _ _ _ _ H) as (d & Hprep & Hsave).
  destruct (save_inserted _ _ _ _ Hsave) as (Hval & He & _).
  destruct (validate_nil _ Hval) as (_ & Hlen & _).
  rewrite (preSave_fresh d (prepare_fresh _ _ _ _ Hprep)) in He.
  rewrite He. cbn [JournalEntry.wordCount]. rewrite countWords_tokens.
  pose proof (tokensGo_count
                (trim (JournalEntry.content (JournalEntry.doc d))) [])
    as Htok.
  pose proof (trim_length (JournalEntry.content (JournalEntry.doc d)))
    as Htrim.
  unfold tokens. cbn beta iota in Htok. lia.
Qed.

(** The virtual [estimatedReadingTime] is what its formula says in
    exact arithmetic, the ceiling of wordCount / 200 and at least 1, for
    every count up to 2000; for an entry [createEntry] stored it is
    between 1 and 5 minutes. *)
Theorem estimatedReadingTime_exact_and_bounded :
  (forall e,
     (JournalEntry.wordCount e <= 2000)%nat ->
     JournalQueries.estimatedReadingTime e
     = Some (Z.max 1 ((Z.of_nat (JournalEntry.wordCount e) + 199) / 200)))
  /\ (forall c env req c' e,
        JournalController.createEntry c env req
          = (c', JournalController.Created e) ->
        exists t,
          JournalQueries.estimatedReadingTime e = Some t /\ 1 <= t <= 5).
Proof.
  split; [exact estimatedReadingTime_exact|].
  intros c env req c' e H.
  pose proof (created_wordCount_bound c c' env req e H) as Hw.
  eexists. split; [apply estimatedReadingTime_exact; lia|].
  assert (Hq : (Z.of_nat (JournalEntry.wordCount e) + 199) / 200 < 6)
    by (apply Z.div_lt_upper_bound; lia).
  lia.
Qed.

(** The count the client shows is the count the server stores:
    for an entry [createEntry] stored from a text that holds no angle
    bracket and, trimmed, has at most 2000 code units, [wordCount] is
    what the client's [countWords] gives for the text as typed. *)
Theorem client_count_is_server_count (c c' : JournalEntry.Collection)
    (env : JournalController.Env) (req : JournalController.Request)
    (e : JournalEntry.t) :
  JournalController.createEntry c env req
    = (c', JournalController.Created e) ->
  forallb (fun ch => negb (isAngle ch))
          (Validator.content (JournalController.req_body req)) = true ->
  (List.length (trim (Validator.content (JournalController.req_body req)))
   <= 2000)%nat ->
  JournalEntry.wordCount e
  = Frontend.countWords (Validator.content (JournalController.req_body req))
  /\ JournalEntry.content e
     = trim (Validator.content (JournalController.req_body req)).
Proof.
  intros H Hclean Hlen.
  destruct (createEntry_created _ _ _ _ _ H) as (d & Hprep & Hsave).
  destruct (save_inserted _ _ _ _ Hsave) as (_ & -> & _).
  destruct (prepare_document _ _ _ _ Hprep) as (_ & Hcontent & _).
  rewrite (preSave_fresh d (prepare_fresh _ _ _ _ Hprep)).
  cbn [JournalEntry.wordCount JournalEntry.content]. rewrite Hcontent.
  set (raw := Validator.content (JournalController.req_body req)) in *.
  assert (Hs : sanitizeInput (trim raw) = trim raw).
  { apply (sanitizeInput_fixed (trim raw)); [apply trim_idempotent| |easy].
    apply forallb_forall. intros ch Hch.
    rewrite forallb_forall in Hclean. apply Hclean.
    now apply (trim_incl raw). }
  rewrite Hs, trim_idempotent. split; [|reflexivity].
  unfold JournalEntry.countWords, Frontend.countWords.
  now rewrite trim_idempotent.
Qed.

Lemma client_count_is_server_count_witness :
  exists c' e,
    JournalController.createEntry [] sampleEnv
      (JournalController.mkRequest 1%N
         (Validator.mkBody (lit "  Walked to the old harbour  ") 45 None
            None)
         (lit "203.0.113.9") None None)
    = (c', JournalController.Created e)
    /\ JournalEntry.wordCount e = 5%nat.
Proof.
  assert (H : exists c' e,
             JournalController.createEntry [] sampleEnv
               (JournalController.mkRequest 1%N
                  (Validator.mkBody (lit "  Walked to the old harbour  ") 45
                     None None)
                  (lit "203.0.113.9") None None)
             = (c', JournalController.Created e))
    by (do 2 eexists; vm_compute; reflexivity).
  destruct H as (c' & e & H). exists c', e. split; [exact H|].
  destruct (client_count_is_server_count _ _ _ _ _ H) as [Hw _].
  - vm_compute. reflexivity.
  - vm_compute. lia.
  - rewrite Hw. vm_compute. reflexivity.
Defined.

End DayEntry.
